(** * A shallow embedding of the chat application's servers and chat contexts

    The development follows the sources file by file:
    - [SyncServer]  : the HTTP user registry of [server.cjs], whose
      registration and reset routes [sync-server.cjs] repeats over a JSON
      file;
    - [FileServer]  : that file-backed registry, [sync-server.cjs];
    - [Auth]        : the registration and login screen, [AuthScreen.tsx];
    - [ChatServer]  : the socket.io server with its in-memory [globalData]
      and the registry routes it repeats;
    - [Hook]        : the list of online users [useWebSocket.ts] keeps;
    - [ChatContext] : the React chat context, in its localStorage-only
      version and in its WebSocket version.

    JavaScript values are modelled as follows.  Strings are [string];
    [Date.now()] is an argument [now : Z] of the handler that reads the clock
    (milliseconds); [Math.random()] is an argument giving its decimal
    rendering; the counter is a [nat] (a JS number, exact far beyond any
    reachable count); an absent or [undefined] property is [None];
    [new Date().toISOString()] is kept as the instant it renders.  A React
    state cell is a record field, a handler is a function from the committed
    state to its result and the next state, and its functional updaters are
    applied to that same state (one render between two calls). *)

From Stdlib Require Import Ascii.
From stdpp Require Import base strings list sorting gmap pretty.

Open Scope string_scope.
Open Scope list_scope.

(** ** JavaScript helpers *)

Module Js.

(** [a || b] on an optional string: [undefined] and the empty string are
    falsy. *)
Definition or_else (a : option string) (b : string) : string :=
  match a with
  | Some s => if decide (s = "") then b else s
  | None => b
  end.

(** An instant: either a string the client supplied or the ISO rendering
    of the clock value [ms]. *)
Inductive Instant :=
| Given (s : string)
| IsoOf (ms : Z).

Definition instant_or (a : option Instant) (now : Z) : Instant :=
  match a with
  | Some (Given s) => if decide (s = "") then IsoOf now else Given s
  | Some (IsoOf ms) => IsoOf ms
  | None => IsoOf now
  end.

(** A JS [Map] keeps its keys in insertion order; [set] on a present key
    replaces the value in place. *)
Section Map.
Context {V : Type}.

Fixpoint get (k : string) (m : list (string * V)) : option V :=
  match m with
  | [] => None
  | (k', v) :: m' => if decide (k' = k) then Some v else get k m'
  end.

Definition has (k : string) (m : list (string * V)) : bool :=
  match get k m with Some _ => true | None => false end.

Fixpoint set (k : string) (v : V) (m : list (string * V)) : list (string * V) :=
  match m with
  | [] => [(k, v)]
  | (k', v') :: m' =>
      if decide (k' = k) then (k, v) :: m' else (k', v') :: set k v m'
  end.

Fixpoint delete (k : string) (m : list (string * V)) : list (string * V) :=
  match m with
  | [] => []
  | (k', v') :: m' =>
      if decide (k' = k) then m' else (k', v') :: delete k m'
  end.
End Map.

End Js.

(** ** Records shared by the servers and the contexts *)

Module UserData.
(** The object a client registers with and logs in with.  The registry
    fills in [sequentialId] and [displayUsername]. *)
Record t := mk {
  id : option string;
  name : string;
  username : string;
  password : string;
  displayUsername : option string;
  sequentialId : option nat;
  avatar : string;
  createdAt : option Js.Instant
}.
End UserData.

(** ** [server.cjs]: the user registry *)

Module SyncServer.

(** [let userData = { users: [], counter: 0 }]. *)
Record Data := mkData {
  users : list UserData.t;
  counter : nat
}.

Definition initial : Data := {| users := []; counter := 0 |}.

Inductive Response :=
| Json (u : UserData.t)
| Status400 (error : string)
| Message200 (message : string).

(** The template string [`#${data.counter}`]. *)
Definition handle (n : nat) : string := "#" +:+ pretty n.

(** [data.users.find(u => u.username === userDataInput.username)]. *)
Definition find_username (name : string) (us : list UserData.t) : option UserData.t :=
  List.find (fun u => bool_decide (UserData.username u = name)) us.

(** [app.post('/api/users')]: the body is mutated and pushed. *)
Definition post_users (data : Data) (body : UserData.t) (now : Z) : Data * Response :=
  match find_username (UserData.username body) (users data) with
  | Some _ => (data, Status400 "Username already exists")
  | None =>
      let c := S (counter data) in
      let u :=
        {| UserData.id := Some (Js.or_else (UserData.id body) ("user_" +:+ pretty now));
           UserData.name := UserData.name body;
           UserData.username := UserData.username body;
           UserData.password := UserData.password body;
           UserData.displayUsername := Some (handle c);
           UserData.sequentialId := Some c;
           UserData.avatar := UserData.avatar body;
           UserData.createdAt := Some (Js.instant_or (UserData.createdAt body) now) |} in
      ({| users := users data ++ [u]; counter := c |}, Json u)
  end.

(** [app.delete('/api/users')]. *)
Definition delete_users (data : Data) : Data * Response :=
  ({| users := []; counter := 0 |}, Message200 "All users deleted").

(** A run of registration attempts, each with the clock value it reads. *)
Fixpoint post_all (data : Data) (reqs : list (UserData.t * Z)) : Data * list Response :=
  match reqs with
  | [] => (data, [])
  | (body, now) :: reqs' =>
      let '(data1, r) := post_users data body now in
      let '(data2, rs) := post_all data1 reqs' in
      (data2, r :: rs)
  end.

(** The users created by a run, in the order the responses were sent. *)
Definition created (rs : list Response) : list UserData.t :=
  omap (fun r => match r with Json u => Some u | _ => None end) rs.

(** The body of [PUT /api/users/:id]: the properties it carries, an absent
    one being [None]. *)
Record Patch := mkPatch {
  p_id : option string;
  p_name : option string;
  p_username : option string;
  p_password : option string;
  p_displayUsername : option string;
  p_sequentialId : option nat;
  p_avatar : option string;
  p_createdAt : option Js.Instant
}.

(** [{ ...user, ...updateData }]. *)
Definition spread (u : UserData.t) (p : Patch) : UserData.t :=
  {| UserData.id := match p_id p with Some i => Some i | None => UserData.id u end;
     UserData.name := default (UserData.name u) (p_name p);
     UserData.username := default (UserData.username u) (p_username p);
     UserData.password := default (UserData.password u) (p_password p);
     UserData.displayUsername :=
       match p_displayUsername p with
       | Some d => Some d
       | None => UserData.displayUsername u
       end;
     UserData.sequentialId :=
       match p_sequentialId p with
       | Some n => Some n
       | None => UserData.sequentialId u
       end;
     UserData.avatar := default (UserData.avatar u) (p_avatar p);
     UserData.createdAt :=
       match p_createdAt p with
       | Some c => Some c
       | None => UserData.createdAt u
       end |}.

Definition no_change : Patch :=
  {| p_id := None; p_name := None; p_username := None; p_password := None;
     p_displayUsername := None; p_sequentialId := None; p_avatar := None;
     p_createdAt := None |}.

Inductive Updated :=
| UpdatedUser (u : UserData.t)
| Status404 (error : string).

(** [app.put('/api/users/:id')]. *)
Definition put_users (data : Data) (userId : string) (updateData : Patch) : Data * Updated :=
  match list_find (fun u => UserData.id u = Some userId) (users data) with
  | None => (data, Status404 "User not found")
  | Some (userIndex, u) =>
      let u' := spread u updateData in
      ({| users := <[userIndex := u']> (users data); counter := counter data |},
       UpdatedUser u')
  end.

(** [app.get('/api/health')], without the constant status and the clock. *)
Record Health := mkHealth {
  health_users : nat;
  health_counter : nat
}.

Definition get_health (data : Data) : Health :=
  {| health_users := length (users data); health_counter := counter data |}.

(** The requests that change the registry. *)
Inductive Request :=
| Post (body : UserData.t) (now : Z)
| Put (userId : string) (updateData : Patch)
| Delete.

Definition serve (data : Data) (r : Request) : Data :=
  match r with
  | Post body now => (post_users data body now).1
  | Put userId updateData => (put_users data userId updateData).1
  | Delete => (delete_users data).1
  end.

(** The users are numbered 1, 2, ... in order, carry the matching handles,
    and have pairwise different usernames. *)
Definition numbered (data : Data) : Prop :=
  UserData.sequentialId <$> users data = Some <$> seq 1 (counter data)
  ∧ UserData.displayUsername <$> users data
    = (fun k => Some (handle k)) <$> seq 1 (counter data)
  ∧ NoDup (UserData.username <$> users data).

End SyncServer.

(** ** [sync-server.cjs]: the registry kept in a file *)

Module FileServer.

(** [shared-users.json]: it cannot be read or parsed, or it holds the
    registry. *)
Inductive File :=
| Unreadable
| Holds (data : SyncServer.Data).

(** What [fs.writeFileSync] does: it writes, or it throws and leaves the
    file in some state. *)
Inductive Outcome :=
| Written
| Thrown (remains : File).

(** [readData()]. *)
Definition readData (file : File) : SyncServer.Data :=
  match file with
  | Holds data => data
  | Unreadable => {| SyncServer.users := []; SyncServer.counter := 0 |}
  end.

(** [writeData(data)]. *)
Definition writeData (o : Outcome) (data : SyncServer.Data) : bool * File :=
  match o with
  | Written => (true, Holds data)
  | Thrown remains => (false, remains)
  end.

Inductive Reply :=
| Registry (r : SyncServer.Response)
| User (r : SyncServer.Updated)
| Status500 (error : string).

(** [app.post('/api/users')]. *)
Definition post_users (file : File) (body : UserData.t) (now : Z) (o : Outcome)
  : File * Reply :=
  let data := readData file in
  match SyncServer.find_username (UserData.username body) (SyncServer.users data) with
  | Some _ => (file, Registry (SyncServer.Status400 "Username already exists"))
  | None =>
      let c := S (SyncServer.counter data) in
      let u :=
        {| UserData.id := Some (Js.or_else (UserData.id body) ("user_" +:+ pretty now));
           UserData.name := UserData.name body;
           UserData.username := UserData.username body;
           UserData.password := UserData.password body;
           UserData.displayUsername := Some (SyncServer.handle c);
           UserData.sequentialId := Some c;
           UserData.avatar := UserData.avatar body;
           UserData.createdAt := Some (Js.instant_or (UserData.createdAt body) now) |} in
      let '(ok, file') :=
        writeData o {| SyncServer.users := SyncServer.users data ++ [u];
                       SyncServer.counter := c |} in
      if ok then (file', Registry (SyncServer.Json u))
      else (file', Status500 "Failed to save user")
  end.

(** [app.put('/api/users/:id')]. *)
Definition put_users (file : File) (userId : string) (updateData : SyncServer.Patch)
    (o : Outcome) : File * Reply :=
  let data := readData file in
  match list_find (fun u => UserData.id u = Some userId) (SyncServer.users data) with
  | None => (file, User (SyncServer.Status404 "User not found"))
  | Some (userIndex, u) =>
      let u' := SyncServer.spread u updateData in
      let '(ok, file') :=
        writeData o {| SyncServer.users := <[userIndex := u']> (SyncServer.users data);
                       SyncServer.counter := SyncServer.counter data |} in
      if ok then (file', User (SyncServer.UpdatedUser u'))
      else (file', Status500 "Failed to update user")
  end.

(** [app.delete('/api/users')]. *)
Definition delete_users (o : Outcome) : File * Reply :=
  let '(ok, file') :=
    writeData o {| SyncServer.users := []; SyncServer.counter := 0 |} in
  if ok then (file', Registry (SyncServer.Message200 "All users deleted"))
  else (file', Status500 "Failed to delete users").

Definition serve (file : File) (r : SyncServer.Request) (o : Outcome) : File * Reply :=
  match r with
  | SyncServer.Post body now => post_users file body now o
  | SyncServer.Put userId updateData => put_users file userId updateData o
  | SyncServer.Delete => delete_users o
  end.

(** What [server.cjs] answers to the same request. *)
Definition in_memory (data : SyncServer.Data) (r : SyncServer.Request) : Reply :=
  match r with
  | SyncServer.Post body now => Registry (SyncServer.post_users data body now).2
  | SyncServer.Put userId updateData => User (SyncServer.put_users data userId updateData).2
  | SyncServer.Delete => Registry (SyncServer.delete_users data).2
  end.

(** Requests served one after the other, every write going through. *)
Fixpoint serve_all (file : File) (rs : list SyncServer.Request) : File * list Reply :=
  match rs with
  | [] => (file, [])
  | r :: rs' =>
      let '(file1, a) := serve file r Written in
      let '(file2, answers) := serve_all file1 rs' in
      (file2, a :: answers)
  end.

Fixpoint in_memory_all (data : SyncServer.Data) (rs : list SyncServer.Request)
  : SyncServer.Data * list Reply :=
  match rs with
  | [] => (data, [])
  | r :: rs' =>
      let '(data2, answers) := in_memory_all (SyncServer.serve data r) rs' in
      (data2, in_memory data r :: answers)
  end.

End FileServer.

(** ** [AuthScreen.tsx]: registering and logging in *)

Module Auth.

(** The key [shared_registered_users_db]: absent (or the empty string), a
    string that is no JSON, or the users. *)
Inductive Shared :=
| NoUsers
| BadUsers
| Users (users : list UserData.t).

(** localStorage as the screen uses it: the shared database, the old
    per-user records [registered_user_*] (an unparsable one is [None]) and
    the counter of the offline handles. *)
Record Store := mkStore {
  shared_registered_users_db : Shared;
  registered_user_ : gmap string (option UserData.t);
  shared_user_counter : option nat
}.

Definition setShared (users : list UserData.t) (ls : Store) : Store :=
  {| shared_registered_users_db := Users users;
     registered_user_ := registered_user_ ls;
     shared_user_counter := shared_user_counter ls |}.

Definition generateNextUserId (ls : Store) : nat * Store :=
  let nextId := match shared_user_counter ls with
                | Some lastUserId => lastUserId + 1
                | None => 1
                end in
  (nextId,
   {| shared_registered_users_db := shared_registered_users_db ls;
      registered_user_ := registered_user_ ls;
      shared_user_counter := Some nextId |}).

(** [getAllRegisteredUsers()].  The logging line parses the shared string
    outside the [try]: on a string that is no JSON the call throws
    ([None]).  Without the shared key the old records are collected, saved
    as the shared database and removed by the usernames they carry. *)
Definition getAllRegisteredUsers (ls : Store) : option (list UserData.t * Store) :=
  match shared_registered_users_db ls with
  | BadUsers => None
  | Users users => Some (users, ls)
  | NoUsers =>
      let users := omap id (map_to_list (registered_user_ ls)).*2 in
      if decide (0 < length users) then
        Some (users,
              {| shared_registered_users_db := Users users;
                 registered_user_ :=
                   foldl (fun m user => delete (UserData.username user) m)
                         (registered_user_ ls) users;
                 shared_user_counter := shared_user_counter ls |})
      else Some (users, ls)
  end.

Definition saveUserToSharedDatabase (ls : Store) (userData : UserData.t) : option Store :=
  match getAllRegisteredUsers ls with
  | Some (existingUsers, ls1) => Some (setShared (existingUsers ++ [userData]) ls1)
  | None => None
  end.

Inductive Validation :=
| Valid (user : UserData.t)
| Invalid (message : string).

Definition validateLogin (ls : Store) (username password : string)
  : option (Validation * Store) :=
  match getAllRegisteredUsers ls with
  | Some (allUsers, ls1) =>
      Some (match SyncServer.find_username username allUsers with
            | None => Invalid "Usuário não encontrado. Você precisa se cadastrar primeiro."
            | Some user =>
                if decide (UserData.password user = password) then Valid user
                else Invalid "Senha incorreta."
            end, ls1)
  | None => None
  end.

(** What a handler does that the rest of the application sees. *)
Inductive Effect :=
| ToastError (message : string)
| ToastSuccess (message : string)
| OnLogin (user : UserData.t).

(** [handleLogin]; [None] when the call throws. *)
Definition handleLogin (ls : Store) (username password : string)
  : option (list Effect * Store) :=
  if decide (username = "" ∨ password = "") then
    Some ([ToastError "Por favor, preencha todos os campos."], ls)
  else
    match validateLogin ls username password with
    | Some (Valid user, ls1) =>
        Some ([ToastSuccess "Login realizado com sucesso!"; OnLogin user], ls1)
    | Some (Invalid message, ls1) => Some ([ToastError message], ls1)
    | None => None
    end.

Record RegisterData := mkRegister {
  rd_name : string;
  rd_username : string;
  rd_password : string;
  rd_confirmPassword : string
}.

(** [fetchUsersFromServer()]: [null] when the server cannot be reached. *)
Definition fetchUsersFromServer (reached : bool) (server : SyncServer.Data)
  : option (list UserData.t) :=
  if reached then Some (SyncServer.users server) else None.

(** [saveUserToServer(userData)]: the saved user when the response is ok. *)
Definition saveUserToServer (reached : bool) (server : SyncServer.Data)
    (userData : UserData.t) (now : Z) : option UserData.t * SyncServer.Data :=
  if reached then
    match SyncServer.post_users server userData now with
    | (server1, SyncServer.Json savedUser) => (Some savedUser, server1)
    | (server1, _) => (None, server1)
    end
  else (None, server).

Definition getAllRegisteredUsersAsync (ls : Store) (reached : bool)
    (server : SyncServer.Data) : option (list UserData.t * Store) :=
  match fetchUsersFromServer reached server with
  | Some serverUsers => Some (serverUsers, setShared serverUsers ls)
  | None => getAllRegisteredUsers ls
  end.

(** The three requests of one registration, each reaching the server or
    not, and the clock values read on the way. *)
Record Round := mkRound {
  reached_list : bool;
  reached_save : bool;
  reached_reload : bool;
  now_id : Z;
  now_created : Z;
  now_server : Z
}.

(** The users a handler has handed to [onLogin]. *)
Definition logged_in (effects : list Effect) : list UserData.t :=
  omap (fun e => match e with OnLogin user => Some user | _ => None end) effects.

(** The body of a registration, as [handleRegister] builds it. *)
Definition new_user (rd : RegisterData) (k : Round) : UserData.t :=
  {| UserData.id := Some ("user_" +:+ pretty (now_id k));
     UserData.name := rd_name rd;
     UserData.username := rd_username rd;
     UserData.password := rd_password rd;
     UserData.displayUsername := None;
     UserData.sequentialId := None;
     UserData.avatar := "😊";
     UserData.createdAt := Some (Js.IsoOf (now_created k)) |}.

Definition with_handle (userId : nat) (userData : UserData.t) : UserData.t :=
  {| UserData.id := UserData.id userData;
     UserData.name := UserData.name userData;
     UserData.username := UserData.username userData;
     UserData.password := UserData.password userData;
     UserData.displayUsername := Some ("#" +:+ pretty userId);
     UserData.sequentialId := Some userId;
     UserData.avatar := UserData.avatar userData;
     UserData.createdAt := UserData.createdAt userData |}.

(** The branch [if (savedUser)]: the effects, or [None] when it throws. *)
Definition saved_on_server (ls1 : Store) (reached : bool) (server1 : SyncServer.Data)
    (savedUser : UserData.t) : option (list Effect) * Store :=
  let ls2 := match fetchUsersFromServer reached server1 with
             | Some serverUsers => setShared serverUsers ls1
             | None => ls1
             end in
  (Some [ToastSuccess ("Conta criada com sucesso! Seu ID é "
                       +:+ default "undefined" (UserData.displayUsername savedUser));
         OnLogin savedUser], ls2).

(** The branch [else]: the fallback to localStorage. *)
Definition saved_locally (ls1 : Store) (userData : UserData.t)
  : option (list Effect) * Store :=
  let '(userId, ls2) := generateNextUserId ls1 in
  let userData' := with_handle userId userData in
  match saveUserToSharedDatabase ls2 userData' with
  | Some ls3 =>
      (Some [ToastSuccess ("Conta criada com sucesso! Seu ID é #" +:+ pretty userId);
             OnLogin userData'], ls3)
  | None => (None, ls2)
  end.

(** The end of the [try] block, [updateRegisteredUsersCount()], and the
    [catch]. *)
Definition counted (r : option (list Effect) * Store) : list Effect * Store :=
  match r with
  | (Some effects, ls3) =>
      match getAllRegisteredUsers ls3 with
      | Some (_, ls4) => (effects, ls4)
      | None => (effects ++ [ToastError "Erro ao criar conta. Tente novamente."], ls3)
      end
  | (None, ls3) => ([ToastError "Erro ao criar conta. Tente novamente."], ls3)
  end.

Section Length.
(** [s.length], in UTF-16 code units. *)
Variable js_length : string → nat.

(** [handleRegister]: the effects, the store and the server afterwards. *)
Definition handleRegister (ls : Store) (server : SyncServer.Data) (rd : RegisterData)
    (k : Round) : list Effect * Store * SyncServer.Data :=
  if decide (rd_name rd = "" ∨ rd_username rd = "" ∨ rd_password rd = ""
             ∨ rd_confirmPassword rd = "") then
    ([ToastError "Por favor, preencha todos os campos."], ls, server)
  else if decide (rd_password rd ≠ rd_confirmPassword rd) then
    ([ToastError "As senhas não coincidem."], ls, server)
  else if decide (js_length (rd_password rd) < 4) then
    ([ToastError "A senha deve ter pelo menos 4 caracteres."], ls, server)
  else
    match getAllRegisteredUsersAsync ls (reached_list k) server with
    | None => ([ToastError "Erro ao criar conta. Tente novamente."], ls, server)
    | Some (allUsers, ls1) =>
        match SyncServer.find_username (rd_username rd) allUsers with
        | Some _ =>
            ([ToastError "Nome de usuário já existe. Escolha outro."], ls1, server)
        | None =>
            let userData := new_user rd k in
            let '(saved, server1) :=
              saveUserToServer (reached_save k) server userData (now_server k) in
            (counted match saved with
                     | Some savedUser =>
                         saved_on_server ls1 (reached_reload k) server1 savedUser
                     | None => saved_locally ls1 userData
                     end,
             server1)
        end
    end.

(** Registrations one after the other; the users handed to [onLogin], in
    order. *)
Fixpoint register_all (ls : Store) (server : SyncServer.Data)
    (reqs : list (RegisterData * Round)) : list UserData.t * Store * SyncServer.Data :=
  match reqs with
  | [] => ([], ls, server)
  | (rd, k) :: reqs' =>
      let '(effects, ls1, server1) := handleRegister ls server rd k in
      let '(users, ls2, server2) := register_all ls1 server1 reqs' in
      (logged_in effects ++ users, ls2, server2)
  end.
End Length.

(** No request of the round reaches the server. *)
Definition offline (k : Round) : Prop :=
  reached_list k = false ∧ reached_save k = false ∧ reached_reload k = false.

(** The number the counter key stands at. *)
Definition counter (ls : Store) : nat := default 0 (shared_user_counter ls).

End Auth.

(** ** Records of the real-time channel *)

Inductive Presence := online | away | offline.

Module User.
(** The identity a client announces on [user-login] and keeps as
    [currentUser]; also the shape of an entry of the friends list. *)
Record t := mk {
  id : string;
  name : string;
  username : string;
  displayUsername : option string;
  avatar : string;
  status : Presence
}.

(** [u.displayUsername || u.username]. *)
Definition shown (u : t) : string := Js.or_else (displayUsername u) (username u).
End User.

Module Message.
Record t := mk {
  id : string;
  senderId : string;
  receiverId : string;
  content : string;
  timestamp : Js.Instant;
  type : string;
  read : bool
}.
End Message.

Inductive RequestStatus := pending | accepted | rejected.

Module FriendRequest.
Record t := mk {
  id : string;
  senderId : string;
  receiverId : string;
  senderName : string;
  senderUsername : string;
  senderAvatar : string;
  timestamp : Js.Instant;
  status : RequestStatus
}.
End FriendRequest.

#[global] Instance Presence_eq_dec : EqDecision Presence.
Proof. solve_decision. Defined.
#[global] Instance RequestStatus_eq_dec : EqDecision RequestStatus.
Proof. solve_decision. Defined.
#[global] Instance Instant_eq_dec : EqDecision Js.Instant.
Proof. solve_decision. Defined.
#[global] Instance Message_eq_dec : EqDecision Message.t.
Proof. solve_decision. Defined.
#[global] Instance FriendRequest_eq_dec : EqDecision FriendRequest.t.
Proof. solve_decision. Defined.

(** ** The socket.io server with its in-memory [globalData] *)

Module ChatServer.

Module Conversation.
Record t := mk {
  id : string;
  participants : list string;
  createdAt : Js.Instant;
  lastMessage : option Message.t;
  unreadCount : nat;
  updatedAt : option Js.Instant
}.
End Conversation.

(** A value of [globalData.onlineUsers]. *)
Record OnlineInfo := mkOnline {
  socketId : string;
  userData : User.t;
  lastSeen : Z
}.

Record GlobalData := mkGlobal {
  users : list UserData.t;
  counter : nat;
  onlineUsers : list (string * OnlineInfo);
  conversations : gmap string Conversation.t;
  messages : gmap string (list Message.t);
  friendRequests : gmap string (list FriendRequest.t)
}.

(** The server process: [globalData], the connected sockets in connection
    order, and the room memberships [(socket id, room)] in join order.
    A socket is a member of the room named by its own id from the moment
    it connects. *)
Record State := mkState {
  globalData : GlobalData;
  sockets : list string;
  rooms : list (string * string)
}.

Definition initial : State :=
  {| globalData := {| users := []; counter := 0; onlineUsers := [];
                      conversations := ∅; messages := ∅; friendRequests := ∅ |};
     sockets := []; rooms := [] |}.

(** The public entry of a user in [user-online] and [online-users-list];
    its [status] is the constant ['online']. *)
Record OnlineEntry := mkEntry {
  entry_id : string;
  entry_name : string;
  entry_username : string;
  entry_avatar : string
}.

Record FriendData := mkFriend {
  friend_id : string;
  friend_name : string;
  friend_username : string
}.

(** What the server pushes to a socket. *)
Inductive Emitted :=
| UserOnline (e : OnlineEntry)
| OnlineUsersList (l : list OnlineEntry)
| FriendRequestsUpdate (l : list FriendRequest.t)
| FriendRequestReceived (r : FriendRequest.t)
| FriendRequestSent (success : bool) (receiverId : string)
| FriendRequestAccepted (conversationId : string) (friendData : FriendData)
| ConversationCreated (conversationId : string) (friendData : FriendData)
| MessageReceived (conversationId : string) (message : Message.t)
| UserTyping (userId userName : string)
| UserStoppedTyping (userId : string)
| UserOffline (id : string).

(** A delivery: the receiving socket and the event. *)
Definition Delivery : Type := string * Emitted.

Definition set_globalData (g : GlobalData) (st : State) : State :=
  {| globalData := g; sockets := sockets st; rooms := rooms st |}.

(** *** socket.io primitives *)

Definition members (room : string) (st : State) : list string :=
  (filter (fun p : string * string => p.2 = room) (rooms st)).*1.

(** [socket.join(room)]: a second join of the same room changes nothing. *)
Definition join (sid room : string) (st : State) : State :=
  if decide ((sid, room) ∈ rooms st) then st
  else {| globalData := globalData st; sockets := sockets st;
          rooms := rooms st ++ [(sid, room)] |}.

(** [io.to(room).emit(e)]. *)
Definition io_to (room : string) (e : Emitted) (st : State) : list Delivery :=
  (fun s => (s, e)) <$> members room st.

(** [socket.to(room).emit(e)]: everyone in the room but the sender. *)
Definition socket_to (sid room : string) (e : Emitted) (st : State) : list Delivery :=
  (fun s => (s, e)) <$> filter (fun s => s ≠ sid) (members room st).

(** [socket.emit(e)]. *)
Definition socket_emit (sid : string) (e : Emitted) : list Delivery := [(sid, e)].

(** [socket.broadcast.emit(e)]: every connected socket but the sender. *)
Definition socket_broadcast (sid : string) (e : Emitted) (st : State) : list Delivery :=
  (fun s => (s, e)) <$> filter (fun s => s ≠ sid) (sockets st).

Definition user_room (userId : string) : string := "user_" +:+ userId.
Definition conv_room (conversationId : string) : string := "conv_" +:+ conversationId.

(** *** Handlers *)

(** [io.on('connection')]. *)
Definition connection (st : State) (sid : string) : State * list Delivery :=
  (join sid sid {| globalData := globalData st;
                   sockets := if decide (sid ∈ sockets st) then sockets st
                              else sockets st ++ [sid];
                   rooms := rooms st |}, []).

Definition entry_of (u : User.t) : OnlineEntry :=
  {| entry_id := User.id u; entry_name := User.name u;
     entry_username := User.shown u; entry_avatar := User.avatar u |}.

(** [socket.on('user-login')]. *)
Definition user_login (st : State) (sid : string) (u : User.t) (now : Z)
  : State * list Delivery :=
  let g := globalData st in
  let online' :=
    Js.set (User.id u) {| socketId := sid; userData := u; lastSeen := now |}
           (onlineUsers g) in
  let g' := {| users := users g; counter := counter g; onlineUsers := online';
               conversations := conversations g; messages := messages g;
               friendRequests := friendRequests g |} in
  let st' := join sid (user_room (User.id u)) (set_globalData g' st) in
  let onlineUsersList :=
    (fun i => entry_of (userData i))
      <$> filter (fun i => User.id (userData i) ≠ User.id u) (online'.*2) in
  let userRequests := default [] (friendRequests g !! User.id u) in
  (st',
   socket_broadcast sid (UserOnline (entry_of u)) st'
     ++ socket_emit sid (OnlineUsersList onlineUsersList)
     ++ socket_emit sid (FriendRequestsUpdate userRequests)).

(** The payload of [send-friend-request]. *)
Record FriendRequestData := mkFRData {
  fr_senderId : string;
  fr_receiverId : string;
  fr_senderData : User.t
}.

(** [socket.on('send-friend-request')]. *)
Definition send_friend_request (st : State) (sid : string) (data : FriendRequestData)
    (now : Z) (rnd : string) : State * list Delivery :=
  let g := globalData st in
  let friendRequest :=
    {| FriendRequest.id := "req_" +:+ pretty now +:+ "_" +:+ rnd;
       FriendRequest.senderId := fr_senderId data;
       FriendRequest.receiverId := fr_receiverId data;
       FriendRequest.senderName := User.name (fr_senderData data);
       FriendRequest.senderUsername := User.shown (fr_senderData data);
       FriendRequest.senderAvatar := User.avatar (fr_senderData data);
       FriendRequest.timestamp := Js.IsoOf now;
       FriendRequest.status := pending |} in
  let receiverId := fr_receiverId data in
  let requests := default [] (friendRequests g !! receiverId) ++ [friendRequest] in
  let g' := {| users := users g; counter := counter g; onlineUsers := onlineUsers g;
               conversations := conversations g; messages := messages g;
               friendRequests := <[receiverId := requests]> (friendRequests g) |} in
  let st' := set_globalData g' st in
  (st',
   io_to (user_room receiverId) (FriendRequestReceived friendRequest) st'
     ++ socket_emit sid (FriendRequestSent true receiverId)).

(** [socket.on('accept-friend-request')]. *)
Definition accept_friend_request (st : State) (sid : string)
    (requestId userId : string) (now : Z) : State * list Delivery :=
  let g := globalData st in
  let userRequests := default [] (friendRequests g !! userId) in
  match list_find (fun r => FriendRequest.id r = requestId) userRequests with
  | None => (st, [])
  | Some (requestIndex, request) =>
      let userRequests' := delete requestIndex userRequests in
      let sender := FriendRequest.senderId request in
      let conversationId :=
        "conv_" +:+ pretty now +:+ "_" +:+ sender +:+ "_" +:+ userId in
      let conversation :=
        {| Conversation.id := conversationId;
           Conversation.participants := [sender; userId];
           Conversation.createdAt := Js.IsoOf now;
           Conversation.lastMessage := None;
           Conversation.unreadCount := 0;
           Conversation.updatedAt := None |} in
      let g' := {| users := users g; counter := counter g;
                   onlineUsers := onlineUsers g;
                   conversations := <[conversationId := conversation]> (conversations g);
                   messages := <[conversationId := []]> (messages g);
                   friendRequests := <[userId := userRequests']> (friendRequests g) |} in
      let st' := set_globalData g' st in
      (st',
       io_to (user_room sender)
             (FriendRequestAccepted conversationId
                {| friend_id := userId; friend_name := "Friend";
                   friend_username := "friend" |}) st'
         ++ io_to (user_room userId)
              (ConversationCreated conversationId
                 {| friend_id := sender;
                    friend_name := FriendRequest.senderName request;
                    friend_username := FriendRequest.senderUsername request |}) st'
         ++ io_to (user_room userId) (FriendRequestsUpdate userRequests') st')
  end.

(** The payload of [send-message]. *)
Record MessageData := mkMsgData {
  md_conversationId : string;
  md_senderId : string;
  md_content : string;
  md_receiverId : string
}.

Definition new_message (data : MessageData) (now : Z) (rnd : string) : Message.t :=
  {| Message.id := "msg_" +:+ pretty now +:+ "_" +:+ rnd;
     Message.senderId := md_senderId data;
     Message.receiverId := md_receiverId data;
     Message.content := md_content data;
     Message.timestamp := Js.IsoOf now;
     Message.type := "text";
     Message.read := false |}.

Definition touch (message : Message.t) (now : Z) (c : Conversation.t) : Conversation.t :=
  {| Conversation.id := Conversation.id c;
     Conversation.participants := Conversation.participants c;
     Conversation.createdAt := Conversation.createdAt c;
     Conversation.lastMessage := Some message;
     Conversation.unreadCount := Conversation.unreadCount c;
     Conversation.updatedAt := Some (Js.IsoOf now) |}.

(** [socket.on('send-message')]. *)
Definition send_message (st : State) (sid : string) (data : MessageData)
    (now : Z) (rnd : string) : State * list Delivery :=
  let g := globalData st in
  let conversationId := md_conversationId data in
  let message := new_message data now rnd in
  let history := default [] (messages g !! conversationId) ++ [message] in
  let conversations' := alter (touch message now) conversationId (conversations g) in
  let g' := {| users := users g; counter := counter g; onlineUsers := onlineUsers g;
               conversations := conversations';
               messages := <[conversationId := history]> (messages g);
               friendRequests := friendRequests g |} in
  let st' := set_globalData g' st in
  (st',
   match conversations' !! conversationId with
   | Some conversation =>
       mjoin ((fun participantId =>
                 io_to (user_room participantId)
                       (MessageReceived conversationId message) st')
                <$> Conversation.participants conversation)
   | None => []
   end).

(** [socket.on('typing-start')] and [socket.on('typing-stop')]. *)
Definition typing_start (st : State) (sid conversationId userId userName : string)
  : State * list Delivery :=
  (st, socket_to sid (conv_room conversationId) (UserTyping userId userName) st).

Definition typing_stop (st : State) (sid conversationId userId : string)
  : State * list Delivery :=
  (st, socket_to sid (conv_room conversationId) (UserStoppedTyping userId) st).

(** The loop of the [disconnect] handler: the first entry, in insertion
    order, whose socket is the closing one. *)
Definition find_by_socket (sid : string) (m : list (string * OnlineInfo)) : option string :=
  fst <$> List.find (fun p => bool_decide (socketId p.2 = sid)) m.

(** [socket.on('disconnect')]; the closing socket has left its rooms. *)
Definition disconnect (st : State) (sid : string) : State * list Delivery :=
  let g := globalData st in
  let gone := find_by_socket sid (onlineUsers g) in
  let online' := match gone with
                 | Some userId => Js.delete userId (onlineUsers g)
                 | None => onlineUsers g
                 end in
  let g' := {| users := users g; counter := counter g; onlineUsers := online';
               conversations := conversations g; messages := messages g;
               friendRequests := friendRequests g |} in
  let st' := {| globalData := g';
                sockets := filter (fun s => s ≠ sid) (sockets st);
                rooms := filter (fun p : string * string => p.1 ≠ sid) (rooms st) |} in
  (st',
   match gone with
   | Some userId =>
       if decide (userId = "") then []
       else socket_broadcast sid (UserOffline userId) st'
   | None => []
   end).

(** [socket.on('heartbeat')]. *)
Definition heartbeat (st : State) (sid : string) (u : User.t) (now : Z)
  : State * list Delivery :=
  let g := globalData st in
  match Js.get (User.id u) (onlineUsers g) with
  | Some info =>
      let info' := {| socketId := socketId info; userData := userData info;
                      lastSeen := now |} in
      (set_globalData
         {| users := users g; counter := counter g;
            onlineUsers := Js.set (User.id u) info' (onlineUsers g);
            conversations := conversations g; messages := messages g;
            friendRequests := friendRequests g |} st, [])
  | None => (st, [])
  end.

(** *** The registry routes, over [globalData] *)

Definition registry (g : GlobalData) : SyncServer.Data :=
  {| SyncServer.users := users g; SyncServer.counter := counter g |}.

(** [app.post('/api/users')]. *)
Definition post_users (st : State) (body : UserData.t) (now : Z)
  : State * SyncServer.Response :=
  let g := globalData st in
  match SyncServer.find_username (UserData.username body) (users g) with
  | Some _ => (st, SyncServer.Status400 "Username already exists")
  | None =>
      let c := S (counter g) in
      let u :=
        {| UserData.id := Some (Js.or_else (UserData.id body) ("user_" +:+ pretty now));
           UserData.name := UserData.name body;
           UserData.username := UserData.username body;
           UserData.password := UserData.password body;
           UserData.displayUsername := Some (SyncServer.handle c);
           UserData.sequentialId := Some c;
           UserData.avatar := UserData.avatar body;
           UserData.createdAt := Some (Js.instant_or (UserData.createdAt body) now) |} in
      (set_globalData
         {| users := users g ++ [u]; counter := c; onlineUsers := onlineUsers g;
            conversations := conversations g; messages := messages g;
            friendRequests := friendRequests g |} st,
       SyncServer.Json u)
  end.

(** [app.delete('/api/users')]. *)
Definition delete_users (st : State) : State * SyncServer.Response :=
  let g := globalData st in
  (set_globalData
     {| users := []; counter := 0; onlineUsers := onlineUsers g;
        conversations := conversations g; messages := messages g;
        friendRequests := friendRequests g |} st,
   SyncServer.Message200 "All users deleted").

(** A run of registration attempts against the chat server. *)
Fixpoint post_all (st : State) (reqs : list (UserData.t * Z))
  : State * list SyncServer.Response :=
  match reqs with
  | [] => (st, [])
  | (body, now) :: reqs' =>
      let '(st1, r) := post_users st body now in
      let '(st2, rs) := post_all st1 reqs' in
      (st2, r :: rs)
  end.

(** *** Events and runs *)

Inductive Event :=
| Connection (sid : string)
| UserLogin (sid : string) (u : User.t) (now : Z)
| SendFriendRequest (sid : string) (data : FriendRequestData) (now : Z) (rnd : string)
| AcceptFriendRequest (sid requestId userId : string) (now : Z)
| SendMessage (sid : string) (data : MessageData) (now : Z) (rnd : string)
| TypingStart (sid conversationId userId userName : string)
| TypingStop (sid conversationId userId : string)
| Disconnect (sid : string)
| Heartbeat (sid : string) (u : User.t) (now : Z).

Definition step (st : State) (e : Event) : State * list Delivery :=
  match e with
  | Connection sid => connection st sid
  | UserLogin sid u now => user_login st sid u now
  | SendFriendRequest sid data now rnd => send_friend_request st sid data now rnd
  | AcceptFriendRequest sid requestId userId now =>
      accept_friend_request st sid requestId userId now
  | SendMessage sid data now rnd => send_message st sid data now rnd
  | TypingStart sid c u n => typing_start st sid c u n
  | TypingStop sid c u => typing_stop st sid c u
  | Disconnect sid => disconnect st sid
  | Heartbeat sid u now => heartbeat st sid u now
  end.

(** The state after a sequence of events, processed one at a time. *)
Definition run (st : State) (es : list Event) : State :=
  foldl (fun s e => (step s e).1) st es.

(** Events that only concern presence: connecting, logging in,
    heartbeating and disconnecting. *)
Inductive PresenceEvent :=
| PConnection (sid : string)
| PUserLogin (sid : string) (u : User.t) (now : Z)
| PDisconnect (sid : string)
| PHeartbeat (sid : string) (u : User.t) (now : Z).

Definition of_presence (p : PresenceEvent) : Event :=
  match p with
  | PConnection sid => Connection sid
  | PUserLogin sid u now => UserLogin sid u now
  | PDisconnect sid => Disconnect sid
  | PHeartbeat sid u now => Heartbeat sid u now
  end.

(** The users [onlineUsers] currently lists. *)
Definition is_online (userId : string) (st : State) : bool :=
  Js.has userId (onlineUsers (globalData st)).

(** The conversations of [globalData] whose participants are the two
    given users, in either order. *)
Definition conversations_of_pair (a b : string) (st : State) : list Conversation.t :=
  filter (fun c => Conversation.participants c = [a; b]
                   ∨ Conversation.participants c = [b; a])
         ((map_to_list (conversations (globalData st))).*2).

(** The pending requests from [a] to [b] the server holds. *)
Definition pending_requests (a b : string) (st : State) : list FriendRequest.t :=
  filter (fun r => FriendRequest.senderId r = a ∧ FriendRequest.receiverId r = b
                   ∧ FriendRequest.status r = pending)
         (default [] (friendRequests (globalData st) !! b)).

(** No socket is a member of a conversation room. *)
Definition no_conversation_room (st : State) : Prop :=
  Forall (fun p : string * string => ∀ conversationId, p.2 ≠ conv_room conversationId)
         (rooms st).

(** Socket ids are generated by the transport; an event is [plain] when it
    does not connect a socket whose id reads as a conversation room. *)
Definition plain (e : Event) : Prop :=
  match e with
  | Connection sid => ∀ conversationId, sid ≠ conv_room conversationId
  | _ => True
  end.

(** [app.get('/api/health')], without the constant status and the clock. *)
Record Health := mkHealth {
  health_onlineUsers : nat;
  health_totalUsers : nat;
  health_conversations : nat
}.

Definition get_health (st : State) : Health :=
  {| health_onlineUsers := length (onlineUsers (globalData st));
     health_totalUsers := length (users (globalData st));
     health_conversations := size (conversations (globalData st)) |}.

(** Everything the process reacts to: socket events and the two registry
    routes that write. *)
Inductive Input :=
| Socket (e : Event)
| PostUsers (body : UserData.t) (now : Z)
| DeleteUsers.

Definition serve (st : State) (i : Input) : State :=
  match i with
  | Socket e => (step st e).1
  | PostUsers body now => (post_users st body now).1
  | DeleteUsers => (delete_users st).1
  end.

(** The user ids [onlineUsers] is keyed by, in insertion order. *)
Definition online_ids (st : State) : list string := (onlineUsers (globalData st)).*1.

(** An event comes from a connected socket (a connection brings its own). *)
Definition from_connected (st : State) (e : Event) : Prop :=
  match e with
  | Connection _ => True
  | UserLogin sid _ _ | SendFriendRequest sid _ _ _ | AcceptFriendRequest sid _ _ _
  | SendMessage sid _ _ _ | TypingStart sid _ _ _ | TypingStop sid _ _
  | Disconnect sid | Heartbeat sid _ _ => sid ∈ sockets st
  end.

(** A run in which every event comes from a socket connected at that time. *)
Fixpoint connected_run (st : State) (es : list Event) : Prop :=
  match es with
  | [] => True
  | e :: es' => from_connected st e ∧ connected_run (step st e).1 es'
  end.

(** [onlineUsers] holds one record per user id, filed under the id of the
    user it describes. *)
Definition online_ok (st : State) : Prop :=
  NoDup (online_ids st)
  ∧ Forall (fun p : string * OnlineInfo => User.id (userData p.2) = p.1)
           (onlineUsers (globalData st)).

(** Only connected sockets are members of rooms. *)
Definition rooms_connected (st : State) : Prop :=
  Forall (fun p : string * string => p.1 ∈ sockets st) (rooms st).

(** The ids [accept-friend-request] gives the conversations it stores, and
    the stores that hold conversations under such ids only. *)
Definition made_by_accept (conversationId : string) : Prop :=
  ∃ (now : Z) (sender userId : string),
    conversationId = "conv_" +:+ pretty now +:+ "_" +:+ sender +:+ "_" +:+ userId.

Definition conversations_made (st : State) : Prop :=
  ∀ conversationId, is_Some (conversations (globalData st) !! conversationId) →
                    made_by_accept conversationId.

End ChatServer.

(** ** The WebSocket hook: the list of online users it keeps *)

Module Hook.

(** [socket.on('user-online')]: the entry replaces any entry with its id and
    goes last. *)
Definition user_online (prev : list ChatServer.OnlineEntry) (userData : ChatServer.OnlineEntry)
  : list ChatServer.OnlineEntry :=
  filter (fun u => ChatServer.entry_id u ≠ ChatServer.entry_id userData) prev ++ [userData].

(** [socket.on('user-offline')]. *)
Definition user_offline (prev : list ChatServer.OnlineEntry) (id : string)
  : list ChatServer.OnlineEntry :=
  filter (fun u => ChatServer.entry_id u ≠ id) prev.

(** The three presence events move the list; [online-users-list] replaces
    it; the other events leave it alone. *)
Definition receive (prev : list ChatServer.OnlineEntry) (e : ChatServer.Emitted)
  : list ChatServer.OnlineEntry :=
  match e with
  | ChatServer.UserOnline userData => user_online prev userData
  | ChatServer.UserOffline id => user_offline prev id
  | ChatServer.OnlineUsersList users => users
  | _ => prev
  end.

(** The events [receive] leaves the list alone on. *)
Definition quiet (e : ChatServer.Emitted) : Prop :=
  match e with
  | ChatServer.UserOnline _ | ChatServer.UserOffline _ | ChatServer.OnlineUsersList _ => False
  | _ => True
  end.

(** What a socket has been pushed, one event after the other. *)
Definition pushed_to (sid : string) (out : list ChatServer.Delivery) : list ChatServer.Emitted :=
  (filter (fun d : ChatServer.Delivery => d.1 = sid) out).*2.

(** The server processing events while the hook on socket [sid] keeps its
    list from what the socket is pushed. *)
Fixpoint follow (sid : string) (st : ChatServer.State)
    (onlineUsers : list ChatServer.OnlineEntry) (es : list ChatServer.Event)
  : ChatServer.State * list ChatServer.OnlineEntry :=
  match es with
  | [] => (st, onlineUsers)
  | e :: es' =>
      follow sid (ChatServer.step st e).1
             (foldl receive onlineUsers (pushed_to sid (ChatServer.step st e).2)) es'
  end.

(** An event leaves the session of socket [sid] as it is: it is neither
    another login on that socket nor its disconnection. *)
Definition stays (sid : string) (e : ChatServer.Event) : Prop :=
  match e with
  | ChatServer.UserLogin s _ _ | ChatServer.Disconnect s => s ≠ sid
  | _ => True
  end.

End Hook.

(** ** The React chat context *)

Module ChatContext.

Inductive ConversationStatus := active | archived | locked | muted.

#[global] Instance ConversationStatus_eq_dec : EqDecision ConversationStatus.
Proof. solve_decision. Defined.

Module Conversation.
Record t := mk {
  id : string;
  participants : list string;
  lastMessage : option Message.t;
  unreadCount : nat;
  updatedAt : Js.Instant;
  status : ConversationStatus;
  password : option string
}.
End Conversation.

(** *** localStorage

    The store is kept typed, one field per family of keys, the user id
    completing the key.  The two presence blobs keep what the code does
    with a value it cannot use: an empty string is falsy, an unparsable
    one makes [JSON.parse] throw, a string that is no date gives NaN. *)

Record StatusData := mkStatusData {
  sd_id : string;
  sd_name : string;
  sd_username : string;
  sd_avatar : string;
  sd_timestamp : option Z
}.

Inductive StatusBlob :=
| StatusEmpty
| StatusInvalid
| StatusJson (d : StatusData).

Inductive SeenBlob :=
| SeenEmpty
| SeenInvalid
| SeenAt (ms : Z).

(** An entry of the shared user database as the context reads it. *)
Module Registered.
Record t := mk {
  id : string;
  name : string;
  username : string;
  displayUsername : option string;
  sequentialId : option nat;
  avatar : option string
}.
End Registered.

Record Storage := mkStorage {
  shared_registered_users_db : list Registered.t;
  friend_requests_ : gmap string (list FriendRequest.t);
  sent_requests_ : gmap string (list FriendRequest.t);
  friends_ : gmap string (list User.t);
  conversations_ : gmap string (list Conversation.t);
  messages_ : gmap string (gmap string (list Message.t));
  user_status_ : gmap string StatusBlob;
  global_user_status_ : gmap string StatusBlob;
  user_last_seen_ : gmap string SeenBlob;
  user_status_update : option Z;
  friend_request_update : option Z
}.

(** The provider: its prop, its five state cells, the socket's connection
    flag and the browser's localStorage. *)
Record State := mkState {
  currentUser : User.t;
  conversations : list Conversation.t;
  messages : gmap string (list Message.t);
  users : list User.t;
  friendRequests : list FriendRequest.t;
  activeConversation : option string;
  isConnected : bool;
  localStorage : Storage
}.

Definition mount (u : User.t) (ls : Storage) : State :=
  {| currentUser := u; conversations := []; messages := ∅; users := [];
     friendRequests := []; activeConversation := None; isConnected := false;
     localStorage := ls |}.

Definition setConversations (f : list Conversation.t → list Conversation.t) (st : State) : State :=
  {| currentUser := currentUser st; conversations := f (conversations st);
     messages := messages st; users := users st; friendRequests := friendRequests st;
     activeConversation := activeConversation st; isConnected := isConnected st;
     localStorage := localStorage st |}.

Definition setMessages (f : gmap string (list Message.t) → gmap string (list Message.t))
    (st : State) : State :=
  {| currentUser := currentUser st; conversations := conversations st;
     messages := f (messages st); users := users st; friendRequests := friendRequests st;
     activeConversation := activeConversation st; isConnected := isConnected st;
     localStorage := localStorage st |}.

Definition setUsers (f : list User.t → list User.t) (st : State) : State :=
  {| currentUser := currentUser st; conversations := conversations st;
     messages := messages st; users := f (users st); friendRequests := friendRequests st;
     activeConversation := activeConversation st; isConnected := isConnected st;
     localStorage := localStorage st |}.

Definition setFriendRequests (f : list FriendRequest.t → list FriendRequest.t)
    (st : State) : State :=
  {| currentUser := currentUser st; conversations := conversations st;
     messages := messages st; users := users st; friendRequests := f (friendRequests st);
     activeConversation := activeConversation st; isConnected := isConnected st;
     localStorage := localStorage st |}.

Definition setActiveConversation (a : option string) (st : State) : State :=
  {| currentUser := currentUser st; conversations := conversations st;
     messages := messages st; users := users st; friendRequests := friendRequests st;
     activeConversation := a; isConnected := isConnected st;
     localStorage := localStorage st |}.

Definition setStorage (f : Storage → Storage) (st : State) : State :=
  {| currentUser := currentUser st; conversations := conversations st;
     messages := messages st; users := users st; friendRequests := friendRequests st;
     activeConversation := activeConversation st; isConnected := isConnected st;
     localStorage := f (localStorage st) |}.

(** [xs.find(p)]. *)
Definition find {A} (P : A → Prop) `{!∀ x, Decision (P x)} (xs : list A) : option A :=
  snd <$> list_find P xs.

Definition cur (st : State) : string := User.id (currentUser st).

(** *** Conversations *)

Definition with_status (s : ConversationStatus) (c : Conversation.t) : Conversation.t :=
  {| Conversation.id := Conversation.id c;
     Conversation.participants := Conversation.participants c;
     Conversation.lastMessage := Conversation.lastMessage c;
     Conversation.unreadCount := Conversation.unreadCount c;
     Conversation.updatedAt := Conversation.updatedAt c;
     Conversation.status := s;
     Conversation.password := Conversation.password c |}.

Definition with_lock (s : ConversationStatus) (p : option string) (c : Conversation.t)
  : Conversation.t :=
  {| Conversation.id := Conversation.id c;
     Conversation.participants := Conversation.participants c;
     Conversation.lastMessage := Conversation.lastMessage c;
     Conversation.unreadCount := Conversation.unreadCount c;
     Conversation.updatedAt := Conversation.updatedAt c;
     Conversation.status := s;
     Conversation.password := p |}.

(** [prev.map(conv => conv.id === conversationId ? f(conv) : conv)]. *)
Definition update_conv (conversationId : string) (f : Conversation.t → Conversation.t)
    (prev : list Conversation.t) : list Conversation.t :=
  (fun conv => if decide (Conversation.id conv = conversationId) then f conv else conv)
    <$> prev.

Definition createConversation (st : State) (userId : string) (now : Z) : string * State :=
  match find (fun c => userId ∈ Conversation.participants c
                       ∧ cur st ∈ Conversation.participants c) (conversations st) with
  | Some existingConv => (Conversation.id existingConv, st)
  | None =>
      let newConvId := "conv_" +:+ pretty now in
      let newConversation :=
        {| Conversation.id := newConvId;
           Conversation.participants := [cur st; userId];
           Conversation.lastMessage := None;
           Conversation.unreadCount := 0;
           Conversation.updatedAt := Js.IsoOf now;
           Conversation.status := active;
           Conversation.password := None |} in
      (newConvId,
       setMessages (fun prev => <[newConvId := []]> prev)
         (setConversations (fun prev => prev ++ [newConversation]) st))
  end.

(** [createConversation] as the closure of the render [render], called when
    the committed state is [st]: the search reads the closure's
    [conversations] and [currentUser], the two functional updaters run on
    the state at commit.  A call made once the previous commit has been
    rendered has [render = st], which is [createConversation] above. *)
Definition createConversation_in (render st : State) (userId : string) (now : Z)
  : string * State :=
  match find (fun c => userId ∈ Conversation.participants c
                       ∧ cur render ∈ Conversation.participants c)
             (conversations render) with
  | Some existingConv => (Conversation.id existingConv, st)
  | None =>
      let newConvId := "conv_" +:+ pretty now in
      let newConversation :=
        {| Conversation.id := newConvId;
           Conversation.participants := [cur render; userId];
           Conversation.lastMessage := None;
           Conversation.unreadCount := 0;
           Conversation.updatedAt := Js.IsoOf now;
           Conversation.status := active;
           Conversation.password := None |} in
      (newConvId,
       setMessages (fun prev => <[newConvId := []]> prev)
         (setConversations (fun prev => prev ++ [newConversation]) st))
  end.

Definition getConversationsByStatus (st : State) (s : ConversationStatus)
  : list Conversation.t :=
  filter (fun conv => Conversation.status conv = s) (conversations st).

Definition archiveConversation (st : State) (conversationId : string) : State :=
  setConversations (update_conv conversationId (with_status archived)) st.

Definition unarchiveConversation (st : State) (conversationId : string) : State :=
  setConversations (update_conv conversationId (with_status active)) st.

Definition lockConversation (st : State) (conversationId password : string) : State :=
  setConversations (update_conv conversationId (with_lock locked (Some password))) st.

Definition unlockConversation (st : State) (conversationId password : string)
  : bool * State :=
  match find (fun conv => Conversation.id conv = conversationId) (conversations st) with
  | Some conversation =>
      if decide (Conversation.password conversation = Some password) then
        (true, setConversations (update_conv conversationId (with_lock active None)) st)
      else (false, st)
  | None => (false, st)
  end.

Definition muteConversation (st : State) (conversationId : string) : State :=
  setConversations (update_conv conversationId (with_status muted)) st.

Definition unmuteConversation (st : State) (conversationId : string) : State :=
  setConversations (update_conv conversationId (with_status active)) st.

Definition deleteConversation (st : State) (conversationId : string) : State :=
  let st1 :=
    setMessages (fun prev => delete conversationId prev)
      (setConversations
         (fun prev => filter (fun conv => Conversation.id conv ≠ conversationId) prev) st) in
  if decide (activeConversation st = Some conversationId)
  then setActiveConversation None st1 else st1.

(** The conversation a call names: the first one with that id. *)
Definition named (st : State) (conversationId : string) : option Conversation.t :=
  find (fun conv => Conversation.id conv = conversationId) (conversations st).

(** The four persisting effects, run after a commit. *)
Definition persist (st : State) : State :=
  setStorage (fun ls =>
    {| shared_registered_users_db := shared_registered_users_db ls;
       friend_requests_ := <[cur st := friendRequests st]> (friend_requests_ ls);
       sent_requests_ := sent_requests_ ls;
       friends_ := <[cur st := users st]> (friends_ ls);
       conversations_ := <[cur st := conversations st]> (conversations_ ls);
       messages_ := <[cur st := messages st]> (messages_ ls);
       user_status_ := user_status_ ls;
       global_user_status_ := global_user_status_ ls;
       user_last_seen_ := user_last_seen_ ls;
       user_status_update := user_status_update ls;
       friend_request_update := friend_request_update ls |}) st.

(** The persisting effect on [users] alone: it runs after every commit
    that gives [users] a new array. *)
Definition persist_friends (st : State) : State :=
  setStorage (fun ls =>
    {| shared_registered_users_db := shared_registered_users_db ls;
       friend_requests_ := friend_requests_ ls;
       sent_requests_ := sent_requests_ ls;
       friends_ := <[cur st := users st]> (friends_ ls);
       conversations_ := conversations_ ls;
       messages_ := messages_ ls;
       user_status_ := user_status_ ls;
       global_user_status_ := global_user_status_ ls;
       user_last_seen_ := user_last_seen_ ls;
       user_status_update := user_status_update ls;
       friend_request_update := friend_request_update ls |}) st.

(** The conversations of the state between the current user and [u]. *)
Definition conversations_with (u : string) (st : State) : list Conversation.t :=
  filter (fun c => Conversation.participants c = [cur st; u]
                   ∨ Conversation.participants c = [u; cur st]) (conversations st).

(** Every conversation of the context pairs the current user with one
    other user, and no two conversations have the same pair. *)
Definition one_per_pair (st : State) : Prop :=
  Forall (fun c => ∃ u, Conversation.participants c = [cur st; u]) (conversations st)
  ∧ NoDup (Conversation.participants <$> conversations st).

(** *** Friend requests *)

(** [getAllRegisteredUsers()]: the parsed database, [[]] when there is
    none. *)
Definition getAllRegisteredUsers (st : State) : list Registered.t :=
  shared_registered_users_db (localStorage st).

(** [s.startsWith('#')]. *)
Definition startsWith_hash (s : string) : bool :=
  match s with
  | String c _ => bool_decide (c = "#"%char)
  | EmptyString => false
  end.

(** [s.replace('#', '')]: the first occurrence goes. *)
Fixpoint replace_hash (s : string) : string :=
  match s with
  | EmptyString => EmptyString
  | String c s' => if decide (c = "#"%char) then s' else String c (replace_hash s')
  end.

(** [u.sequentialId === n], where [n] may be NaN ([None]). *)
Definition same_number (a : option nat) (n : option Z) : bool :=
  match a, n with
  | Some x, Some y => bool_decide (Z.of_nat x = y)
  | _, _ => false
  end.

Definition new_request (st : State) (receiver : string) (now : Z) : FriendRequest.t :=
  {| FriendRequest.id := "req_" +:+ pretty now;
     FriendRequest.senderId := cur st;
     FriendRequest.receiverId := receiver;
     FriendRequest.senderName := User.name (currentUser st);
     FriendRequest.senderUsername := User.shown (currentUser st);
     FriendRequest.senderAvatar := User.avatar (currentUser st);
     FriendRequest.timestamp := Js.IsoOf now;
     FriendRequest.status := pending |}.

(** The request the duplicate check of [sendFriendRequest] looks for. *)
Definition existingRequest (st : State) (receiver : string) : option FriendRequest.t :=
  find (fun req => FriendRequest.receiverId req = receiver
                   ∧ FriendRequest.senderId req = cur st
                   ∧ FriendRequest.status req = pending) (friendRequests st).

Definition push_request (key : string) (r : FriendRequest.t)
    (m : gmap string (list FriendRequest.t)) : gmap string (list FriendRequest.t) :=
  <[key := default [] (m !! key) ++ [r]]> m.

Definition rejectFriendRequest (st : State) (requestId : string) (now : Z) : State :=
  setStorage (fun ls =>
    {| shared_registered_users_db := shared_registered_users_db ls;
       friend_requests_ := friend_requests_ ls; sent_requests_ := sent_requests_ ls;
       friends_ := friends_ ls; conversations_ := conversations_ ls;
       messages_ := messages_ ls; user_status_ := user_status_ ls;
       global_user_status_ := global_user_status_ ls;
       user_last_seen_ := user_last_seen_ ls;
       user_status_update := user_status_update ls;
       friend_request_update := Some now |})
    (setFriendRequests (fun prev => filter (fun req => FriendRequest.id req ≠ requestId) prev) st).

(** [acceptFriendRequest], over the presence query and the avatar
    fallback of the version at hand.  The call reads the clock once. *)
Definition acceptFriendRequest_with
    (getUserOnlineStatus : Storage → string → Z → Presence * Storage)
    (fallback_avatar : string)
    (st : State) (requestId : string) (now : Z) : State :=
  match find (fun req => FriendRequest.id req = requestId) (friendRequests st) with
  | None => st
  | Some request =>
      let sender := FriendRequest.senderId request in
      let st1 :=
        match find (fun u => Registered.id u = sender) (getAllRegisteredUsers st) with
        | Some senderUser =>
            let '(presence, ls1) :=
              getUserOnlineStatus (localStorage st) (Registered.id senderUser) now in
            let chatUser :=
              {| User.id := Registered.id senderUser;
                 User.name := Registered.name senderUser;
                 User.username := Js.or_else (Registered.displayUsername senderUser)
                                             (Registered.username senderUser);
                 User.displayUsername := None;
                 User.avatar := Js.or_else (Registered.avatar senderUser) fallback_avatar;
                 User.status := presence |} in
            let st_a := setUsers (fun prev => prev ++ [chatUser])
                          (setStorage (fun _ => ls1) st) in
            let st_b := (createConversation st_a (Registered.id senderUser) now).2 in
            let currentUserForSender :=
              {| User.id := cur st;
                 User.name := User.name (currentUser st);
                 User.username := User.shown (currentUser st);
                 User.displayUsername := None;
                 User.avatar := User.avatar (currentUser st);
                 User.status := online |} in
            setStorage (fun ls =>
              {| shared_registered_users_db := shared_registered_users_db ls;
                 friend_requests_ := friend_requests_ ls;
                 sent_requests_ := sent_requests_ ls;
                 friends_ := <[sender := default [] (friends_ ls !! sender)
                                          ++ [currentUserForSender]]> (friends_ ls);
                 conversations_ := conversations_ ls; messages_ := messages_ ls;
                 user_status_ := user_status_ ls;
                 global_user_status_ := global_user_status_ ls;
                 user_last_seen_ := user_last_seen_ ls;
                 user_status_update := user_status_update ls;
                 friend_request_update := friend_request_update ls |}) st_b
        | None => st
        end in
      rejectFriendRequest st1 requestId now
  end.

(** The two operations of the context that create conversations, and
    runs of them. *)
Inductive Creating :=
| Create (userId : string) (now : Z)
| Accept (requestId : string) (now : Z).

Definition creating_with
    (getUserOnlineStatus : Storage → string → Z → Presence * Storage)
    (fallback_avatar : string) (st : State) (op : Creating) : State :=
  match op with
  | Create userId now => (createConversation st userId now).2
  | Accept requestId now =>
      acceptFriendRequest_with getUserOnlineStatus fallback_avatar st requestId now
  end.

(** *** Sending a message from the context *)

Definition local_message (st : State) (receiverId content : string) (now : Z) : Message.t :=
  {| Message.id := "msg_" +:+ pretty now;
     Message.senderId := cur st;
     Message.receiverId := receiverId;
     Message.content := content;
     Message.timestamp := Js.IsoOf now;
     Message.type := "text";
     Message.read := false |}.

Definition with_last (m : Message.t) (now : Z) (c : Conversation.t) : Conversation.t :=
  {| Conversation.id := Conversation.id c;
     Conversation.participants := Conversation.participants c;
     Conversation.lastMessage := Some m;
     Conversation.unreadCount := Conversation.unreadCount c;
     Conversation.updatedAt := Js.IsoOf now;
     Conversation.status := Conversation.status c;
     Conversation.password := Conversation.password c |}.

(** The receiver [sendMessage] resolves, if it gets that far. *)
Definition receiver_of (st : State) (conversationId : string) : option string :=
  match find (fun c => Conversation.id c = conversationId) (conversations st) with
  | Some conversation =>
      match find (fun p => p ≠ cur st) (Conversation.participants conversation) with
      | Some receiverId => if decide (receiverId = "") then None else Some receiverId
      | None => None
      end
  | None => None
  end.

Definition store_message (st : State) (conversationId receiverId content : string)
    (now : Z) : State :=
  let newMessage := local_message st receiverId content now in
  setConversations (update_conv conversationId (with_last newMessage now))
    (setMessages (fun prev =>
       <[conversationId := default [] (prev !! conversationId) ++ [newMessage]]> prev) st).

(** *** Loading, listening and refreshing *)

(** [loadPersistedData]: each cell is loaded when its key is there. *)
Definition loadPersistedData (st : State) : State :=
  let ls := localStorage st in
  let st1 := match conversations_ ls !! cur st with
             | Some saved => setConversations (fun _ => saved) st
             | None => st
             end in
  let st2 := match messages_ ls !! cur st with
             | Some saved => setMessages (fun _ => saved) st1
             | None => st1
             end in
  let st3 := match friends_ ls !! cur st with
             | Some saved => setUsers (fun _ => saved) st2
             | None => st2
             end in
  match friend_requests_ ls !! cur st with
  | Some saved => setFriendRequests (fun _ => saved) st3
  | None => st3
  end.

(** The [onMessageReceived] and [onFriendRequestReceived] callbacks. *)
Definition onMessageReceived (st : State) (conversationId : string) (message : Message.t)
  : State :=
  setMessages (fun prev =>
    <[conversationId := default [] (prev !! conversationId) ++ [message]]> prev) st.

Definition onFriendRequestReceived (st : State) (request : FriendRequest.t) : State :=
  setFriendRequests (fun prev => prev ++ [request]) st.

(** The storage listener on the key [friend_request_update]. *)
Definition reload_requests (st : State) : State :=
  match friend_requests_ (localStorage st) !! cur st with
  | Some saved => setFriendRequests (fun _ => saved) st
  | None => st
  end.

Definition with_presence (p : Presence) (u : User.t) : User.t :=
  {| User.id := User.id u; User.name := User.name u; User.username := User.username u;
     User.displayUsername := User.displayUsername u; User.avatar := User.avatar u;
     User.status := p |}.

(** [prev.map(user => ({ ...user, status: getUserOnlineStatus(user.id) }))],
    the queries running one after the other on the store. *)
Fixpoint refresh_with (getUserOnlineStatus : Storage → string → Z → Presence * Storage)
    (ls : Storage) (prev : list User.t) (now : Z) : list User.t * Storage :=
  match prev with
  | [] => ([], ls)
  | user :: rest =>
      let '(p, ls1) := getUserOnlineStatus ls (User.id user) now in
      let '(rest', ls2) := refresh_with getUserOnlineStatus ls1 rest now in
      (with_presence p user :: rest', ls2)
  end.

(** The storage listener on the key [user_status_update], which is also the
    five-second interval. *)
Definition refresh_statuses_with
    (getUserOnlineStatus : Storage → string → Z → Presence * Storage)
    (st : State) (now : Z) : State :=
  let '(users', ls') := refresh_with getUserOnlineStatus (localStorage st) (users st) now in
  setStorage (fun _ => ls') (setUsers (fun _ => users') st).

(** A blob of [global_user_status_] that is recent enough, ten seconds, and
    is not the current user's. *)
Definition fresh_other (st : State) (now : Z) (blob : StatusBlob) : option StatusData :=
  match blob with
  | StatusJson statusData =>
      if decide ((now - default 0 (sd_timestamp statusData) ≤ 10000)%Z
                 ∧ sd_id statusData ≠ cur st)
      then Some statusData else None
  | StatusEmpty | StatusInvalid => None
  end.

(** Every blob of the store files a status under the id it carries. *)
Definition blobs_filed (ls : Storage) : Prop :=
  ∀ k d, global_user_status_ ls !! k = Some (StatusJson d) → sd_id d = k.

(** The two status keys of every user hold the same blob, filed under the
    id it carries. *)
Definition filed_twice (ls : Storage) : Prop :=
  blobs_filed ls ∧ user_status_ ls = global_user_status_ ls.

(** ** The localStorage-only context *)

Module Local.

(** [getUserOnlineStatus]: ten seconds without a heartbeat is offline,
    and the stale blobs are removed. *)
Definition getUserOnlineStatus (ls : Storage) (userId : string) (now : Z)
  : Presence * Storage :=
  let statusData :=
    match user_status_ ls !! userId with
    | Some StatusEmpty | None => global_user_status_ ls !! userId
    | Some b => Some b
    end in
  match statusData with
  | None | Some StatusEmpty | Some StatusInvalid => (offline, ls)
  | Some (StatusJson status) =>
      let lastSeen := default 0%Z (sd_timestamp status) in
      if decide (now - lastSeen > 10000)%Z then
        (offline,
         {| shared_registered_users_db := shared_registered_users_db ls;
            friend_requests_ := friend_requests_ ls;
            sent_requests_ := sent_requests_ ls;
            friends_ := friends_ ls; conversations_ := conversations_ ls;
            messages_ := messages_ ls;
            user_status_ := delete userId (user_status_ ls);
            global_user_status_ := delete userId (global_user_status_ ls);
            user_last_seen_ := user_last_seen_ ls;
            user_status_update := user_status_update ls;
            friend_request_update := friend_request_update ls |})
      else (online, ls)
  end.

Definition write_status (userId : string) (blob : option StatusBlob) (now : Z)
    (ls : Storage) : Storage :=
  {| shared_registered_users_db := shared_registered_users_db ls;
     friend_requests_ := friend_requests_ ls; sent_requests_ := sent_requests_ ls;
     friends_ := friends_ ls; conversations_ := conversations_ ls;
     messages_ := messages_ ls;
     user_status_ := match blob with
                     | Some b => <[userId := b]> (user_status_ ls)
                     | None => delete userId (user_status_ ls)
                     end;
     global_user_status_ := match blob with
                            | Some b => <[userId := b]> (global_user_status_ ls)
                            | None => delete userId (global_user_status_ ls)
                            end;
     user_last_seen_ := user_last_seen_ ls;
     user_status_update := Some now;
     friend_request_update := friend_request_update ls |}.

Definition statusData_at (u : User.t) (now : Z) : StatusData :=
  {| sd_id := User.id u; sd_name := User.name u; sd_username := User.shown u;
     sd_avatar := User.avatar u; sd_timestamp := Some now |}.

(** [updateUserOnlineStatus(isOnline)]. *)
Definition updateUserOnlineStatus (st : State) (isOnline : bool) (now : Z) : State :=
  setStorage
    (write_status (cur st)
       (if isOnline then Some (StatusJson (statusData_at (currentUser st) now)) else None)
       now) st.

(** One tick of the three-second heartbeat interval. *)
Definition heartbeat (st : State) (now : Z) : State :=
  setStorage
    (write_status (cur st) (Some (StatusJson (statusData_at (currentUser st) now))) now) st.

Section ParseInt.
(** [parseInt], NaN being [None]. *)
Variable parseInt : string → option Z.

Definition foundUser (st : State) (username : string) : option Registered.t :=
  find (fun u =>
          Registered.displayUsername u = Some username
          ∨ (startsWith_hash username ∧ Registered.displayUsername u = Some username)
          ∨ Registered.username u = username
          ∨ (startsWith_hash username
             ∧ same_number (Registered.sequentialId u)
                           (parseInt (replace_hash username))))
       (getAllRegisteredUsers st).

Definition sendFriendRequest (st : State) (username : string) (now : Z) : bool * State :=
  match find (fun u => User.username u = username
                       ∨ (startsWith_hash username ∧ User.username u = username))
             (users st) with
  | Some _ => (false, st)
  | None =>
      match foundUser st username with
      | Some found =>
          if decide (Registered.id found ≠ cur st) then
            match existingRequest st (Registered.id found) with
            | Some _ => (false, st)
            | None =>
                let newRequest := new_request st (Registered.id found) now in
                (true,
                 setStorage (fun ls =>
                   {| shared_registered_users_db := shared_registered_users_db ls;
                      friend_requests_ :=
                        push_request (Registered.id found) newRequest (friend_requests_ ls);
                      sent_requests_ := sent_requests_ ls;
                      friends_ := friends_ ls; conversations_ := conversations_ ls;
                      messages_ := messages_ ls; user_status_ := user_status_ ls;
                      global_user_status_ := global_user_status_ ls;
                      user_last_seen_ := user_last_seen_ ls;
                      user_status_update := user_status_update ls;
                      friend_request_update := Some now |}) st)
            end
          else (false, st)
      | None => (false, st)
      end
  end.
End ParseInt.

Definition acceptFriendRequest : State → string → Z → State :=
  acceptFriendRequest_with getUserOnlineStatus "ðŸ‘¤".

Definition sendMessage (st : State) (conversationId content : string) (now : Z) : State :=
  match receiver_of st conversationId with
  | Some receiverId => store_message st conversationId receiverId content now
  | None => st
  end.

Definition refresh_statuses : State → Z → State := refresh_statuses_with getUserOnlineStatus.

(** [getAllOnlineUsers]: the loop over the keys [global_user_status_*], in
    the order the store enumerates them; a blob that does not parse is
    skipped. *)
Definition getAllOnlineUsers (st : State) (now : Z) : list User.t :=
  (fun statusData =>
     {| User.id := sd_id statusData; User.name := sd_name statusData;
        User.username := sd_username statusData; User.displayUsername := None;
        User.avatar := sd_avatar statusData; User.status := online |})
    <$> omap (fresh_other st now)
             (map_to_list (global_user_status_ (localStorage st))).*2.

(** The tabs of several users share one localStorage: what a tab of user
    [u] writes to it when it updates its status, and what a query of any
    tab leaves of it. *)
Inductive StoreOp :=
| Update (u : User.t) (isOnline : bool) (now : Z)
| Beat (u : User.t) (now : Z)
| Query (userId : string) (now : Z)
| Refresh (u : User.t) (friends : list User.t) (now : Z).

Definition on_store (ls : Storage) (op : StoreOp) : Storage :=
  match op with
  | Update u isOnline now => localStorage (updateUserOnlineStatus (mount u ls) isOnline now)
  | Beat u now => localStorage (heartbeat (mount u ls) now)
  | Query userId now => (getUserOnlineStatus ls userId now).2
  | Refresh u friends now =>
      localStorage (refresh_statuses (setUsers (fun _ => friends) (mount u ls)) now)
  end.

End Local.

(** ** The WebSocket context *)

Module Socket.

(** What the hook emits to the server. *)
Inductive Emit :=
| EmitSendMessage (data : ChatServer.MessageData)
| EmitSendFriendRequest (data : ChatServer.FriendRequestData).

(** [diffMinutes < m], for [diffMinutes = diff / (1000 * 60)]. *)
Definition within_minutes (diff m : Z) : bool := bool_decide (diff < m * (1000 * 60))%Z.

(** [getUserOnlineStatus]: five minutes online, thirty away. *)
Definition getUserOnlineStatus (ls : Storage) (userId : string) (now : Z)
  : Presence * Storage :=
  match user_last_seen_ ls !! userId with
  | None | Some SeenEmpty | Some SeenInvalid => (offline, ls)
  | Some (SeenAt lastSeenTime) =>
      let diff := (now - lastSeenTime)%Z in
      if within_minutes diff 5 then (online, ls)
      else if within_minutes diff 30 then (away, ls)
      else (offline, ls)
  end.

(** [updateUserOnlineStatus(isOnline)]: the status key holds a bare
    word, which is no JSON. *)
Definition updateUserOnlineStatus (st : State) (isOnline : bool) (now : Z) : State :=
  setStorage (fun ls =>
    {| shared_registered_users_db := shared_registered_users_db ls;
       friend_requests_ := friend_requests_ ls; sent_requests_ := sent_requests_ ls;
       friends_ := friends_ ls; conversations_ := conversations_ ls;
       messages_ := messages_ ls;
       user_status_ := <[cur st := StatusInvalid]> (user_status_ ls);
       global_user_status_ := global_user_status_ ls;
       user_last_seen_ := <[cur st := SeenAt now]> (user_last_seen_ ls);
       user_status_update := Some now;
       friend_request_update := friend_request_update ls |}) st.

Section ParseInt.
Variable parseInt : string → option Z.

Definition sendFriendRequest (st : State) (username : string) (now : Z)
  : bool * State * list Emit :=
  match find (fun u => User.username u = username
                       ∨ (startsWith_hash username ∧ User.username u = username)
                       ∨ User.username u = (if startsWith_hash username then username
                                            else "#" +:+ username))
             (users st) with
  | Some _ => (false, st, [])
  | None =>
      match Local.foundUser parseInt st username with
      | Some found =>
          if decide (Registered.id found ≠ cur st) then
            match existingRequest st (Registered.id found) with
            | Some _ => (false, st, [])
            | None =>
                let newRequest := new_request st (Registered.id found) now in
                if isConnected st then
                  (true, st,
                   [EmitSendFriendRequest
                      {| ChatServer.fr_senderId := cur st;
                         ChatServer.fr_receiverId := Registered.id found;
                         ChatServer.fr_senderData := currentUser st |}])
                else
                  (true,
                   setStorage (fun ls =>
                     {| shared_registered_users_db := shared_registered_users_db ls;
                        friend_requests_ :=
                          push_request (Registered.id found) newRequest
                                       (friend_requests_ ls);
                        sent_requests_ :=
                          push_request (cur st) newRequest (sent_requests_ ls);
                        friends_ := friends_ ls; conversations_ := conversations_ ls;
                        messages_ := messages_ ls; user_status_ := user_status_ ls;
                        global_user_status_ := global_user_status_ ls;
                        user_last_seen_ := user_last_seen_ ls;
                        user_status_update := user_status_update ls;
                        friend_request_update := Some now |}) st,
                   [])
            end
          else (false, st, [])
      | None => (false, st, [])
      end
  end.
End ParseInt.

Definition acceptFriendRequest : State → string → Z → State :=
  acceptFriendRequest_with getUserOnlineStatus "👤".

Definition sendMessage (st : State) (conversationId content : string) (now : Z)
  : State * list Emit :=
  match receiver_of st conversationId with
  | Some receiverId =>
      if isConnected st then
        (st, [EmitSendMessage
                {| ChatServer.md_conversationId := conversationId;
                   ChatServer.md_senderId := cur st;
                   ChatServer.md_content := content;
                   ChatServer.md_receiverId := receiverId |}])
      else (store_message st conversationId receiverId content now, [])
  | None => (st, [])
  end.

(** The server event an emission becomes on socket [sid]. *)
Definition arrives (sid : string) (now : Z) (rnd : string) (e : Emit) : ChatServer.Event :=
  match e with
  | EmitSendMessage data => ChatServer.SendMessage sid data now rnd
  | EmitSendFriendRequest data => ChatServer.SendFriendRequest sid data now rnd
  end.

Definition refresh_statuses : State → Z → State := refresh_statuses_with getUserOnlineStatus.

Definition entry_user (e : ChatServer.OnlineEntry) : User.t :=
  {| User.id := ChatServer.entry_id e; User.name := ChatServer.entry_name e;
     User.username := ChatServer.entry_username e; User.displayUsername := None;
     User.avatar := ChatServer.entry_avatar e; User.status := online |}.

(** [getAllOnlineUsers]: the hook's list when there is one, the loop over
    the store otherwise, completed from the shared user database. *)
Definition getAllOnlineUsers (st : State) (onlineUsers : list ChatServer.OnlineEntry)
    (now : Z) : list User.t :=
  if isConnected st && bool_decide (0 < length onlineUsers) then
    entry_user <$> filter (fun user => ChatServer.entry_id user ≠ cur st) onlineUsers
  else
    (fun statusData =>
       match find (fun u => Registered.id u = sd_id statusData) (getAllRegisteredUsers st) with
       | Some fullUserData =>
           {| User.id := Registered.id fullUserData;
              User.name := Registered.name fullUserData;
              User.username := Registered.username fullUserData;
              User.displayUsername := Registered.displayUsername fullUserData;
              User.avatar := Js.or_else (Registered.avatar fullUserData) "👤";
              User.status := online |}
       | None =>
           {| User.id := sd_id statusData; User.name := sd_name statusData;
              User.username := sd_username statusData; User.displayUsername := None;
              User.avatar := Js.or_else (Some (sd_avatar statusData)) "👤";
              User.status := online |}
       end)
      <$> omap (fresh_other st now)
               (map_to_list (global_user_status_ (localStorage st))).*2.

(** What the context and the hook do with an event the server pushes: the
    hook keeps its list, two callbacks reach the context, the rest is only
    logged. *)
Definition on_event (st : State) (onlineUsers : list ChatServer.OnlineEntry)
    (e : ChatServer.Emitted) : State * list ChatServer.OnlineEntry :=
  match e with
  | ChatServer.MessageReceived conversationId message =>
      (onMessageReceived st conversationId message, onlineUsers)
  | ChatServer.FriendRequestReceived request =>
      (onFriendRequestReceived st request, onlineUsers)
  | _ => (st, Hook.receive onlineUsers e)
  end.

(** The events pushed to the socket, handled one after the other. *)
Definition on_events (st : State) (onlineUsers : list ChatServer.OnlineEntry)
    (es : list ChatServer.Emitted) : State * list ChatServer.OnlineEntry :=
  foldl (fun s e => on_event s.1 s.2 e) (st, onlineUsers) es.

End Socket.

End ChatContext.

(** ** Scenarios

    Two users, Alice ("A", handle "#1") and Bob ("B", handle "#2"), and the
    situations the properties below are evaluated in. *)

Module Scenario.

Definition alice : User.t :=
  {| User.id := "A"; User.name := "Alice"; User.username := "alice";
     User.displayUsername := Some "#1"; User.avatar := "a"; User.status := online |}.

Definition bob : User.t :=
  {| User.id := "B"; User.name := "Bob"; User.username := "bob";
     User.displayUsername := Some "#2"; User.avatar := "b"; User.status := online |}.

Definition request_to_bob : ChatServer.FriendRequestData :=
  {| ChatServer.fr_senderId := "A"; ChatServer.fr_receiverId := "B";
     ChatServer.fr_senderData := alice |}.

(** Both connect and log in. *)
Definition both_online : ChatServer.State :=
  ChatServer.run ChatServer.initial
    [ChatServer.Connection "sA"; ChatServer.UserLogin "sA" alice 1000;
     ChatServer.Connection "sB"; ChatServer.UserLogin "sB" bob 2000].

(** Alice asks Bob once, Bob accepts: the conversation "conv_4000_A_B". *)
Definition friends : ChatServer.State :=
  ChatServer.run both_online
    [ChatServer.SendFriendRequest "sA" request_to_bob 3000 "0.25";
     ChatServer.AcceptFriendRequest "sB" "req_3000_0.25" "B" 4000].

(** Alice asks Bob twice before Bob answers. *)
Definition asked_twice : ChatServer.State :=
  ChatServer.run both_online
    [ChatServer.SendFriendRequest "sA" request_to_bob 3000 "0.25";
     ChatServer.SendFriendRequest "sA" request_to_bob 3500 "0.75"].

(** Bob then accepts both requests. *)
Definition accepted_twice : ChatServer.State :=
  ChatServer.run asked_twice
    [ChatServer.AcceptFriendRequest "sB" "req_3000_0.25" "B" 4000;
     ChatServer.AcceptFriendRequest "sB" "req_3500_0.75" "B" 4500].

(** A message with no content, from a user who is not in the
    conversation. *)
Definition stranger_message : ChatServer.MessageData :=
  {| ChatServer.md_conversationId := "conv_4000_A_B"; ChatServer.md_senderId := "C";
     ChatServer.md_content := ""; ChatServer.md_receiverId := "B" |}.

(** The shared user database both browsers read. *)
Definition database : list ChatContext.Registered.t :=
  [{| ChatContext.Registered.id := "A"; ChatContext.Registered.name := "Alice";
      ChatContext.Registered.username := "alice";
      ChatContext.Registered.displayUsername := Some "#1";
      ChatContext.Registered.sequentialId := Some 1;
      ChatContext.Registered.avatar := Some "a" |};
   {| ChatContext.Registered.id := "B"; ChatContext.Registered.name := "Bob";
      ChatContext.Registered.username := "bob";
      ChatContext.Registered.displayUsername := Some "#2";
      ChatContext.Registered.sequentialId := Some 2;
      ChatContext.Registered.avatar := Some "b" |}].

Definition browser : ChatContext.Storage :=
  {| ChatContext.shared_registered_users_db := database;
     ChatContext.friend_requests_ := ∅; ChatContext.sent_requests_ := ∅;
     ChatContext.friends_ := ∅; ChatContext.conversations_ := ∅;
     ChatContext.messages_ := ∅; ChatContext.user_status_ := ∅;
     ChatContext.global_user_status_ := ∅; ChatContext.user_last_seen_ := ∅;
     ChatContext.user_status_update := None;
     ChatContext.friend_request_update := None |}.

(** Alice's context, freshly mounted, without and with a live socket. *)
Definition alice_offline : ChatContext.State := ChatContext.mount alice browser.

Definition alice_connected : ChatContext.State :=
  {| ChatContext.currentUser := alice; ChatContext.conversations := [];
     ChatContext.messages := ∅; ChatContext.users := [];
     ChatContext.friendRequests := []; ChatContext.activeConversation := None;
     ChatContext.isConnected := true; ChatContext.localStorage := browser |}.

(** Alice's context with a conversation with Bob, locked with "secret". *)
Definition alice_locked : ChatContext.State :=
  ChatContext.lockConversation
    (ChatContext.createConversation alice_offline "B" 5000).2 "conv_5000" "secret".

End Scenario.

(** * Properties *)

(** ** The registry: sequential handles *)

Section Registry.

Import SyncServer.

Lemma handle_inj : Inj (=) (=) handle.
Proof.
  intros m n H. unfold handle in H. simpl in H.
  injection H as H. by apply (inj pretty).
Qed.

Lemma find_username_app name us u :
  find_username name (us ++ [u]) =
    match find_username name us with
    | Some v => Some v
    | None => if bool_decide (UserData.username u = name) then Some u else None
    end.
Proof.
  unfold find_username. induction us as [|v us IH]; simpl.
  - done.
  - destruct (bool_decide (UserData.username v = name)); [done | apply IH].
Qed.

(** A run appends the created users, in order, and numbers them from the
    counter it started with. *)
Lemma post_all_appends reqs : ∀ data,
  users (post_all data reqs).1 = users data ++ created (post_all data reqs).2
  ∧ counter (post_all data reqs).1 = counter data + length (created (post_all data reqs).2)
  ∧ UserData.sequentialId <$> created (post_all data reqs).2
    = Some <$> seq (S (counter data)) (length (created (post_all data reqs).2))
  ∧ UserData.displayUsername <$> created (post_all data reqs).2
    = (fun n => Some (handle n))
        <$> seq (S (counter data)) (length (created (post_all data reqs).2)).
Proof.
  induction reqs as [|[body now] reqs IH]; intros data; simpl.
  - rewrite app_nil_r. split_and!; [done | lia | done | done].
  - unfold post_users.
    destruct (find_username (UserData.username body) (users data)) eqn:Hfind.
    + specialize (IH data). destruct (post_all data reqs) as [d rs]. simpl in *.
      exact IH.
    + match goal with |- context [post_all ?d reqs] => specialize (IH d) end.
      destruct (post_all _ reqs) as [d rs]. simpl in *.
      destruct IH as (Hu & Hc & Hs & Hd).
      split_and!.
      * rewrite Hu. by rewrite <- app_assoc.
      * rewrite Hc. lia.
      * f_equal. exact Hs.
      * f_equal. exact Hd.
Qed.

Lemma seq_strictly_increasing n : ∀ a, StronglySorted lt (seq a n).
Proof.
  induction n as [|n IH]; intros a; simpl; constructor.
  - apply IH.
  - apply Forall_forall. intros x Hx. apply list_elem_of_In, in_seq in Hx. lia.
Qed.

End Registry.

Section RegistryOfChatServer.

(** The registry routes of the chat server are those of [server.cjs] on
    the [users] and [counter] fields. *)
Lemma post_users_registry st body now :
  ChatServer.registry (ChatServer.globalData (ChatServer.post_users st body now).1)
    = (SyncServer.post_users (ChatServer.registry (ChatServer.globalData st)) body now).1
  ∧ (ChatServer.post_users st body now).2
    = (SyncServer.post_users (ChatServer.registry (ChatServer.globalData st)) body now).2.
Proof.
  unfold ChatServer.post_users, SyncServer.post_users, ChatServer.registry. simpl.
  destruct (SyncServer.find_username _ _); simpl; [by destruct st as [[]] | done].
Qed.

Lemma post_all_registry reqs : ∀ st,
  ChatServer.registry (ChatServer.globalData (ChatServer.post_all st reqs).1)
    = (SyncServer.post_all (ChatServer.registry (ChatServer.globalData st)) reqs).1
  ∧ (ChatServer.post_all st reqs).2
    = (SyncServer.post_all (ChatServer.registry (ChatServer.globalData st)) reqs).2.
Proof.
  induction reqs as [|[body now] reqs IH]; intros st; simpl; [done |].
  destruct (post_users_registry st body now) as [H1 H2].
  destruct (ChatServer.post_users st body now) as [st1 r].
  destruct (SyncServer.post_users _ body now) as [d1 r'].
  simpl in H1, H2. subst r'.
  specialize (IH st1). rewrite H1 in IH.
  destruct (ChatServer.post_all st1 reqs) as [st2 rs].
  destruct (SyncServer.post_all d1 reqs) as [d2 rs'].
  simpl in *. destruct IH as [-> ->]. done.
Qed.

End RegistryOfChatServer.

(** C3.  Registering users against the initial registry gives the n-th
    created user the sequential id n and the handle "#n": the handles of the
    created users are "#1", ..., "#n" in the order the registrations
    completed, so no two users share one and the ids increase strictly.
    Refused attempts (a username already present) consume no number.  The
    chat server's registry route behaves the same. *)
Theorem sequential_handles_unique_and_increasing (reqs : list (UserData.t * Z)) :
  let run := SyncServer.post_all SyncServer.initial reqs in
  let us := SyncServer.created run.2 in
  let n := length us in
  SyncServer.users run.1 = us
  ∧ SyncServer.counter run.1 = n
  ∧ UserData.displayUsername <$> us = (fun k => Some ("#" +:+ pretty k)) <$> seq 1 n
  ∧ UserData.sequentialId <$> us = Some <$> seq 1 n
  ∧ NoDup (UserData.displayUsername <$> us)
  ∧ StronglySorted lt (omap UserData.sequentialId us)
  ∧ ChatServer.users (ChatServer.globalData
                        (ChatServer.post_all ChatServer.initial reqs).1) = us
  ∧ (ChatServer.post_all ChatServer.initial reqs).2 = run.2.
Proof.
  intros run us n.
  destruct (post_all_appends reqs SyncServer.initial) as (Hu & Hc & Hs & Hd).
  fold run in Hu, Hc, Hs, Hd. fold us in Hu, Hc, Hs, Hd. fold n in Hc, Hs, Hd.
  simpl in Hu, Hc, Hs, Hd.
  destruct (post_all_registry reqs ChatServer.initial) as [Hr1 Hr2].
  split_and!; try done.
  - rewrite Hd. apply NoDup_fmap_2; [| apply NoDup_seq].
    intros a b H. apply handle_inj. congruence.
  - assert (omap UserData.sequentialId us = seq 1 n) as ->.
    { clear -Hs. revert Hs. generalize (seq 1 n). induction us as [|u us IH]; intros [|k l] H;
        simpl in *; try done.
      injection H as H1 H2. rewrite H1. simpl. f_equal. by apply IH. }
    apply seq_strictly_increasing.
  - change (SyncServer.users (ChatServer.registry (ChatServer.globalData
              (ChatServer.post_all ChatServer.initial reqs).1)) = us).
    rewrite Hr1. exact Hu.
Qed.

(** C10.  Whatever the registry holds, DELETE /api/users leaves no user and
    a counter of 0, and the registration that follows succeeds and is given
    the sequential id 1 and the handle "#1" again.  The chat server's route
    does the same to its [users] and [counter] and leaves the rest of
    [globalData] alone. *)
Theorem delete_users_restarts_handles
    (data : SyncServer.Data) (st : ChatServer.State) (body : UserData.t) (now : Z) :
  let data0 := (SyncServer.delete_users data).1 in
  let st0 := (ChatServer.delete_users st).1 in
  (SyncServer.users data0 = [] ∧ SyncServer.counter data0 = 0
   ∧ ∃ u, SyncServer.post_users data0 body now
          = ({| SyncServer.users := [u]; SyncServer.counter := 1 |}, SyncServer.Json u)
        ∧ UserData.displayUsername u = Some "#1"
        ∧ UserData.sequentialId u = Some 1)
  ∧ (ChatServer.users (ChatServer.globalData st0) = []
     ∧ ChatServer.counter (ChatServer.globalData st0) = 0
     ∧ ChatServer.onlineUsers (ChatServer.globalData st0)
       = ChatServer.onlineUsers (ChatServer.globalData st)
     ∧ ChatServer.conversations (ChatServer.globalData st0)
       = ChatServer.conversations (ChatServer.globalData st)
     ∧ ChatServer.messages (ChatServer.globalData st0)
       = ChatServer.messages (ChatServer.globalData st)
     ∧ ChatServer.friendRequests (ChatServer.globalData st0)
       = ChatServer.friendRequests (ChatServer.globalData st)
     ∧ ∃ u, (ChatServer.post_users st0 body now).2 = SyncServer.Json u
          ∧ ChatServer.users (ChatServer.globalData (ChatServer.post_users st0 body now).1)
            = [u]
          ∧ ChatServer.counter (ChatServer.globalData (ChatServer.post_users st0 body now).1)
            = 1
          ∧ UserData.displayUsername u = Some "#1"
          ∧ UserData.sequentialId u = Some 1).
Proof.
  simpl. split.
  - split_and!; try done. eexists. split_and!; reflexivity.
  - split_and!; try done. eexists. split_and!; reflexivity.
Qed.

(** ** The chat server: message history *)

Section History.

Import ChatServer.

Lemma globalData_join sid room st : globalData (join sid room st) = globalData st.
Proof. unfold join. by destruct (decide _). Qed.

(** Presence events never touch the stored histories, conversations or
    friend requests. *)
Lemma presence_keeps_store st p :
  messages (globalData (step st (of_presence p)).1) = messages (globalData st)
  ∧ conversations (globalData (step st (of_presence p)).1) = conversations (globalData st)
  ∧ friendRequests (globalData (step st (of_presence p)).1)
    = friendRequests (globalData st).
Proof.
  destruct p as [sid | sid u now | sid | sid u now]; simpl.
  - unfold connection. simpl. by rewrite globalData_join.
  - unfold user_login. simpl. by rewrite globalData_join.
  - done.
  - unfold heartbeat. by destruct (Js.get _ _).
Qed.

Lemma presence_run_keeps_messages ps : ∀ st,
  messages (globalData (run st (of_presence <$> ps))) = messages (globalData st).
Proof.
  induction ps as [|p ps IH]; intros st; simpl; [done |].
  unfold run in *. simpl. rewrite IH. apply presence_keeps_store.
Qed.

(** What [send-message] leaves under the conversation's key. *)
Lemma send_message_history st sid data now rnd :
  messages (globalData (send_message st sid data now rnd).1) !! md_conversationId data
  = Some (default [] (messages (globalData st) !! md_conversationId data)
          ++ [new_message data now rnd]).
Proof. unfold send_message. simpl. apply lookup_insert_eq. Qed.

Lemma send_message_other_history st sid data now rnd conversationId :
  conversationId ≠ md_conversationId data →
  messages (globalData (send_message st sid data now rnd).1) !! conversationId
  = messages (globalData st) !! conversationId.
Proof. intros H. unfold send_message. simpl. by apply lookup_insert_ne. Qed.

(** Apart from the acceptance of a friend request, which starts the new
    conversation's history afresh, an event only ever extends a history. *)
Lemma other_events_extend_history st e conversationId :
  match e with
  | AcceptFriendRequest _ _ _ _ => True
  | _ =>
      default [] (messages (globalData st) !! conversationId)
        `prefix_of` default [] (messages (globalData (step st e).1) !! conversationId)
  end.
Proof.
  destruct e as [sid | sid u now | sid data now rnd | sid requestId userId now
                | sid data now rnd | sid c u n | sid c u | sid | sid u now];
    try done; cbn [step].
  - unfold connection. simpl. by rewrite globalData_join.
  - unfold user_login. simpl. by rewrite globalData_join.
  - destruct (decide (conversationId = md_conversationId data)) as [-> | Hne].
    + rewrite send_message_history. simpl. by apply prefix_app_r.
    + by rewrite send_message_other_history.
  - unfold heartbeat. by destruct (Js.get _ _).
Qed.

End History.

(** C1.  Every [send-message] request leaves the conversation's history
    extended by the new message, which carries the sender, the receiver and
    the whole content of the request; nothing in this depends on who is
    online or on what is pushed.  The history then survives any sequence of
    presence events (connections, logins, heartbeats, disconnections), so a
    message sent while the receiver was offline is in the store, in full,
    once the receiver has reconnected. *)
Theorem message_stored_whatever_the_delivery
    (st : ChatServer.State) (sid : string) (data : ChatServer.MessageData)
    (now : Z) (rnd : string) (ps : list ChatServer.PresenceEvent) :
  let conversationId := ChatServer.md_conversationId data in
  let before := default [] (ChatServer.messages (ChatServer.globalData st) !! conversationId) in
  let sent := ChatServer.send_message st sid data now rnd in
  let later := ChatServer.run sent.1 (ChatServer.of_presence <$> ps) in
  let message := ChatServer.new_message data now rnd in
  ChatServer.messages (ChatServer.globalData sent.1) !! conversationId
    = Some (before ++ [message])
  ∧ ChatServer.messages (ChatServer.globalData later) !! conversationId
    = Some (before ++ [message])
  ∧ Message.content message = ChatServer.md_content data
  ∧ Message.senderId message = ChatServer.md_senderId data
  ∧ Message.receiverId message = ChatServer.md_receiverId data
  ∧ Forall (fun d => ∃ c, d.2 = ChatServer.MessageReceived c message) sent.2.
Proof.
  intros conversationId before sent later message.
  split_and!; try done.
  - apply send_message_history.
  - unfold later. rewrite presence_run_keeps_messages. apply send_message_history.
  - unfold sent, ChatServer.send_message. simpl.
    destruct (alter _ _ _ !! _) as [conversation|]; [| constructor].
    apply Forall_forall. intros d Hd.
    apply list_elem_of_join in Hd as (l & Hd & Hl).
    apply list_elem_of_fmap in Hl as (participantId & -> & _).
    unfold ChatServer.io_to in Hd. apply list_elem_of_fmap in Hd as (s & -> & _).
    by eexists.
Qed.

(** ** The chat server: what [send-message] checks *)

(** C6, as stated, fails: in the conversation of Alice and Bob a message
    with empty content from "C", who is no participant, is not rejected; it
    is appended to the history and pushed to both participants. *)
Lemma send_message_rejects_nothing_counterexample :
  let st := Scenario.friends in
  let data := Scenario.stranger_message in
  let sent := ChatServer.send_message st "sC" data 5000 "0.5" in
  (∃ c, ChatServer.conversations (ChatServer.globalData st) !! "conv_4000_A_B" = Some c
        ∧ ChatServer.Conversation.participants c = ["A"; "B"]
        ∧ ChatServer.md_senderId data ∉ ChatServer.Conversation.participants c)
  ∧ ChatServer.md_content data = ""
  ∧ ChatServer.messages (ChatServer.globalData st) !! "conv_4000_A_B" = Some []
  ∧ ChatServer.messages (ChatServer.globalData sent.1) !! "conv_4000_A_B"
    = Some [ChatServer.new_message data 5000 "0.5"]
  ∧ sent.2 = [("sA", ChatServer.MessageReceived "conv_4000_A_B"
                       (ChatServer.new_message data 5000 "0.5"));
              ("sB", ChatServer.MessageReceived "conv_4000_A_B"
                       (ChatServer.new_message data 5000 "0.5"))].
Proof.
  split_and!; try (vm_compute; reflexivity).
  eexists. split_and!; [vm_compute; reflexivity | reflexivity |].
  change ("C" ∉ ["A"; "B"]). rewrite !elem_of_cons, elem_of_nil.
  intros [H | [H | []]]; discriminate H.
Qed.

(** C6, amended.  The handler validates neither the sender nor the content:
    also when the sender is not a participant of the named conversation, or
    the content is empty, the message is appended to the history, becomes
    the conversation's last message, and is pushed to the personal room of
    every participant. *)
Theorem send_message_checks_neither_sender_nor_content
    (st : ChatServer.State) (sid : string) (data : ChatServer.MessageData)
    (now : Z) (rnd : string) (conversation : ChatServer.Conversation.t) :
  ChatServer.conversations (ChatServer.globalData st) !! ChatServer.md_conversationId data
    = Some conversation →
  ChatServer.md_senderId data ∉ ChatServer.Conversation.participants conversation
    ∨ ChatServer.md_content data = "" →
  let conversationId := ChatServer.md_conversationId data in
  let message := ChatServer.new_message data now rnd in
  let sent := ChatServer.send_message st sid data now rnd in
  ChatServer.messages (ChatServer.globalData sent.1) !! conversationId
    = Some (default [] (ChatServer.messages (ChatServer.globalData st) !! conversationId)
            ++ [message])
  ∧ ChatServer.conversations (ChatServer.globalData sent.1) !! conversationId
    = Some (ChatServer.touch message now conversation)
  ∧ sent.2 = mjoin ((fun participantId =>
                       ChatServer.io_to (ChatServer.user_room participantId)
                         (ChatServer.MessageReceived conversationId message) sent.1)
                      <$> ChatServer.Conversation.participants conversation).
Proof.
  intros Hconv _ conversationId message sent.
  subst conversationId message sent. split_and!.
  - apply send_message_history.
  - unfold ChatServer.send_message. simpl. by rewrite lookup_alter_eq, Hconv.
  - unfold ChatServer.send_message. simpl. by rewrite lookup_alter_eq, Hconv.
Qed.

Lemma send_message_checks_neither_sender_nor_content_witness :
  let conversation :=
    {| ChatServer.Conversation.id := "conv_4000_A_B";
       ChatServer.Conversation.participants := ["A"; "B"];
       ChatServer.Conversation.createdAt := Js.IsoOf 4000;
       ChatServer.Conversation.lastMessage := None;
       ChatServer.Conversation.unreadCount := 0;
       ChatServer.Conversation.updatedAt := None |} in
  ChatServer.conversations (ChatServer.globalData Scenario.friends) !! "conv_4000_A_B"
    = Some conversation
  ∧ ChatServer.md_content Scenario.stranger_message = ""
  ∧ ChatServer.messages
      (ChatServer.globalData
         (ChatServer.send_message Scenario.friends "sC" Scenario.stranger_message
            5000 "0.5").1)
      !! "conv_4000_A_B"
    = Some (default [] (ChatServer.messages (ChatServer.globalData Scenario.friends)
                          !! "conv_4000_A_B")
            ++ [ChatServer.new_message Scenario.stranger_message 5000 "0.5"]).
Proof.
  intros conversation.
  assert (ChatServer.conversations (ChatServer.globalData Scenario.friends)
            !! ChatServer.md_conversationId Scenario.stranger_message
          = Some conversation) as Hconv.
  { vm_compute. reflexivity. }
  split; [exact Hconv | split; [reflexivity |]].
  exact (proj1 (send_message_checks_neither_sender_nor_content
                  Scenario.friends "sC" Scenario.stranger_message 5000 "0.5"
                  conversation Hconv (or_intror eq_refl))).
Defined.

(** ** The chat server: typing indicators *)

Section Typing.

Import ChatServer.

Lemma user_room_not_conv_room userId conversationId :
  user_room userId ≠ conv_room conversationId.
Proof. unfold user_room, conv_room. simpl. discriminate. Qed.

Lemma join_keeps_no_conversation_room sid room st :
  (∀ conversationId, room ≠ conv_room conversationId) →
  no_conversation_room st → no_conversation_room (join sid room st).
Proof.
  intros Hroom Hst. unfold join. destruct (decide _); [done |].
  unfold no_conversation_room in *. simpl.
  apply Forall_app. split; [done |]. by constructor.
Qed.

(** The handlers only ever join a socket to its own room and to a personal
    room, so no socket ever sits in a conversation room. *)
Lemma step_keeps_no_conversation_room st e :
  plain e → no_conversation_room st → no_conversation_room (step st e).1.
Proof.
  intros He Hst.
  destruct e as [sid | sid u now | sid data now rnd | sid requestId userId now
                | sid data now rnd | sid c u n | sid c u | sid | sid u now]; simpl.
  - unfold connection. simpl. by apply join_keeps_no_conversation_room.
  - unfold user_login. simpl. apply join_keeps_no_conversation_room; [| done].
    intros c. apply user_room_not_conv_room.
  - done.
  - unfold accept_friend_request. by destruct (list_find _ _) as [[i r]|].
  - done.
  - done.
  - done.
  - unfold no_conversation_room in *. simpl.
    rewrite Forall_forall in Hst |- *. intros p Hp.
    apply list_elem_of_filter in Hp as [_ Hp]. by apply Hst.
  - unfold heartbeat. by destruct (Js.get _ _).
Qed.

Lemma run_keeps_no_conversation_room es : ∀ st,
  Forall plain es → no_conversation_room st → no_conversation_room (run st es).
Proof.
  induction es as [|e es IH]; intros st Hes Hst; [done |].
  apply Forall_cons in Hes as [He Hes].
  unfold run in *. simpl. apply IH; [done |].
  by apply step_keeps_no_conversation_room.
Qed.

Lemma members_conv_room_empty st conversationId :
  no_conversation_room st → members (conv_room conversationId) st = [].
Proof.
  unfold no_conversation_room, members. intros H.
  induction (rooms st) as [|p l IH]; [done |].
  apply Forall_cons in H as [Hp Hl].
  rewrite filter_cons_False; [by apply IH | apply Hp].
Qed.

(** In every state the server reaches, a typing event is handed to no
    socket at all and changes nothing. *)
Lemma typing_reaches_no_socket es sid conversationId userId userName :
  Forall plain es →
  typing_start (run initial es) sid conversationId userId userName
    = (run initial es, [])
  ∧ typing_stop (run initial es) sid conversationId userId = (run initial es, []).
Proof.
  intros Hes.
  assert (no_conversation_room (run initial es)) as H.
  { apply run_keeps_no_conversation_room; [done | constructor]. }
  unfold typing_start, typing_stop, socket_to.
  by rewrite (members_conv_room_empty _ _ H).
Qed.

End Typing.

(** C9: the code misses the claim.  Alice and Bob are both online and share
    the conversation "conv_4000_A_B"; Alice's socket sends [typing-start] and
    [typing-stop] for it.  The handler addresses the room
    "conv_conv_4000_A_B", which no socket has joined (Bob's socket is in its
    own room and in "user_B"), so Bob's connection receives nothing, although
    a message sent to the same conversation does reach it.  Nothing is
    stored or queued. *)
Theorem typing_event_not_delivered_to_online_peer :
  let st := Scenario.friends in
  ChatServer.is_online "B" st = true
  ∧ ChatServer.members (ChatServer.user_room "B") st = ["sB"]
  ∧ (∃ c, ChatServer.conversations (ChatServer.globalData st) !! "conv_4000_A_B" = Some c
          ∧ ChatServer.Conversation.participants c = ["A"; "B"])
  ∧ ChatServer.typing_start st "sA" "conv_4000_A_B" "A" "Alice" = (st, [])
  ∧ ChatServer.typing_stop st "sA" "conv_4000_A_B" "A" = (st, [])
  ∧ ("sB", ChatServer.MessageReceived "conv_4000_A_B"
             (ChatServer.new_message
                {| ChatServer.md_conversationId := "conv_4000_A_B";
                   ChatServer.md_senderId := "A"; ChatServer.md_content := "hi";
                   ChatServer.md_receiverId := "B" |} 5000 "0.5"))
    ∈ (ChatServer.send_message st "sA"
         {| ChatServer.md_conversationId := "conv_4000_A_B";
            ChatServer.md_senderId := "A"; ChatServer.md_content := "hi";
            ChatServer.md_receiverId := "B" |} 5000 "0.5").2.
Proof.
  split_and!; try (vm_compute; reflexivity).
  - eexists. split; [vm_compute; reflexivity | reflexivity].
  - match goal with
    | |- ?x ∈ ?l => let l' := eval vm_compute in l in change (x ∈ l')
    end.
    rewrite !elem_of_cons. right. left. vm_compute. reflexivity.
Qed.

(** ** Friend requests: the duplicate check *)

Section DuplicateCheck.

Import ChatContext.

(** The context's [friendRequests] cell is the current user's inbox: it is
    loaded from [friend_requests_<current user>] and fed by
    [friend-request-received].  On an inbox, the duplicate check of
    [sendFriendRequest], which looks there for a request the current user
    sent to somebody else, never finds anything. *)
Lemma existingRequest_on_inbox st receiver :
  Forall (fun req => FriendRequest.receiverId req = cur st) (friendRequests st) →
  receiver ≠ cur st →
  existingRequest st receiver = None.
Proof.
  intros Hinbox Hne. unfold existingRequest, find.
  destruct (list_find _ _) as [[i req]|] eqn:Hfind; [| done].
  apply list_find_Some in Hfind as (Hi & (Hrecv & _) & _).
  apply list_elem_of_lookup_2 in Hi.
  rewrite Forall_forall in Hinbox. specialize (Hinbox _ Hi). congruence.
Qed.

End DuplicateCheck.

(** C4: the code misses the claim.  Alice sends Bob, by his username "bob",
    a friend request twice before Bob responds.  In the localStorage-only
    context, and in the WebSocket context without a connection, both calls
    return [true] and
    Bob's stored requests hold two pending requests from Alice; with a
    connection both calls return [true] and emit, and the server, which
    checks nothing, holds two pending requests from Alice for Bob.  The
    context's check for a request already sent finds nothing either time. *)
Theorem second_friend_request_is_not_rejected (parseInt : string → option Z) :
  let first := ChatContext.Local.sendFriendRequest parseInt Scenario.alice_offline "bob" 10000 in
  let second := ChatContext.Local.sendFriendRequest parseInt first.2 "bob" 20000 in
  let first' := ChatContext.Socket.sendFriendRequest parseInt Scenario.alice_offline "bob" 10000 in
  let second' := ChatContext.Socket.sendFriendRequest parseInt first'.1.2 "bob" 20000 in
  let first'' := ChatContext.Socket.sendFriendRequest parseInt Scenario.alice_connected "bob" 10000 in
  let second'' := ChatContext.Socket.sendFriendRequest parseInt first''.1.2 "bob" 20000 in
  let server :=
    ChatServer.run Scenario.both_online
      ((ChatContext.Socket.arrives "sA" 3000 "0.25" <$> first''.2)
       ++ (ChatContext.Socket.arrives "sA" 3500 "0.75" <$> second''.2)) in
  (first.1 = true ∧ second.1 = true
   ∧ ChatContext.existingRequest first.2 "B" = None
   ∧ ChatContext.friend_requests_ (ChatContext.localStorage second.2) !! "B"
     = Some [ChatContext.new_request Scenario.alice_offline "B" 10000;
             ChatContext.new_request Scenario.alice_offline "B" 20000])
  ∧ (first'.1.1 = true ∧ second'.1.1 = true
     ∧ ChatContext.friend_requests_ (ChatContext.localStorage second'.1.2) !! "B"
       = Some [ChatContext.new_request Scenario.alice_offline "B" 10000;
               ChatContext.new_request Scenario.alice_offline "B" 20000])
  ∧ (first''.1.1 = true ∧ second''.1.1 = true
     ∧ server = Scenario.asked_twice
     ∧ length (ChatServer.pending_requests "A" "B" server) = 2)
  ∧ FriendRequest.status (ChatContext.new_request Scenario.alice_offline "B" 10000) = pending
  ∧ FriendRequest.status (ChatContext.new_request Scenario.alice_offline "B" 20000) = pending.
Proof.
  split_and!; vm_compute; reflexivity.
Qed.

(** ** Conversations per pair *)

(** C2, as stated, fails on the server: after Alice's two requests to Bob
    have both been accepted, [globalData.conversations] holds two
    conversations for the pair. *)
Lemma accept_creates_second_conversation_counterexample :
  let held := ChatServer.conversations (ChatServer.globalData Scenario.accepted_twice) in
  ChatServer.Conversation.participants <$> held !! "conv_4000_A_B" = Some ["A"; "B"]
  ∧ ChatServer.Conversation.participants <$> held !! "conv_4500_A_B" = Some ["A"; "B"]
  ∧ length (ChatServer.conversations_of_pair "A" "B" Scenario.accepted_twice) = 2
  ∧ length (ChatServer.conversations_of_pair "A" "B" Scenario.accepted_twice) ≠ 1.
Proof.
  split_and!; vm_compute; [reflexivity | reflexivity | reflexivity | discriminate].
Qed.

Section ListFacts.

Context {A B : Type}.

Lemma filter_agree (P Q : A → Prop) `{!∀ x, Decision (P x)} `{!∀ x, Decision (Q x)}
    (l : list A) :
  Forall (fun x => P x ↔ Q x) l → filter P l = filter Q l.
Proof.
  induction 1 as [|x l Hx _ IH]; [done |].
  rewrite !filter_cons. rewrite IH.
  destruct (decide (P x)), (decide (Q x)); tauto.
Qed.

Lemma filter_none (P : A → Prop) `{!∀ x, Decision (P x)} (l : list A) :
  Forall (fun x => ¬ P x) l → filter P l = [].
Proof.
  induction 1 as [|x l Hx _ IH]; [done |].
  by rewrite filter_cons_False.
Qed.

(** Among elements told apart by [f], a property that pins [f] down holds
    of one element at most. *)
Lemma filter_unique (f : A → B) (P : A → Prop) `{!∀ x, Decision (P x)}
    (l : list A) (c : A) :
  NoDup (f <$> l) → c ∈ l → P c → (∀ y, y ∈ l → P y → f y = f c) →
  filter P l = [c].
Proof.
  induction l as [|a l IH]; intros Hnd Hc HPc Hf.
  - by apply elem_of_nil in Hc.
  - rewrite fmap_cons in Hnd. apply NoDup_cons in Hnd as [Ha Hnd].
    apply elem_of_cons in Hc as [-> | Hc].
    + rewrite filter_cons_True by done. f_equal.
      apply filter_none, Forall_forall. intros y Hy HPy.
      apply Ha. rewrite <- (Hf y); [by apply list_elem_of_fmap_2 | by right | done].
    + assert (¬ P a) as Hna.
      { intros HPa. apply Ha. rewrite (Hf a); [by apply list_elem_of_fmap_2 | by left | done]. }
      rewrite filter_cons_False by done.
      apply IH; try done. intros y Hy. apply Hf. by right.
Qed.

End ListFacts.

Section ConversationsOfContext.

Import ChatContext.

Lemma cur_createConversation st u now : cur (createConversation st u now).2 = cur st.
Proof. unfold createConversation. by destruct (find _ _). Qed.

Lemma one_per_pair_same st st' :
  cur st' = cur st → conversations st' = conversations st →
  one_per_pair st → one_per_pair st'.
Proof. unfold one_per_pair. by intros -> ->. Qed.

(** What [createConversation] looks for, on a well-formed list. *)
Lemma wanted_iff st u c :
  u ≠ cur st →
  (∃ v, Conversation.participants c = [cur st; v]) →
  (u ∈ Conversation.participants c ∧ cur st ∈ Conversation.participants c)
  ↔ (Conversation.participants c = [cur st; u]
     ∨ Conversation.participants c = [u; cur st]).
Proof.
  intros Hne [v Hv]. rewrite Hv. rewrite !elem_of_cons, !elem_of_nil. split.
  - intros [[Hu | [Hu | []]] _]; [done | subst; by left].
  - intros [[= ->] | [= Hu _]]; [| done]. split; [right; by left | by left].
Qed.

Lemma createConversation_one_per_pair st u now :
  one_per_pair st → one_per_pair (createConversation st u now).2.
Proof.
  intros [Hshape Hnd]. unfold createConversation, find.
  destruct (list_find _ _) as [[i c]|] eqn:Hfind; simpl; [done |].
  apply list_find_None in Hfind. split; simpl.
  - apply Forall_app. split; [done |]. constructor; [by eexists | constructor].
  - rewrite fmap_app. apply NoDup_app. split_and!; [done | | apply NoDup_singleton].
    intros parts Hin Hnew. apply list_elem_of_singleton in Hnew as ->.
    apply list_elem_of_fmap in Hin as (c & Hc & Hin).
    rewrite Forall_forall in Hfind. apply (Hfind c Hin).
    rewrite <- Hc. simpl. rewrite !elem_of_cons. split; [right; by left | by left].
Qed.

Lemma acceptFriendRequest_one_per_pair status_of fallback st requestId now :
  one_per_pair st →
  one_per_pair (acceptFriendRequest_with status_of fallback st requestId now).
Proof.
  intros Hst. unfold acceptFriendRequest_with.
  destruct (find _ (friendRequests st)) as [request|]; [| done].
  cbv zeta.
  destruct (find _ (getAllRegisteredUsers st)) as [senderUser|].
  - destruct (status_of _ _ _) as [presence ls1].
    match goal with
    | |- context [createConversation ?s ?u ?n] =>
        apply (one_per_pair_same (createConversation s u n).2); [done | done |];
        apply createConversation_one_per_pair;
        by apply (one_per_pair_same st)
    end.
  - by apply (one_per_pair_same st).
Qed.

Lemma creating_one_per_pair status_of fallback ops : ∀ st,
  one_per_pair st →
  one_per_pair (foldl (creating_with status_of fallback) st ops)
  ∧ cur (foldl (creating_with status_of fallback) st ops) = cur st.
Proof.
  induction ops as [|op ops IH]; intros st Hst; simpl; [done |].
  destruct op as [userId now | requestId now]; simpl.
  - destruct (IH (createConversation st userId now).2) as [H1 H2].
    { by apply createConversation_one_per_pair. }
    split; [done |]. rewrite H2. apply cur_createConversation.
  - destruct (IH (acceptFriendRequest_with status_of fallback st requestId now)) as [H1 H2].
    { by apply acceptFriendRequest_one_per_pair. }
    split; [done |]. rewrite H2. unfold acceptFriendRequest_with.
    destruct (find _ (friendRequests st)) as [request|]; [| done].
    cbv zeta.
    destruct (find _ (getAllRegisteredUsers st)) as [senderUser|]; [| done].
    destruct (status_of _ _ _) as [presence ls1].
    match goal with
    | |- context [createConversation ?s ?u ?n] =>
        change (cur (createConversation s u n).2 = cur st);
        by rewrite cur_createConversation
    end.
Qed.

End ConversationsOfContext.

Section Idempotence.

Import ChatContext.

Lemma conversations_with_wanted st u :
  u ≠ cur st → one_per_pair st →
  conversations_with u st
  = filter (fun c => u ∈ Conversation.participants c
                     ∧ cur st ∈ Conversation.participants c) (conversations st).
Proof.
  intros Hne [Hshape _]. unfold conversations_with. apply filter_agree.
  eapply Forall_impl; [exact Hshape |]. intros c Hc. simpl.
  symmetry. by apply wanted_iff.
Qed.

(** On a context with one conversation per pair, [createConversation] for
    another user either finds that user's conversation and changes
    nothing, or finds none and adds one; a second call finds the first
    call's. *)
Lemma createConversation_spec st u now now' :
  one_per_pair st → u ≠ cur st →
  (length (conversations_with u st) ≤ 1)%nat
  ∧ (∀ c, c ∈ conversations_with u st →
          createConversation st u now = (Conversation.id c, st))
  ∧ length (conversations_with u (createConversation st u now).2) = 1
  ∧ createConversation (createConversation st u now).2 u now'
    = createConversation st u now.
Proof.
  intros Hst Hne.
  pose proof (createConversation_one_per_pair st u now Hst) as Hst'.
  pose proof (cur_createConversation st u now) as Hcur.
  rewrite (conversations_with_wanted st u Hne Hst).
  rewrite (conversations_with_wanted _ u) by (by rewrite ?Hcur).
  rewrite Hcur. clear Hst' Hcur.
  destruct Hst as [Hshape Hnd].
  unfold createConversation, find.
  destruct (list_find _ (conversations st)) as [[i c]|] eqn:Hfind; simpl.
  - pose proof Hfind as Hfound.
    apply list_find_Some in Hfound as (Hi & HPc & _).
    apply list_elem_of_lookup_2 in Hi.
    assert (filter (fun c => u ∈ Conversation.participants c
                             ∧ cur st ∈ Conversation.participants c)
                   (conversations st) = [c]) as ->.
    { apply (filter_unique Conversation.participants); try done.
      intros y Hy HPy. rewrite Forall_forall in Hshape.
      assert (∀ x, x ∈ conversations st →
                   u ∈ Conversation.participants x
                   ∧ cur st ∈ Conversation.participants x →
                   Conversation.participants x = [cur st; u]) as Hparts.
      { intros x Hx HPx. destruct (Hshape x Hx) as [v Hv].
        destruct (proj1 (wanted_iff st u x Hne (ex_intro _ v Hv)) HPx) as [H | H];
          [done |].
        rewrite Hv in H. injection H as H _. congruence. }
      rewrite (Hparts y Hy HPy). by rewrite (Hparts c Hi HPc). }
    split_and!; [done | | done |].
    + intros c' Hc'. by apply list_elem_of_singleton in Hc' as ->.
    + by rewrite Hfind.
  - pose proof Hfind as Hnone. apply list_find_None in Hnone.
    rewrite (filter_none _ _ Hnone). rewrite filter_app, (filter_none _ _ Hnone).
    rewrite filter_cons_True, filter_nil.
    2:{ simpl. rewrite !elem_of_cons. split; [right; by left | by left]. }
    split_and!; [simpl; lia | | done |].
    + intros c' Hc'. by apply elem_of_nil in Hc'.
    + rewrite list_find_app_r by done. simpl.
      rewrite decide_True; [done |].
      simpl. rewrite !elem_of_cons. split; [right; by left | by left].
Qed.

(** A commit that added a conversation is not the state it started from. *)
Lemma same_render_miss st u now :
  setMessages (fun prev => <["conv_" +:+ pretty now := []]> prev)
    (setConversations
       (fun prev => prev ++
          [{| Conversation.id := "conv_" +:+ pretty now;
              Conversation.participants := [cur st; u];
              Conversation.lastMessage := None;
              Conversation.unreadCount := 0;
              Conversation.updatedAt := Js.IsoOf now;
              Conversation.status := active;
              Conversation.password := None |}]) st) = st → False.
Proof.
  intros Heq. apply (f_equal (fun s => length (conversations s))) in Heq.
  simpl in Heq. rewrite length_app in Heq. simpl in Heq. lia.
Qed.

(** Two calls in one render that shows no conversation for the pair. *)
Lemma same_render_twice st u now now' :
  one_per_pair st → u ≠ cur st →
  conversations_with u st = [] →
  (createConversation_in st (createConversation st u now).2 u now').1
    = "conv_" +:+ pretty now'
  ∧ length (conversations_with u
              (createConversation_in st (createConversation st u now).2 u now').2) = 2.
Proof.
  intros Hst Hne Hnone.
  rewrite (conversations_with_wanted st u Hne Hst) in Hnone.
  assert (find (fun c => u ∈ Conversation.participants c
                         ∧ cur st ∈ Conversation.participants c)
               (conversations st) = None) as Hfind.
  { unfold find. destruct (list_find _ _) as [[i x]|] eqn:Hx; [| done].
    apply list_find_Some in Hx as (Hi & HP & _).
    assert (x ∈ filter (fun c => u ∈ Conversation.participants c
                                 ∧ cur st ∈ Conversation.participants c)
                       (conversations st)) as Hin.
    { apply list_elem_of_filter. split; [done | by eapply list_elem_of_lookup_2]. }
    rewrite Hnone in Hin. by apply elem_of_nil in Hin. }
  unfold createConversation_in, createConversation. rewrite Hfind.
  split; [done |]. cbn [snd].
  match goal with
  | |- length (conversations_with u ?s) = 2 =>
      assert (cur s = cur st) as Hcur by reflexivity;
      assert (conversations s
              = (conversations st ++ [?[c1]]) ++ [?[c2]]) as Hconvs by reflexivity;
      unfold conversations_with; rewrite Hcur, Hconvs
  end.
  rewrite !filter_app.
  assert (filter (fun c => Conversation.participants c = [cur st; u]
                           ∨ Conversation.participants c = [u; cur st])
                 (conversations st) = []) as ->.
  { fold (conversations_with u st).
    by rewrite (conversations_with_wanted st u Hne Hst). }
  rewrite !filter_cons_True by (by left). done.
Qed.

End Idempotence.

(** C2, amended.  In the chat context conversation creation is idempotent per
    pair provided each call is made once the previous one has been
    committed and rendered, so that it reads the conversations the previous
    call left.  Start from a context with at most one conversation per pair
    (a freshly mounted one has none) and run any sequence of such
    [createConversation] and [acceptFriendRequest] calls: there is still at
    most one conversation per pair; [createConversation] for another user
    who already has a conversation returns that conversation's id and
    changes nothing; after the call exactly one conversation exists for the
    pair, and a call in a later render returns the same id and changes
    nothing.  Within one render the closure reads the render's list: a
    second call in the render of the first still returns the id of a
    conversation the render already shows, but when the render shows none
    for the pair both calls miss, and the second adds a second conversation
    for the pair.  The server's [accept-friend-request] handler does not
    look for an existing conversation: each accepted request stores a
    conversation under the id "conv_<now>_<sender>_<receiver>". *)
Theorem conversation_creation_idempotent_in_context
    (status_of : ChatContext.Storage → string → Z → Presence * ChatContext.Storage)
    (fallback : string) (st0 : ChatContext.State) (ops : list ChatContext.Creating)
    (u : string) (now now' : Z) :
  ChatContext.one_per_pair st0 →
  u ≠ ChatContext.cur st0 →
  let st := foldl (ChatContext.creating_with status_of fallback) st0 ops in
  let created := ChatContext.createConversation st u now in
  ChatContext.one_per_pair st
  ∧ (length (ChatContext.conversations_with u st) ≤ 1)%nat
  ∧ (∀ c, c ∈ ChatContext.conversations_with u st →
          created = (ChatContext.Conversation.id c, st))
  ∧ length (ChatContext.conversations_with u created.2) = 1
  ∧ ChatContext.createConversation created.2 u now' = created
  ∧ created = ChatContext.createConversation_in st st u now
  ∧ ChatContext.createConversation created.2 u now'
    = ChatContext.createConversation_in created.2 created.2 u now'
  ∧ (∀ c, c ∈ ChatContext.conversations_with u st →
          ChatContext.createConversation_in st created.2 u now' = created)
  ∧ (ChatContext.conversations_with u st = [] →
     (ChatContext.createConversation_in st created.2 u now').1 = "conv_" +:+ pretty now'
     ∧ length (ChatContext.conversations_with u
                 (ChatContext.createConversation_in st created.2 u now').2) = 2)
  ∧ (∀ (server : ChatServer.State) (sid requestId userId : string) (at_ : Z)
       (i : nat) (request : FriendRequest.t),
       list_find (fun r => FriendRequest.id r = requestId)
                 (default [] (ChatServer.friendRequests (ChatServer.globalData server)
                                !! userId)) = Some (i, request) →
       let conversationId :=
         "conv_" +:+ pretty at_ +:+ "_" +:+ FriendRequest.senderId request
                 +:+ "_" +:+ userId in
       ChatServer.conversations
         (ChatServer.globalData
            (ChatServer.accept_friend_request server sid requestId userId at_).1)
       = <[conversationId :=
             {| ChatServer.Conversation.id := conversationId;
                ChatServer.Conversation.participants :=
                  [FriendRequest.senderId request; userId];
                ChatServer.Conversation.createdAt := Js.IsoOf at_;
                ChatServer.Conversation.lastMessage := None;
                ChatServer.Conversation.unreadCount := 0;
                ChatServer.Conversation.updatedAt := None |}]>
           (ChatServer.conversations (ChatServer.globalData server))).
Proof.
  intros Hst0 Hne st created.
  destruct (creating_one_per_pair status_of fallback ops st0 Hst0) as [Hst Hcur].
  fold st in Hst, Hcur. rewrite <- Hcur in Hne.
  destruct (createConversation_spec st u now now' Hst Hne) as (H1 & H2 & H3 & H4).
  split_and!; try done.
  - intros c Hc. pose proof (H2 c Hc) as Hcreated.
    unfold created. rewrite Hcreated. cbn [snd].
    unfold ChatContext.createConversation in Hcreated.
    unfold ChatContext.createConversation_in.
    destruct (ChatContext.find _ (ChatContext.conversations st)) as [existingConv|].
    + by injection Hcreated as ->.
    + injection Hcreated as _ Hsame. destruct (same_render_miss st u now Hsame).
  - intros Hnone.
    pose proof (same_render_twice st u now now' Hst Hne Hnone) as Htwice.
    exact Htwice.
  - intros server sid requestId userId at_ i request Hfind conversationId.
    unfold ChatServer.accept_friend_request. by rewrite Hfind.
Qed.

Lemma conversation_creation_idempotent_in_context_witness :
  ChatContext.one_per_pair Scenario.alice_offline
  ∧ "B" ≠ ChatContext.cur Scenario.alice_offline
  ∧ length (ChatContext.conversations_with "B"
              (ChatContext.createConversation
                 (foldl (ChatContext.creating_with ChatContext.Local.getUserOnlineStatus "x")
                        Scenario.alice_offline [ChatContext.Create "B" 5000])
                 "B" 6000).2) = 1.
Proof.
  assert (ChatContext.one_per_pair Scenario.alice_offline) as H1.
  { split; constructor. }
  assert ("B" ≠ ChatContext.cur Scenario.alice_offline) as H2.
  { discriminate. }
  split; [exact H1 | split; [exact H2 |]].
  exact (proj1 (proj2 (proj2 (proj2
           (conversation_creation_idempotent_in_context
              ChatContext.Local.getUserOnlineStatus "x" Scenario.alice_offline
              [ChatContext.Create "B" 5000] "B" 6000 7000 H1 H2))))).
Defined.

(** ** Locking and unlocking a conversation *)

Section Locks.

Import ChatContext.

Lemma find_cons {A} (P : A → Prop) `{!∀ x, Decision (P x)} (x : A) (l : list A) :
  find P (x :: l) = if decide (P x) then Some x else find P l.
Proof.
  unfold find. simpl. destruct (decide (P x)); [done |].
  by destruct (list_find P l) as [[i y]|].
Qed.

(** Updating the conversations with some id moves no conversation and
    changes no id, so every id names the conversation it named, updated
    if the id is the updated one. *)
Lemma named_update_conv st conversationId other f :
  (∀ c, Conversation.id (f c) = Conversation.id c) →
  named (setConversations (update_conv conversationId f) st) other
  = (if decide (other = conversationId) then f else id) <$> named st other.
Proof.
  intros Hid. unfold named. simpl.
  induction (conversations st) as [|c l IH]; [done |].
  unfold update_conv in *. rewrite fmap_cons, !find_cons.
  destruct (decide (Conversation.id c = conversationId)) as [Hc | Hc].
  - rewrite Hid. destruct (decide (Conversation.id c = other)) as [Ho | Ho].
    + simpl. rewrite decide_True by congruence. done.
    + apply IH.
  - destruct (decide (Conversation.id c = other)) as [Ho | Ho].
    + simpl. rewrite decide_False by congruence. done.
    + apply IH.
Qed.

Lemma unlockConversation_named st conversationId password :
  unlockConversation st conversationId password
  = match named st conversationId with
    | Some conversation =>
        if decide (Conversation.password conversation = Some password) then
          (true, setConversations (update_conv conversationId (with_lock active None)) st)
        else (false, st)
    | None => (false, st)
    end.
Proof. done. Qed.

End Locks.

(** C5.  [unlockConversation] always returns a boolean.  With a password
    that is not the one stored with the named conversation (or when there is
    no such conversation, or it stores none) it returns [false] and the
    state, hence the status and the stored password, is exactly what it was.
    With the password stored with a locked conversation it returns [true],
    that conversation becomes active and stores no password any more, and
    the conversations under other ids, the messages and the rest of the
    state are untouched; a further call with the same password returns
    [false] and changes nothing, so the transition happens once. *)
Theorem unlock_wrong_password_keeps_state_and_right_one_unlocks_once
    (st : ChatContext.State) (conversationId password : string) :
  ((∀ c, ChatContext.named st conversationId = Some c →
         ChatContext.Conversation.password c ≠ Some password) →
   ChatContext.unlockConversation st conversationId password = (false, st))
  ∧ (∀ c, ChatContext.named st conversationId = Some c →
          ChatContext.Conversation.status c = ChatContext.locked →
          ChatContext.Conversation.password c = Some password →
          let unlocked := ChatContext.unlockConversation st conversationId password in
          unlocked.1 = true
          ∧ (∃ c', ChatContext.named unlocked.2 conversationId = Some c'
                   ∧ ChatContext.Conversation.status c' = ChatContext.active
                   ∧ ChatContext.Conversation.password c' = None
                   ∧ ChatContext.Conversation.id c' = ChatContext.Conversation.id c
                   ∧ ChatContext.Conversation.participants c'
                     = ChatContext.Conversation.participants c
                   ∧ ChatContext.Conversation.lastMessage c'
                     = ChatContext.Conversation.lastMessage c)
          ∧ (∀ other, other ≠ conversationId →
                      ChatContext.named unlocked.2 other = ChatContext.named st other)
          ∧ ChatContext.messages unlocked.2 = ChatContext.messages st
          ∧ ChatContext.localStorage unlocked.2 = ChatContext.localStorage st
          ∧ ChatContext.unlockConversation unlocked.2 conversationId password
            = (false, unlocked.2)).
Proof.
  split.
  - intros Hwrong. rewrite unlockConversation_named.
    destruct (ChatContext.named st conversationId) as [c|]; [| done].
    rewrite decide_False; [done | by apply Hwrong].
  - intros c Hc Hlocked Hpw unlocked. subst unlocked.
    rewrite unlockConversation_named, Hc, decide_True by done. simpl.
    assert (∀ other,
              ChatContext.named
                (ChatContext.setConversations
                   (ChatContext.update_conv conversationId
                      (ChatContext.with_lock ChatContext.active None)) st) other
              = (if decide (other = conversationId)
                 then ChatContext.with_lock ChatContext.active None else id)
                  <$> ChatContext.named st other) as Hnamed.
    { intros other. by apply named_update_conv. }
    split_and!; try done.
    + rewrite Hnamed, Hc, decide_True by done. simpl. by eexists.
    + intros other Hother. rewrite Hnamed, decide_False by done.
      by destruct (ChatContext.named st other).
    + by rewrite unlockConversation_named, Hnamed, Hc, decide_True.
Qed.

Lemma unlock_wrong_password_keeps_state_and_right_one_unlocks_once_witness :
  (∃ c, ChatContext.named Scenario.alice_locked "conv_5000" = Some c
        ∧ ChatContext.Conversation.status c = ChatContext.locked
        ∧ ChatContext.Conversation.password c = Some "secret")
  ∧ ChatContext.unlockConversation Scenario.alice_locked "conv_5000" "guess"
    = (false, Scenario.alice_locked)
  ∧ (ChatContext.unlockConversation Scenario.alice_locked "conv_5000" "secret").1 = true.
Proof.
  assert (∃ c, ChatContext.named Scenario.alice_locked "conv_5000" = Some c
               ∧ ChatContext.Conversation.status c = ChatContext.locked
               ∧ ChatContext.Conversation.password c = Some "secret") as Hnamed.
  { eexists. split; [vm_compute; reflexivity | split; reflexivity]. }
  split; [exact Hnamed |].
  destruct Hnamed as (c & Hc & Hlocked & Hpw).
  split.
  - apply (proj1 (unlock_wrong_password_keeps_state_and_right_one_unlocks_once
                    Scenario.alice_locked "conv_5000" "guess")).
    intros c' Hc'. rewrite Hc in Hc'. injection Hc' as <-. rewrite Hpw. discriminate.
  - exact (proj1 (proj2 (unlock_wrong_password_keeps_state_and_right_one_unlocks_once
                           Scenario.alice_locked "conv_5000" "secret") c Hc Hlocked Hpw)).
Defined.

(** C8, as stated, fails: Alice locks her conversation with Bob with the
    password "secret"; the conversation the context then holds, returns from
    [getConversationsByStatus] and writes to localStorage carries the very
    string "secret" in its [password] field. *)
Lemma lock_password_is_kept_in_plaintext_counterexample :
  ∃ c, ChatContext.conversations Scenario.alice_locked = [c]
       ∧ ChatContext.getConversationsByStatus Scenario.alice_locked ChatContext.locked = [c]
       ∧ ChatContext.conversations_
           (ChatContext.localStorage (ChatContext.persist Scenario.alice_locked)) !! "A"
         = Some [c]
       ∧ ChatContext.Conversation.status c = ChatContext.locked
       ∧ ChatContext.Conversation.password c = Some "secret".
Proof.
  eexists. split_and!; [vm_compute; reflexivity | vm_compute; reflexivity
                       | vm_compute; reflexivity | reflexivity | reflexivity].
Qed.

Section Plaintext.

Import ChatContext.

Lemma elem_of_update_conv conversationId f c l :
  c ∈ l → Conversation.id c = conversationId → f c ∈ update_conv conversationId f l.
Proof.
  intros Hc Hid. unfold update_conv.
  apply list_elem_of_fmap. exists c. by rewrite decide_True.
Qed.

Lemma named_after_filter st conversationId other :
  named (setConversations
           (fun prev => filter (fun conv => Conversation.id conv ≠ conversationId) prev) st)
        other
  = if decide (other = conversationId) then None else named st other.
Proof.
  unfold named. simpl. induction (conversations st) as [|c l IH].
  - by destruct (decide _).
  - rewrite filter_cons, (find_cons _ c l).
    destruct (decide (Conversation.id c ≠ conversationId)) as [Hne | Heq].
    + rewrite find_cons. destruct (decide (Conversation.id c = other)) as [<- | Ho].
      * by rewrite decide_False.
      * apply IH.
    + apply dec_stable in Heq. rewrite IH.
      destruct (decide (other = conversationId)) as [-> | Ho]; [done |].
      rewrite decide_False; [done | congruence].
Qed.

Lemma named_deleteConversation st conversationId other :
  named (deleteConversation st conversationId) other
  = if decide (other = conversationId) then None else named st other.
Proof.
  unfold deleteConversation.
  destruct (decide (activeConversation st = Some conversationId));
    apply (named_after_filter st conversationId other).
Qed.

(** The conversation an id names once [lockConversation] is committed. *)
Lemma named_lockConversation st conversationId password other :
  named (lockConversation st conversationId password) other
  = (if decide (other = conversationId) then with_lock locked (Some password) else id)
      <$> named st other.
Proof. by apply named_update_conv. Qed.

Lemma named_of_member st c :
  c ∈ conversations st → is_Some (named st (Conversation.id c)).
Proof.
  unfold named. induction (conversations st) as [|x l IH]; intros Hc.
  - by apply elem_of_nil in Hc.
  - rewrite find_cons. destruct (decide (Conversation.id x = Conversation.id c)); [done |].
    apply elem_of_cons in Hc as [-> | Hc]; [done | by apply IH].
Qed.

End Plaintext.

(** C8, amended.  [lockConversation] stores the password as it is given, in
    the [password] field of every conversation with the named id, next to
    the status [locked].  The conversation is returned with that field by
    the conversations list and by [getConversationsByStatus], and the
    persisting effect writes it, password included, to the current user's
    [conversations_] key of localStorage; no hash is computed anywhere.
    Once the lock is committed, the conversation the id names keeps the
    password through an unlock with another password (which changes
    nothing), through archiving, unarchiving, muting and unmuting it, and
    through any of these operations, a lock, an unlock or a deletion that
    names another id.  An unlock with the password removes it, a further
    [lockConversation] replaces it by the password it is given, and
    [deleteConversation] removes the conversation with it. *)
Theorem lock_stores_and_returns_the_password_as_given
    (st : ChatContext.State) (conversationId password : string)
    (c : ChatContext.Conversation.t) :
  c ∈ ChatContext.conversations st →
  ChatContext.Conversation.id c = conversationId →
  let locked_c := ChatContext.with_lock ChatContext.locked (Some password) c in
  let st' := ChatContext.lockConversation st conversationId password in
  ChatContext.Conversation.password locked_c = Some password
  ∧ ChatContext.Conversation.status locked_c = ChatContext.locked
  ∧ locked_c ∈ ChatContext.conversations st'
  ∧ locked_c ∈ ChatContext.getConversationsByStatus st' ChatContext.locked
  ∧ (∃ stored,
       ChatContext.conversations_ (ChatContext.localStorage (ChatContext.persist st'))
         !! ChatContext.cur st' = Some stored
       ∧ locked_c ∈ stored)
  ∧ (let kept (s : ChatContext.State) :=
       ChatContext.Conversation.password <$> ChatContext.named s conversationId in
     kept st' = Some (Some password)
     ∧ (∀ wrong, wrong ≠ password →
          ChatContext.unlockConversation st' conversationId wrong = (false, st'))
     ∧ kept (ChatContext.archiveConversation st' conversationId) = Some (Some password)
     ∧ kept (ChatContext.unarchiveConversation st' conversationId) = Some (Some password)
     ∧ kept (ChatContext.muteConversation st' conversationId) = Some (Some password)
     ∧ kept (ChatContext.unmuteConversation st' conversationId) = Some (Some password)
     ∧ (∀ other p, other ≠ conversationId →
          kept (ChatContext.archiveConversation st' other) = Some (Some password)
          ∧ kept (ChatContext.unarchiveConversation st' other) = Some (Some password)
          ∧ kept (ChatContext.muteConversation st' other) = Some (Some password)
          ∧ kept (ChatContext.unmuteConversation st' other) = Some (Some password)
          ∧ kept (ChatContext.lockConversation st' other p) = Some (Some password)
          ∧ kept (ChatContext.unlockConversation st' other p).2 = Some (Some password)
          ∧ kept (ChatContext.deleteConversation st' other) = Some (Some password))
     ∧ (ChatContext.unlockConversation st' conversationId password).1 = true
     ∧ kept (ChatContext.unlockConversation st' conversationId password).2 = Some None
     ∧ (∀ p, kept (ChatContext.lockConversation st' conversationId p) = Some (Some p))
     ∧ ChatContext.named (ChatContext.deleteConversation st' conversationId) conversationId
       = None).
Proof.
  intros Hc Hid locked_c st'.
  assert (locked_c ∈ ChatContext.conversations st') as Hin.
  { by apply elem_of_update_conv. }
  split_and!; try done.
  - unfold ChatContext.getConversationsByStatus. by apply list_elem_of_filter.
  - exists (ChatContext.conversations st'). split; [| done].
    unfold ChatContext.persist. simpl. apply lookup_insert_eq.
  - destruct (named_of_member st c Hc) as [first Hfirst]. rewrite Hid in Hfirst.
    assert (ChatContext.named st' conversationId
            = Some (ChatContext.with_lock ChatContext.locked (Some password) first))
      as Hnamed.
    { unfold st'. by rewrite named_lockConversation, Hfirst, decide_True. }
    assert (∀ s, ChatContext.Conversation.password
                   <$> ChatContext.named
                         (ChatContext.setConversations
                            (ChatContext.update_conv conversationId
                               (ChatContext.with_status s)) st') conversationId
                 = Some (Some password)) as Hstatus.
    { intros s. rewrite named_update_conv by done. by rewrite Hnamed, decide_True. }
    assert (∀ other f, (∀ c0, ChatContext.Conversation.id (f c0)
                              = ChatContext.Conversation.id c0) →
              other ≠ conversationId →
              ChatContext.Conversation.password
                <$> ChatContext.named
                      (ChatContext.setConversations (ChatContext.update_conv other f) st')
                      conversationId
              = Some (Some password)) as Hother.
    { intros other f Hf Hne. rewrite named_update_conv by done.
      rewrite Hnamed, decide_False by (by intros Heq; apply Hne). done. }
    cbv zeta. split_and!.
    + by rewrite Hnamed.
    + intros wrong Hwrong. rewrite unlockConversation_named, Hnamed.
      rewrite decide_False; [done |]. simpl. by intros [= ->].
    + apply Hstatus.
    + apply Hstatus.
    + apply Hstatus.
    + apply Hstatus.
    + intros other p Hne. split_and!.
      * by apply Hother.
      * by apply Hother.
      * by apply Hother.
      * by apply Hother.
      * by apply Hother.
      * rewrite unlockConversation_named.
        destruct (ChatContext.named st' other) as [conversation|];
          [| cbn [snd]; by rewrite Hnamed].
        destruct (decide _); cbn [snd]; [by apply Hother | by rewrite Hnamed].
      * rewrite named_deleteConversation, decide_False by (by intros Heq; apply Hne).
        by rewrite Hnamed.
    + rewrite unlockConversation_named, Hnamed. by rewrite decide_True.
    + rewrite unlockConversation_named, Hnamed. rewrite decide_True by done.
      cbn [snd]. rewrite named_update_conv by done. by rewrite Hnamed, decide_True.
    + intros p. rewrite named_lockConversation, Hnamed. by rewrite decide_True.
    + by rewrite named_deleteConversation, decide_True.
Qed.

Lemma lock_stores_and_returns_the_password_as_given_witness :
  let unlocked := (ChatContext.createConversation Scenario.alice_offline "B" 5000).2 in
  ∃ c, c ∈ ChatContext.conversations unlocked
       ∧ ChatContext.Conversation.id c = "conv_5000"
       ∧ ChatContext.with_lock ChatContext.locked (Some "secret") c
           ∈ ChatContext.getConversationsByStatus
               (ChatContext.lockConversation unlocked "conv_5000" "secret")
               ChatContext.locked.
Proof.
  intros unlocked.
  assert (∃ c, ChatContext.conversations unlocked = [c]
               ∧ ChatContext.Conversation.id c = "conv_5000") as (c & Hc & Hid).
  { eexists. split; [vm_compute; reflexivity | reflexivity]. }
  assert (c ∈ ChatContext.conversations unlocked) as Hin.
  { rewrite Hc. apply list_elem_of_here. }
  exists c. split; [exact Hin | split; [exact Hid |]].
  exact (proj1 (proj2 (proj2 (proj2
           (lock_stores_and_returns_the_password_as_given
              unlocked "conv_5000" "secret" c Hin Hid))))).
Defined.

(** ** Presence *)

Section PresenceFacts.

Import ChatContext.

(** The localStorage-only context: a parsed status blob is online up to
    ten seconds after its timestamp and offline beyond. *)
Lemma local_status_of_blob ls userId d now :
  user_status_ ls !! userId = Some (StatusJson d) →
  (Local.getUserOnlineStatus ls userId now).1
  = if decide (now - default 0 (sd_timestamp d) ≤ 10000)%Z then online else offline.
Proof.
  intros H. unfold Local.getUserOnlineStatus. rewrite H.
  destruct (decide (now - _ > 10000)%Z), (decide (now - _ ≤ 10000)%Z); simpl;
    try done; lia.
Qed.

Lemma local_status_without_blob ls userId now :
  user_status_ ls !! userId = None → global_user_status_ ls !! userId = None →
  Local.getUserOnlineStatus ls userId now = (offline, ls).
Proof. intros H1 H2. unfold Local.getUserOnlineStatus. by rewrite H1, H2. Qed.

Lemma local_heartbeat_blob st t :
  user_status_ (localStorage (Local.heartbeat st t)) !! cur st
  = Some (StatusJson (Local.statusData_at (currentUser st) t)).
Proof. unfold Local.heartbeat. simpl. apply lookup_insert_eq. Qed.

Lemma cur_local_heartbeats ts : ∀ st, cur (foldl Local.heartbeat st ts) = cur st.
Proof. induction ts as [|t ts IH]; intros st; simpl; [done | by rewrite IH]. Qed.

End PresenceFacts.

(** C7, as stated, fails on the WebSocket context: eleven seconds after
    Alice's last-seen time was written, its [getUserOnlineStatus] still
    answers [online]. *)
Lemma socket_presence_after_eleven_seconds_counterexample :
  let seen :=
    ChatContext.localStorage
      (ChatContext.Socket.updateUserOnlineStatus Scenario.alice_offline true 8000) in
  (ChatContext.Socket.getUserOnlineStatus seen "A" (8000 + 11000)).1 = online
  ∧ (ChatContext.Socket.getUserOnlineStatus seen "A" (8000 + 11000)).1 ≠ offline.
Proof. split; vm_compute; [reflexivity | discriminate]. Qed.

(** C7, amended.  In the localStorage-only context presence is derived from
    heartbeat recency with a ten-second threshold: after any series of
    heartbeats, the last at [last], [getUserOnlineStatus] answers [online]
    up to 10000 ms after [last] and [offline] beyond; in particular it
    answers [offline] 11 seconds after the last heartbeat.  In the WebSocket
    context [getUserOnlineStatus] compares the last-seen time with five and
    thirty minutes: [online] below five minutes, [away] below thirty,
    [offline] from then on; 11 seconds after the last update it answers
    [online]. *)
Theorem presence_thresholds_of_the_two_contexts
    (st : ChatContext.State) (beats : list Z) (last now : Z) (isOnline : bool) :
  let beaten :=
    ChatContext.localStorage (foldl ChatContext.Local.heartbeat st (beats ++ [last])) in
  let seen :=
    ChatContext.localStorage (ChatContext.Socket.updateUserOnlineStatus st isOnline last) in
  (ChatContext.Local.getUserOnlineStatus beaten (ChatContext.cur st) now).1
    = (if decide (now - last ≤ 10000)%Z then online else offline)
  ∧ (ChatContext.Local.getUserOnlineStatus beaten (ChatContext.cur st) (last + 11000)).1
    = offline
  ∧ (ChatContext.Socket.getUserOnlineStatus seen (ChatContext.cur st) now).1
    = (if decide (now - last < 5 * 60 * 1000)%Z then online
       else if decide (now - last < 30 * 60 * 1000)%Z then away else offline)
  ∧ (ChatContext.Socket.getUserOnlineStatus seen (ChatContext.cur st) (last + 11000)).1
    = online.
Proof.
  intros beaten seen.
  assert (∀ t, (ChatContext.Local.getUserOnlineStatus beaten (ChatContext.cur st) t).1
               = if decide (t - last ≤ 10000)%Z then online else offline) as Hlocal.
  { intros t. unfold beaten. rewrite foldl_app. simpl.
    erewrite local_status_of_blob.
    2:{ rewrite <- (cur_local_heartbeats beats st). apply local_heartbeat_blob. }
    done. }
  assert (∀ t, (ChatContext.Socket.getUserOnlineStatus seen (ChatContext.cur st) t).1
               = (if decide (t - last < 5 * 60 * 1000)%Z then online
                  else if decide (t - last < 30 * 60 * 1000)%Z then away else offline))
    as Hsocket.
  { intros t. unfold seen, ChatContext.Socket.getUserOnlineStatus,
      ChatContext.Socket.updateUserOnlineStatus. simpl.
    rewrite lookup_insert_eq. unfold ChatContext.Socket.within_minutes.
    repeat case_bool_decide; repeat case_decide; simpl; try done; lia. }
  split_and!.
  - apply Hlocal.
  - rewrite Hlocal. rewrite decide_False; [done | lia].
  - apply Hsocket.
  - rewrite Hsocket. rewrite decide_True; [done | lia].
Qed.

(** * Further properties of the code *)

(** ** The registry under all its routes *)

Section RegistryInvariant.

Import SyncServer.

Lemma find_username_None name us :
  find_username name us = None ↔ name ∉ UserData.username <$> us.
Proof.
  unfold find_username. induction us as [|u us IH]; simpl.
  - split; [intros _; apply not_elem_of_nil | done].
  - rewrite not_elem_of_cons. case_bool_decide as Hu.
    + split; [done | intros [Hne _]; by destruct Hne].
    + rewrite IH. split; [intros H; split; [congruence | done] | by intros [_ H]].
Qed.

Lemma post_users_numbered data body now :
  numbered data → numbered (post_users data body now).1.
Proof.
  intros (Hs & Hd & Hn). unfold post_users.
  destruct (find_username _ _) eqn:Hfind; [done |].
  apply find_username_None in Hfind.
  unfold numbered. cbn [users counter fst]. rewrite seq_S, !fmap_app.
  change (1 + counter data) with (S (counter data)). simpl.
  split_and!.
  - by rewrite Hs.
  - by rewrite Hd.
  - apply NoDup_app. split_and!; [done | | apply NoDup_singleton].
    intros x Hx Hx'. apply list_elem_of_singleton in Hx' as ->. done.
Qed.

Lemma numbered_length data : numbered data → length (users data) = counter data.
Proof.
  intros (Hs & _ & _). apply (f_equal length) in Hs.
  by rewrite !length_fmap, length_seq in Hs.
Qed.

End RegistryInvariant.

Section RegistryOfProcess.

Import ChatServer.

Lemma step_keeps_registry st e : registry (globalData (step st e).1) = registry (globalData st).
Proof.
  destruct e as [sid | sid u now | sid data now rnd | sid requestId userId now
                | sid data now rnd | sid c u n | sid c u | sid | sid u now];
    try done; cbn [step].
  - unfold connection. simpl. by rewrite globalData_join.
  - unfold user_login. simpl. by rewrite globalData_join.
  - unfold accept_friend_request. by destruct (list_find _ _) as [[i r]|].
  - unfold heartbeat. by destruct (Js.get _ _).
Qed.

Lemma serve_numbered st i :
  SyncServer.numbered (registry (globalData st)) → SyncServer.numbered (registry (globalData (serve st i))).
Proof.
  intros H. destruct i as [e | body now |]; simpl.
  - by rewrite step_keeps_registry.
  - rewrite (proj1 (post_users_registry st body now)). by apply post_users_numbered.
  - split_and!; [done | done | constructor].
Qed.

End RegistryOfProcess.

(** X1.  Whatever socket events, registrations and resets the chat server
    has processed since it started, the users it holds are numbered 1..n in
    the order they registered since the last reset, their handles are
    "#1".."#n", no two of them have the same username, and the counter, like
    the [totalUsers] of the health route, is their number. *)
Theorem registry_numbered_under_all_inputs (inputs : list ChatServer.Input) :
  let st := foldl ChatServer.serve ChatServer.initial inputs in
  let g := ChatServer.globalData st in
  let n := ChatServer.counter g in
  UserData.sequentialId <$> ChatServer.users g = Some <$> seq 1 n
  ∧ UserData.displayUsername <$> ChatServer.users g
    = (fun k => Some ("#" +:+ pretty k)) <$> seq 1 n
  ∧ NoDup (UserData.username <$> ChatServer.users g)
  ∧ ChatServer.health_totalUsers (ChatServer.get_health st) = n.
Proof.
  intros st g n.
  assert (SyncServer.numbered (ChatServer.registry g)) as H.
  { subst g st. induction inputs as [|i inputs IH] using rev_ind.
    - split_and!; [done | done | constructor].
    - rewrite foldl_app. simpl. by apply serve_numbered. }
  pose proof (numbered_length _ H) as Hlen.
  destruct H as (Hs & Hd & Hn). by split_and!.
Qed.

Section Put.

Import SyncServer.

Lemma spread_no_change u : spread u no_change = u.
Proof. by destruct u. Qed.

Lemma serve_keeps_count data r :
  length (users data) = counter data →
  length (users (serve data r)) = counter (serve data r).
Proof.
  intros H. destruct r as [body now | userId updateData |]; simpl.
  - unfold post_users. destruct (find_username _ _); [done |].
    simpl. rewrite length_app. simpl. lia.
  - unfold put_users. destruct (list_find _ _) as [[i u]|]; [| done].
    simpl. by rewrite length_insert.
  - done.
Qed.

End Put.

(** X2.  In [server.cjs], whatever registrations, updates and resets have
    been served, the health route reports as many users as the counter
    counts, and each request moves the two numbers together: a registration
    that goes through raises both by one, a refused registration changes
    nothing at all, an update moves neither number, and a reset zeroes
    both. *)
Theorem health_users_equal_counter (requests : list SyncServer.Request) :
  let data := foldl SyncServer.serve SyncServer.initial requests in
  let health := SyncServer.get_health data in
  SyncServer.health_users health = SyncServer.health_counter health
  ∧ (∀ body now,
       SyncServer.find_username (UserData.username body) (SyncServer.users data) = None →
       SyncServer.get_health (SyncServer.serve data (SyncServer.Post body now))
       = {| SyncServer.health_users := S (SyncServer.health_users health);
            SyncServer.health_counter := S (SyncServer.health_counter health) |})
  ∧ (∀ body now,
       is_Some (SyncServer.find_username (UserData.username body)
                  (SyncServer.users data)) →
       SyncServer.serve data (SyncServer.Post body now) = data)
  ∧ (∀ userId updateData,
       SyncServer.get_health (SyncServer.serve data (SyncServer.Put userId updateData))
       = health)
  ∧ SyncServer.get_health (SyncServer.serve data SyncServer.Delete)
    = {| SyncServer.health_users := 0; SyncServer.health_counter := 0 |}.
Proof.
  intros data health. split_and!.
  - unfold health, data. clear.
    induction requests as [|r requests IH] using rev_ind; [done |].
    rewrite foldl_app. simpl. by apply serve_keeps_count.
  - intros body now Hfree. unfold health, SyncServer.get_health.
    cbn [SyncServer.serve]. unfold SyncServer.post_users. rewrite Hfree.
    cbn [fst SyncServer.users SyncServer.counter SyncServer.health_users
         SyncServer.health_counter].
    rewrite length_app. simpl. f_equal. lia.
  - intros body now [taken Htaken]. cbn [SyncServer.serve].
    unfold SyncServer.post_users. by rewrite Htaken.
  - intros userId updateData. unfold health, SyncServer.get_health.
    cbn [SyncServer.serve]. unfold SyncServer.put_users.
    destruct (list_find _ _) as [[i u]|]; [| done].
    cbn [fst SyncServer.users SyncServer.counter]. by rewrite length_insert.
  - done.
Qed.

Lemma health_users_equal_counter_witness :
  let alice := {| UserData.id := Some "A"; UserData.name := "Alice";
                  UserData.username := "alice"; UserData.password := "pass";
                  UserData.displayUsername := None; UserData.sequentialId := None;
                  UserData.avatar := "a"; UserData.createdAt := None |} in
  let bob := {| UserData.id := Some "B"; UserData.name := "Bob";
                UserData.username := "bob"; UserData.password := "word";
                UserData.displayUsername := None; UserData.sequentialId := None;
                UserData.avatar := "b"; UserData.createdAt := None |} in
  let data := foldl SyncServer.serve SyncServer.initial [SyncServer.Post alice 1000%Z] in
  SyncServer.find_username (UserData.username bob) (SyncServer.users data) = None
  ∧ is_Some (SyncServer.find_username (UserData.username alice) (SyncServer.users data))
  ∧ SyncServer.get_health (SyncServer.serve data (SyncServer.Post bob 2000%Z))
    = {| SyncServer.health_users := 2; SyncServer.health_counter := 2 |}
  ∧ SyncServer.serve data (SyncServer.Post alice 3000%Z) = data.
Proof.
  intros alice bob data.
  assert (SyncServer.find_username (UserData.username bob) (SyncServer.users data) = None)
    as Hfree by reflexivity.
  assert (is_Some (SyncServer.find_username (UserData.username alice)
                     (SyncServer.users data))) as Htaken by (by eexists).
  split; [exact Hfree | split; [exact Htaken |]].
  split.
  - exact (proj1 (proj2 (health_users_equal_counter [SyncServer.Post alice 1000%Z]))
             bob 2000%Z Hfree).
  - exact (proj1 (proj2 (proj2 (health_users_equal_counter [SyncServer.Post alice 1000%Z])))
             alice 3000%Z Htaken).
Defined.

(** X3.  [PUT /api/users/:id] answers 404 and changes nothing when no user
    has the id.  Otherwise it answers with the stored user overlaid with the
    body and stores that in the same place; the number of users, the
    counter and every user with another id stay as they were, and an empty
    body changes nothing at all. *)
Theorem put_touches_only_the_named_user
    (data : SyncServer.Data) (userId : string) (updateData : SyncServer.Patch) :
  let put := SyncServer.put_users data userId updateData in
  (Some userId ∉ UserData.id <$> SyncServer.users data →
   put = (data, SyncServer.Status404 "User not found"))
  ∧ (Some userId ∈ UserData.id <$> SyncServer.users data →
     ∃ i u, SyncServer.users data !! i = Some u
            ∧ UserData.id u = Some userId
            ∧ put.2 = SyncServer.UpdatedUser (SyncServer.spread u updateData)
            ∧ SyncServer.users put.1 !! i = Some (SyncServer.spread u updateData))
  ∧ length (SyncServer.users put.1) = length (SyncServer.users data)
  ∧ SyncServer.counter put.1 = SyncServer.counter data
  ∧ (∀ j v, SyncServer.users data !! j = Some v → UserData.id v ≠ Some userId →
            SyncServer.users put.1 !! j = Some v)
  ∧ (SyncServer.put_users data userId SyncServer.no_change).1 = data.
Proof.
  intros put. subst put. unfold SyncServer.put_users.
  destruct (list_find _ _) as [[i u]|] eqn:Hfind.
  - apply list_find_Some in Hfind as (Hi & Hid & _). simpl.
    split_and!.
    + intros Hnot. destruct Hnot. apply list_elem_of_fmap. exists u.
      split; [done | by eapply list_elem_of_lookup_2].
    + intros _. exists i, u. split_and!; try done.
      apply list_lookup_insert_eq. by eapply lookup_lt_Some.
    + apply length_insert.
    + done.
    + intros j v Hj Hv. rewrite list_lookup_insert_ne; [done |].
      intros <-. congruence.
    + rewrite spread_no_change, list_insert_id by done. by destruct data.
  - apply list_find_None in Hfind. simpl. split_and!; try done.
    intros Hin. apply list_elem_of_fmap in Hin as (v & Hv & Hin).
    rewrite Forall_forall in Hfind. by destruct (Hfind v Hin).
Qed.

Lemma put_touches_only_the_named_user_witness :
  let data := (SyncServer.post_all SyncServer.initial
                 [({| UserData.id := Some "A"; UserData.name := "Alice";
                      UserData.username := "alice"; UserData.password := "pass";
                      UserData.displayUsername := None; UserData.sequentialId := None;
                      UserData.avatar := "a"; UserData.createdAt := None |}, 1000%Z)]).1 in
  Some "A" ∈ UserData.id <$> SyncServer.users data
  ∧ (Some "Z" ∉ UserData.id <$> SyncServer.users data)
  ∧ SyncServer.put_users data "Z" SyncServer.no_change
    = (data, SyncServer.Status404 "User not found")
  ∧ ∃ i u, SyncServer.users data !! i = Some u
           ∧ UserData.id u = Some "A"
           ∧ (SyncServer.put_users data "A" SyncServer.no_change).2
             = SyncServer.UpdatedUser (SyncServer.spread u SyncServer.no_change)
           ∧ (SyncServer.users (SyncServer.put_users data "A" SyncServer.no_change).1) !! i
             = Some (SyncServer.spread u SyncServer.no_change).
Proof.
  intros data.
  assert (Some "A" ∈ UserData.id <$> SyncServer.users data) as Hin.
  { vm_compute. apply list_elem_of_here. }
  assert (Some "Z" ∉ UserData.id <$> SyncServer.users data) as Hout.
  { vm_compute. intros H. apply list_elem_of_singleton in H. discriminate. }
  split; [exact Hin | split; [exact Hout |]].
  split.
  - exact (proj1 (put_touches_only_the_named_user data "Z" SyncServer.no_change) Hout).
  - exact (proj1 (proj2 (put_touches_only_the_named_user data "A" SyncServer.no_change)) Hin).
Defined.

(** ** The chat server: who is online *)

Section JsMap.

Context {V : Type}.
Implicit Types (m : list (string * V)) (k : string) (v : V).

Lemma get_None k m : Js.get k m = None ↔ k ∉ m.*1.
Proof.
  induction m as [|[k' v'] m IH]; simpl.
  - split; [intros _; apply not_elem_of_nil | done].
  - rewrite not_elem_of_cons. destruct (decide (k' = k)) as [-> | Hne].
    + split; [done | intros [H _]; by destruct H].
    + rewrite IH. split; [intros H; split; [congruence | done] | by intros [_ H]].
Qed.

Lemma get_set_eq k v m : Js.get k (Js.set k v m) = Some v.
Proof.
  induction m as [|[k' v'] m IH]; simpl.
  - by rewrite decide_True.
  - destruct (decide (k' = k)); simpl; [by rewrite decide_True | by rewrite decide_False].
Qed.

Lemma get_set_ne k k' v m : k ≠ k' → Js.get k' (Js.set k v m) = Js.get k' m.
Proof.
  intros Hne. induction m as [|[k0 v0] m IH]; simpl.
  - by rewrite decide_False.
  - destruct (decide (k0 = k)) as [-> | Hk]; simpl.
    + by rewrite !decide_False.
    + destruct (decide (k0 = k')); [done | apply IH].
Qed.

(** [set] on a key that is present keeps its place; a new key goes last. *)
Lemma keys_set k v m :
  (Js.set k v m).*1 = if decide (k ∈ m.*1) then m.*1 else m.*1 ++ [k].
Proof.
  induction m as [|[k' v'] m IH].
  - rewrite decide_False; [done | apply not_elem_of_nil].
  - change (Js.set k v ((k', v') :: m))
      with (if decide (k' = k) then (k, v) :: m else (k', v') :: Js.set k v m).
    rewrite !fmap_cons. change ((k', v').1) with k'.
    destruct (decide (k' = k)) as [-> | Hne].
    + rewrite decide_True; [done | by left].
    + rewrite fmap_cons, IH. change ((k', v').1) with k'.
      destruct (decide (k ∈ m.*1)) as [Hin | Hnin].
      * rewrite decide_True; [done | by right].
      * rewrite decide_False; [done |].
        rewrite not_elem_of_cons. split; [congruence | done].
Qed.

Lemma keys_set_NoDup k v m : NoDup m.*1 → NoDup (Js.set k v m).*1.
Proof.
  intros H. rewrite keys_set. destruct (decide _) as [Hin | Hnin]; [done |].
  apply NoDup_app. split_and!; [done | | apply NoDup_singleton].
  intros x Hx Hx'. by apply list_elem_of_singleton in Hx' as ->.
Qed.

Lemma elem_of_set k v m p : p ∈ Js.set k v m → p = (k, v) ∨ p ∈ m.
Proof.
  induction m as [|[k' v'] m IH]; simpl.
  - intros H. apply list_elem_of_singleton in H. by left.
  - destruct (decide (k' = k)) as [-> | Hne]; rewrite !elem_of_cons.
    + intros [-> | H]; [by left | right; by right].
    + intros [-> | H]; [right; by left |].
      destruct (IH H) as [-> | Hin]; [by left | right; by right].
Qed.

Lemma delete_sublist k m : Js.delete k m `sublist_of` m.
Proof.
  induction m as [|[k' v'] m IH]; simpl; [done |].
  destruct (decide (k' = k)); [by apply sublist_cons | by apply sublist_skip].
Qed.

Lemma get_delete_ne k k' m : k ≠ k' → Js.get k' (Js.delete k m) = Js.get k' m.
Proof.
  intros Hne. induction m as [|[k0 v0] m IH]; simpl; [done |].
  destruct (decide (k0 = k)) as [-> | Hk]; simpl.
  - by rewrite decide_False.
  - destruct (decide (k0 = k')); [done | apply IH].
Qed.

Lemma get_delete_eq k m : NoDup m.*1 → Js.get k (Js.delete k m) = None.
Proof.
  induction m as [|[k0 v0] m IH]; simpl; [done |].
  intros Hnd. apply NoDup_cons in Hnd as [Hk0 Hnd].
  destruct (decide (k0 = k)) as [-> | Hk]; simpl.
  - by apply get_None.
  - rewrite decide_False by done. by apply IH.
Qed.

(** With one entry per key, an entry of the list is the one [get] finds. *)
Lemma get_of_elem k v m : NoDup m.*1 → (k, v) ∈ m → Js.get k m = Some v.
Proof.
  induction m as [|[k0 v0] m IH]; simpl; intros Hnd Hin.
  - by apply elem_of_nil in Hin.
  - apply NoDup_cons in Hnd as [Hk0 Hnd].
    apply elem_of_cons in Hin as [[= -> ->] | Hin].
    + by rewrite decide_True.
    + rewrite decide_False; [by apply IH |].
      intros ->. apply Hk0. apply list_elem_of_fmap. by exists (k, v).
Qed.

Lemma elem_of_get k v m : Js.get k m = Some v → (k, v) ∈ m.
Proof.
  induction m as [|[k0 v0] m IH]; simpl; [done |].
  destruct (decide (k0 = k)) as [-> | Hk].
  - intros [= ->]. by left.
  - intros H. right. by apply IH.
Qed.

End JsMap.

Section OnlineInvariant.

Import ChatServer.

Lemma elem_of_delete {V} k (m : list (string * V)) p : p ∈ Js.delete k m → p ∈ m.
Proof.
  induction m as [|[k' v'] m IH]; simpl; [done |].
  destruct (decide (k' = k)); rewrite ?elem_of_cons; [by right |].
  intros [-> | H]; [by left | right; by apply IH].
Qed.

Lemma find_by_socket_Some sid m k :
  find_by_socket sid m = Some k → ∃ info, (k, info) ∈ m ∧ socketId info = sid.
Proof.
  unfold find_by_socket. destruct (List.find _ m) as [[k' info]|] eqn:Hfind; [| done].
  intros [= <-]. apply find_some in Hfind as [Hin Hsock].
  exists info. split; [by apply list_elem_of_In | by apply bool_decide_eq_true in Hsock].
Qed.

Lemma find_by_socket_None sid m :
  find_by_socket sid m = None → Forall (fun p => socketId p.2 ≠ sid) m.
Proof.
  unfold find_by_socket. destruct (List.find _ m) as [p|] eqn:Hfind; [done |].
  intros _. apply Forall_forall. intros p Hp Hsock.
  apply list_elem_of_In in Hp.
  pose proof (find_none _ _ Hfind p Hp) as H. simpl in H.
  by apply bool_decide_eq_false in H.
Qed.

Lemma step_online_ok st e : online_ok st → online_ok (step st e).1.
Proof.
  intros [Hnd Hid].
  destruct e as [sid | sid u now | sid data now rnd | sid requestId userId now
                | sid data now rnd | sid c u n | sid c u | sid | sid u now];
    try done; cbn [step]; unfold online_ok, online_ids in *.
  - unfold connection. simpl. by rewrite globalData_join.
  - unfold user_login. simpl. rewrite globalData_join. simpl. split.
    + by apply keys_set_NoDup.
    + apply Forall_forall. intros p Hp.
      apply elem_of_set in Hp as [-> | Hp]; [done |].
      rewrite Forall_forall in Hid. by apply Hid.
  - unfold accept_friend_request. by destruct (list_find _ _) as [[i r]|].
  - unfold disconnect. simpl.
    destruct (find_by_socket _ _) as [userId|]; [| done]. split.
    + eapply sublist_NoDup; [exact Hnd |]. apply fmap_sublist, delete_sublist.
    + apply Forall_forall. intros p Hp. apply elem_of_delete in Hp.
      rewrite Forall_forall in Hid. by apply Hid.
  - unfold heartbeat. destruct (Js.get _ _) as [info|] eqn:Hget; [| done].
    simpl. split.
    + by apply keys_set_NoDup.
    + apply Forall_forall. intros p Hp.
      rewrite Forall_forall in Hid.
      apply elem_of_set in Hp as [-> | Hp]; [| by apply Hid].
      simpl. apply elem_of_get in Hget. by apply (Hid _ Hget).
Qed.

Lemma serve_online_ok st i : online_ok st → online_ok (serve st i).
Proof.
  intros H. destruct i as [e | body now |]; simpl.
  - by apply step_online_ok.
  - unfold post_users. by destruct (SyncServer.find_username _ _).
  - done.
Qed.

Lemma reached_online_ok inputs : online_ok (foldl serve initial inputs).
Proof.
  induction inputs as [|i inputs IH] using rev_ind.
  - split; constructor.
  - rewrite foldl_app. simpl. by apply serve_online_ok.
Qed.

Lemma filter_keys_set {V} k (v : V) m :
  filter (fun x => x ≠ k) (Js.set k v m).*1 = filter (fun x => x ≠ k) m.*1.
Proof.
  rewrite keys_set. destruct (decide _); [done |].
  rewrite filter_app, filter_cons_False, filter_nil, app_nil_r; [done |].
  by intros H.
Qed.

Lemma entry_ids_of_others (m : list (string * OnlineInfo)) userId :
  Forall (fun p : string * OnlineInfo => User.id (userData p.2) = p.1) m →
  entry_id <$> ((fun i => entry_of (userData i))
                  <$> filter (fun i => User.id (userData i) ≠ userId) m.*2)
  = filter (fun k => k ≠ userId) m.*1.
Proof.
  induction m as [|[k i] m IH]; intros H; [done |].
  apply Forall_cons in H as [Hk Hm]. simpl in Hk. subst k.
  rewrite !fmap_cons. cbn [fst snd]. rewrite !filter_cons.
  destruct (decide (User.id (userData i) ≠ userId)).
  - rewrite !fmap_cons. cbn. f_equal. by apply IH.
  - by apply IH.
Qed.

End OnlineInvariant.

(** X4.  Whatever the server has processed, the [online-users-list] it
    sends to a socket that logs in names exactly the other users of
    [onlineUsers], in the order they came online: each once, and never the
    user who is logging in. *)
Theorem online_users_list_names_the_others_once
    (inputs : list ChatServer.Input) (sid : string) (u : User.t) (now : Z) :
  let st := foldl ChatServer.serve ChatServer.initial inputs in
  ∃ l, (sid, ChatServer.OnlineUsersList l) ∈ (ChatServer.user_login st sid u now).2
       ∧ ChatServer.entry_id <$> l
         = filter (fun k => k ≠ User.id u) (ChatServer.online_ids st)
       ∧ NoDup (ChatServer.entry_id <$> l)
       ∧ User.id u ∉ ChatServer.entry_id <$> l.
Proof.
  intros st. destruct (reached_online_ok inputs) as [Hnd Hid]. fold st in Hnd, Hid.
  eexists. split.
  { unfold ChatServer.user_login. cbn [snd].
    apply elem_of_app. right. apply elem_of_app. left. apply list_elem_of_here. }
  set (info := {| ChatServer.socketId := sid; ChatServer.userData := u;
                  ChatServer.lastSeen := now |}).
  set (m' := Js.set (User.id u) info (ChatServer.onlineUsers (ChatServer.globalData st))).
  assert (Forall (fun p : string * ChatServer.OnlineInfo =>
                    User.id (ChatServer.userData p.2) = p.1) m') as Hid'.
  { apply Forall_forall. intros p Hp. apply elem_of_set in Hp as [-> | Hp]; [done |].
    rewrite Forall_forall in Hid. by apply Hid. }
  assert (ChatServer.entry_id
            <$> ((fun i => ChatServer.entry_of (ChatServer.userData i))
                   <$> filter (fun i => User.id (ChatServer.userData i) ≠ User.id u) m'.*2)
          = filter (fun k => k ≠ User.id u) (ChatServer.online_ids st)) as Heq.
  { unfold ChatServer.online_ids. rewrite <- (filter_keys_set (User.id u) info). fold m'.
    by apply entry_ids_of_others. }
  rewrite Heq. split_and!; [done | |].
  - by apply NoDup_filter.
  - intros Hin. apply list_elem_of_filter in Hin as [Hne _]. by apply Hne.
Qed.

Section LastWriterWins.

Import ChatServer.

Lemma online_after_login st sid u now :
  Js.get (User.id u) (onlineUsers (globalData (user_login st sid u now).1))
  = Some {| socketId := sid; userData := u; lastSeen := now |}.
Proof. unfold user_login. simpl. rewrite globalData_join. simpl. apply get_set_eq. Qed.

Lemma member_after_login st sid u now :
  sid ∈ members (user_room (User.id u)) (user_login st sid u now).1.
Proof.
  unfold user_login. cbn [fst]. unfold join, members.
  destruct (decide _) as [Hin | Hnin]; simpl.
  - apply list_elem_of_fmap. exists (sid, user_room (User.id u)).
    split; [done |]. by apply list_elem_of_filter.
  - apply list_elem_of_fmap. exists (sid, user_room (User.id u)).
    split; [done |]. apply list_elem_of_filter. split; [done |].
    apply elem_of_app. right. apply list_elem_of_here.
Qed.

(** Closing a socket leaves alone the record of a user whose record names
    another socket, and announces nothing about that user. *)
Lemma disconnect_of_other_socket st sid userId info :
  online_ok st →
  Js.get userId (onlineUsers (globalData st)) = Some info →
  socketId info ≠ sid →
  Js.get userId (onlineUsers (globalData (disconnect st sid).1)) = Some info
  ∧ Forall (fun d => d.2 ≠ UserOffline userId) (disconnect st sid).2.
Proof.
  intros [Hnd _] Hget Hsock. unfold disconnect. cbn [fst snd globalData onlineUsers].
  destruct (find_by_socket _ _) as [k|] eqn:Hfind; [| by split].
  apply find_by_socket_Some in Hfind as (info' & Hin & Hsock').
  assert (k ≠ userId) as Hne.
  { intros ->. apply (get_of_elem _ _ _ Hnd) in Hin. congruence. }
  split.
  - by rewrite get_delete_ne.
  - destruct (decide (k = "")); [constructor |].
    unfold socket_broadcast. apply Forall_forall. intros d Hd.
    apply list_elem_of_fmap in Hd as (s & -> & _). simpl. congruence.
Qed.

End LastWriterWins.

(** X5.  A login replaces the user's record (the last login wins) and the
    socket it replaced is not closed: when the same user logs in on a
    second socket and the first socket then disconnects, the user is still
    online under the second socket, no [user-offline] is announced for the
    user, and the second socket is still in the user's personal room. *)
Theorem stale_disconnect_keeps_user_online
    (inputs : list ChatServer.Input) (u : User.t) (sid1 sid2 : string) (now1 now2 : Z) :
  sid1 ≠ sid2 →
  let st0 := foldl ChatServer.serve ChatServer.initial inputs in
  let st1 := (ChatServer.user_login st0 sid1 u now1).1 in
  let st2 := (ChatServer.user_login st1 sid2 u now2).1 in
  let closed := ChatServer.disconnect st2 sid1 in
  let record := {| ChatServer.socketId := sid2; ChatServer.userData := u;
                   ChatServer.lastSeen := now2 |} in
  Js.get (User.id u) (ChatServer.onlineUsers (ChatServer.globalData st1))
    = Some {| ChatServer.socketId := sid1; ChatServer.userData := u;
              ChatServer.lastSeen := now1 |}
  ∧ Js.get (User.id u) (ChatServer.onlineUsers (ChatServer.globalData st2)) = Some record
  ∧ Js.get (User.id u) (ChatServer.onlineUsers (ChatServer.globalData closed.1))
    = Some record
  ∧ Forall (fun d => d.2 ≠ ChatServer.UserOffline (User.id u)) closed.2
  ∧ sid2 ∈ ChatServer.members (ChatServer.user_room (User.id u)) closed.1
  ∧ sid1 ∉ ChatServer.members (ChatServer.user_room (User.id u)) closed.1.
Proof.
  intros Hne st0 st1 st2 closed record.
  assert (ChatServer.online_ok st2) as Hok.
  { change st2 with (ChatServer.serve
                       (ChatServer.serve st0 (ChatServer.Socket (ChatServer.UserLogin sid1 u now1)))
                       (ChatServer.Socket (ChatServer.UserLogin sid2 u now2))).
    do 2 apply serve_online_ok. apply reached_online_ok. }
  pose proof (online_after_login st1 sid2 u now2) as Hget. fold st2 in Hget. fold record in Hget.
  destruct (disconnect_of_other_socket st2 sid1 (User.id u) record Hok Hget) as [H1 H2].
  { simpl. congruence. }
  split_and!; try done.
  - apply online_after_login.
  - pose proof (member_after_login st1 sid2 u now2) as Hm. fold st2 in Hm.
    unfold closed, ChatServer.disconnect, ChatServer.members in *. cbn [fst ChatServer.rooms].
    apply list_elem_of_fmap in Hm as ([s r] & -> & Hm).
    apply list_elem_of_filter in Hm as [Hr Hm]. simpl in *.
    apply list_elem_of_fmap. exists (s, r). split; [done |].
    apply list_elem_of_filter. split; [done |].
    apply list_elem_of_filter. split; [simpl; congruence | done].
  - unfold closed, ChatServer.disconnect, ChatServer.members. cbn [fst ChatServer.rooms].
    intros Hin. apply list_elem_of_fmap in Hin as ([s r] & Hs & Hin). simpl in Hs. subst s.
    apply list_elem_of_filter in Hin as [_ Hin].
    apply list_elem_of_filter in Hin as [Hs _]. by apply Hs.
Qed.

Lemma stale_disconnect_keeps_user_online_witness :
  "sA" ≠ "sA2"
  ∧ Js.get "A" (ChatServer.onlineUsers
                  (ChatServer.globalData
                     (ChatServer.disconnect
                        (ChatServer.user_login
                           (ChatServer.user_login ChatServer.initial "sA" Scenario.alice 1000).1
                           "sA2" Scenario.alice 2000).1 "sA").1))
    = Some {| ChatServer.socketId := "sA2"; ChatServer.userData := Scenario.alice;
              ChatServer.lastSeen := 2000 |}.
Proof.
  assert ("sA" ≠ "sA2") as Hne by discriminate.
  split; [exact Hne |].
  exact (proj1 (proj2 (proj2
           (stale_disconnect_keeps_user_online [] Scenario.alice "sA" "sA2" 1000 2000 Hne)))).
Defined.

Section Heartbeat.

Import ChatServer.

Lemma set_keeps_projection {V W} (f : V → W) k v v0 (m : list (string * V)) :
  Js.get k m = Some v0 → f v = f v0 →
  (fun p => (p.1, f p.2)) <$> Js.set k v m = (fun p => (p.1, f p.2)) <$> m.
Proof.
  intros Hget Hf. induction m as [|[k' v'] m IH]; simpl in *; [done |].
  destruct (decide (k' = k)) as [-> | Hne]; simpl.
  - injection Hget as ->. by rewrite Hf.
  - f_equal. by apply IH.
Qed.

Lemma delete_set {V} k v (m : list (string * V)) :
  k ∈ m.*1 → Js.delete k (Js.set k v m) = Js.delete k m.
Proof.
  induction m as [|[k' v'] m IH]; simpl.
  - intros H. by apply elem_of_nil in H.
  - intros Hin. destruct (decide (k' = k)) as [-> | Hne]; simpl.
    + by rewrite decide_True.
    + rewrite decide_False by done. f_equal. apply IH.
      apply elem_of_cons in Hin as [-> | Hin]; [done | done].
Qed.

End Heartbeat.

(** X6.  A heartbeat pushes nothing and never changes who is online: the
    user ids, in order, and each user's socket and data stay as they are,
    as do all records but the beating user's, whose [lastSeen] becomes the
    time of the beat; rooms, sockets, conversations, histories and friend
    requests are untouched.  A heartbeat for a user who is not online
    changes nothing at all. *)
Theorem heartbeat_only_refreshes_last_seen
    (st : ChatServer.State) (sid : string) (u : User.t) (now : Z) :
  let beat := ChatServer.heartbeat st sid u now in
  let before := ChatServer.onlineUsers (ChatServer.globalData st) in
  let after := ChatServer.onlineUsers (ChatServer.globalData beat.1) in
  beat.2 = []
  ∧ (fun p => (p.1, (ChatServer.socketId p.2, ChatServer.userData p.2))) <$> after
    = (fun p => (p.1, (ChatServer.socketId p.2, ChatServer.userData p.2))) <$> before
  ∧ ChatServer.lastSeen <$> Js.get (User.id u) after
    = (fun _ => now) <$> Js.get (User.id u) before
  ∧ Js.delete (User.id u) after = Js.delete (User.id u) before
  ∧ ChatServer.rooms beat.1 = ChatServer.rooms st
  ∧ ChatServer.sockets beat.1 = ChatServer.sockets st
  ∧ ChatServer.conversations (ChatServer.globalData beat.1)
    = ChatServer.conversations (ChatServer.globalData st)
  ∧ ChatServer.messages (ChatServer.globalData beat.1)
    = ChatServer.messages (ChatServer.globalData st)
  ∧ ChatServer.friendRequests (ChatServer.globalData beat.1)
    = ChatServer.friendRequests (ChatServer.globalData st)
  ∧ (Js.get (User.id u) before = None → beat.1 = st).
Proof.
  intros beat before after. subst beat before after. unfold ChatServer.heartbeat.
  destruct (Js.get _ _) as [info|] eqn:Hget;
    [| cbn [fst]; rewrite ?Hget; by split_and!].
  cbn [fst snd ChatServer.globalData ChatServer.onlineUsers ChatServer.set_globalData
       ChatServer.rooms ChatServer.sockets ChatServer.conversations ChatServer.messages
       ChatServer.friendRequests].
  split_and!; try done.
  - by apply (set_keeps_projection
                (fun i => (ChatServer.socketId i, ChatServer.userData i)) _ _ info).
  - by rewrite get_set_eq.
  - apply delete_set. apply elem_of_get in Hget.
    apply list_elem_of_fmap. by exists (User.id u, info).
Qed.

Lemma heartbeat_only_refreshes_last_seen_witness :
  Js.get "B" (ChatServer.onlineUsers (ChatServer.globalData ChatServer.initial)) = None
  ∧ (ChatServer.heartbeat ChatServer.initial "sB" Scenario.bob 3000).1 = ChatServer.initial.
Proof.
  assert (Js.get "B" (ChatServer.onlineUsers (ChatServer.globalData ChatServer.initial))
          = None) as H by reflexivity.
  split; [exact H |].
  exact (proj2 (proj2 (proj2 (proj2 (proj2 (proj2 (proj2 (proj2 (proj2
           (heartbeat_only_refreshes_last_seen ChatServer.initial "sB" Scenario.bob 3000)))))))))
           H).
Defined.

Section Acceptance.

Import ChatServer.

Lemma not_elem_of_delete {A} (l : list A) i x :
  NoDup l → l !! i = Some x → x ∉ delete i l.
Proof.
  revert i. induction l as [|y l IH]; intros i Hnd Hi; [done |].
  apply NoDup_cons in Hnd as [Hy Hnd]. destruct i as [|i]; simpl in *.
  - by injection Hi as ->.
  - rewrite not_elem_of_cons. split.
    + intros ->. apply Hy. by eapply list_elem_of_lookup_2.
    + by apply IH.
Qed.

Lemma fmap_delete {A B} (f : A → B) (l : list A) i : f <$> delete i l = delete i (f <$> l).
Proof.
  revert i. induction l as [|y l IH]; intros [|i]; simpl; try done. f_equal. apply IH.
Qed.

Lemma accept_unknown st sid requestId userId now :
  requestId ∉ FriendRequest.id <$> default [] (friendRequests (globalData st) !! userId) →
  accept_friend_request st sid requestId userId now = (st, []).
Proof.
  intros Hnot. unfold accept_friend_request.
  destruct (list_find _ _) as [[i r]|] eqn:Hfind; [| done].
  apply list_find_Some in Hfind as (Hi & Hid & _). destruct Hnot.
  apply list_elem_of_fmap. exists r. split; [done | by eapply list_elem_of_lookup_2].
Qed.

End Acceptance.

(** X7.  [accept-friend-request] does nothing at all, and pushes nothing,
    when the named user's list holds no request with the id (an unknown id,
    or a request addressed to somebody else).  Otherwise exactly one request
    leaves the list and the new conversation starts with an empty history.
    When the ids in the list are pairwise different, accepting the same
    request a second time is a no-op.  The outcome never depends on the
    socket the event came from. *)
Theorem accept_friend_request_at_most_once
    (st : ChatServer.State) (sid requestId userId : string) (now : Z) :
  let requests :=
    default [] (ChatServer.friendRequests (ChatServer.globalData st) !! userId) in
  let accepted := ChatServer.accept_friend_request st sid requestId userId now in
  let left_ :=
    default [] (ChatServer.friendRequests (ChatServer.globalData accepted.1) !! userId) in
  (requestId ∉ FriendRequest.id <$> requests → accepted = (st, []))
  ∧ (requestId ∈ FriendRequest.id <$> requests →
     ∃ i r, requests !! i = Some r ∧ FriendRequest.id r = requestId
            ∧ left_ = delete i requests
            ∧ S (length left_) = length requests
            ∧ ChatServer.messages (ChatServer.globalData accepted.1)
                !! ("conv_" +:+ pretty now +:+ "_" +:+ FriendRequest.senderId r
                            +:+ "_" +:+ userId) = Some [])
  ∧ (NoDup (FriendRequest.id <$> requests) →
     ∀ sid' now', ChatServer.accept_friend_request accepted.1 sid' requestId userId now'
                  = (accepted.1, []))
  ∧ (∀ sid', ChatServer.accept_friend_request st sid' requestId userId now = accepted).
Proof.
  intros requests accepted left_.
  assert (requestId ∈ FriendRequest.id <$> requests →
          ∃ i r, requests !! i = Some r ∧ FriendRequest.id r = requestId
                 ∧ left_ = delete i requests
                 ∧ ChatServer.messages (ChatServer.globalData accepted.1)
                     !! ("conv_" +:+ pretty now +:+ "_" +:+ FriendRequest.senderId r
                                 +:+ "_" +:+ userId) = Some []) as Hfound.
  { intros Hin. subst left_ accepted. unfold ChatServer.accept_friend_request.
    fold requests. destruct (list_find _ requests) as [[i r]|] eqn:Hfind.
    - pose proof Hfind as Hf. apply list_find_Some in Hf as (Hi & Hid & _).
      exists i, r. cbn [fst ChatServer.globalData ChatServer.set_globalData
                        ChatServer.friendRequests ChatServer.messages].
      split_and!; [done | done | by rewrite lookup_insert_eq | by rewrite lookup_insert_eq].
    - apply list_find_None in Hfind. rewrite Forall_forall in Hfind.
      apply list_elem_of_fmap in Hin as (r & Hr & Hin). by destruct (Hfind r Hin). }
  split_and!.
  - apply accept_unknown.
  - intros Hin. destruct (Hfound Hin) as (i & r & Hi & Hid & Hleft & Hmsg).
    exists i, r. split_and!; try done.
    rewrite Hleft, length_delete by (by eexists).
    apply lookup_lt_Some in Hi. lia.
  - intros Hnd sid' now'.
    destruct (decide (requestId ∈ FriendRequest.id <$> requests)) as [Hin | Hnin].
    + destruct (Hfound Hin) as (i & r & Hi & Hid & Hleft & _).
      apply accept_unknown. fold left_. rewrite Hleft, fmap_delete, <- Hid.
      apply not_elem_of_delete; [done |]. by rewrite list_lookup_fmap, Hi.
    + subst accepted. rewrite (accept_unknown _ _ _ _ _ Hnin). cbn [fst].
      by apply accept_unknown.
  - done.
Qed.

Lemma accept_friend_request_at_most_once_witness :
  let st := Scenario.asked_twice in
  let requests :=
    default [] (ChatServer.friendRequests (ChatServer.globalData st) !! "B") in
  ("req_0_0" ∉ FriendRequest.id <$> requests)
  ∧ "req_3000_0.25" ∈ FriendRequest.id <$> requests
  ∧ NoDup (FriendRequest.id <$> requests)
  ∧ ChatServer.accept_friend_request st "sB" "req_0_0" "B" 4000 = (st, [])
  ∧ ChatServer.accept_friend_request
      (ChatServer.accept_friend_request st "sB" "req_3000_0.25" "B" 4000).1
      "sB" "req_3000_0.25" "B" 4100
    = ((ChatServer.accept_friend_request st "sB" "req_3000_0.25" "B" 4000).1, []).
Proof.
  intros st requests.
  assert (FriendRequest.id <$> requests = ["req_3000_0.25"; "req_3500_0.75"]) as Hids.
  { vm_compute. reflexivity. }
  assert ("req_0_0" ∉ FriendRequest.id <$> requests) as H1.
  { rewrite Hids, !not_elem_of_cons. split_and!; [discriminate | discriminate |].
    apply not_elem_of_nil. }
  assert ("req_3000_0.25" ∈ FriendRequest.id <$> requests) as H2.
  { rewrite Hids. apply list_elem_of_here. }
  assert (NoDup (FriendRequest.id <$> requests)) as H3.
  { rewrite Hids. apply NoDup_cons. split.
    - intros H. apply list_elem_of_singleton in H. discriminate.
    - apply NoDup_singleton. }
  split; [exact H1 | split; [exact H2 | split; [exact H3 |]]].
  split.
  - exact (proj1 (accept_friend_request_at_most_once st "sB" "req_0_0" "B" 4000) H1).
  - exact (proj1 (proj2 (proj2
             (accept_friend_request_at_most_once st "sB" "req_3000_0.25" "B" 4000)))
             H3 "sB" 4100%Z).
Defined.

(** ** The chat server: what reaches whom *)

Section Pushes.

Import ChatServer.

Lemma presence_run_keeps_requests ps : ∀ st,
  friendRequests (globalData (run st (of_presence <$> ps))) = friendRequests (globalData st).
Proof.
  induction ps as [|p ps IH]; intros st; simpl; [done |].
  unfold run in *. simpl. rewrite IH. apply presence_keeps_store.
Qed.

Lemma rooms_join sid room st :
  rooms st ⊆ rooms (join sid room st).
Proof.
  unfold join. destruct (decide _); [done |]. simpl.
  intros p Hp. apply elem_of_app. by left.
Qed.

(** Only its own disconnection takes a socket out of a room. *)
Lemma step_keeps_member st e sid room :
  e ≠ Disconnect sid → sid ∈ members room st → sid ∈ members room (step st e).1.
Proof.
  intros He Hin. unfold members in *.
  apply list_elem_of_fmap in Hin as ([s r] & -> & Hin).
  apply list_elem_of_filter in Hin as [Hr Hin]. simpl in Hr.
  apply list_elem_of_fmap. exists (s, r). split; [done |].
  apply list_elem_of_filter. split; [done |].
  destruct e as [sid' | sid' u now | sid' data now rnd | sid' requestId userId now
                | sid' data now rnd | sid' c u n | sid' c u | sid' | sid' u now];
    try done; cbn [step].
  - unfold connection. cbn [fst]. by apply rooms_join.
  - unfold user_login. cbn [fst]. by apply rooms_join.
  - unfold accept_friend_request. by destruct (list_find _ _) as [[i x]|].
  - unfold disconnect. cbn [fst rooms]. apply list_elem_of_filter. split; [| done].
    simpl. intros ->. by apply He.
  - unfold heartbeat. by destruct (Js.get _ _).
Qed.

Lemma run_keeps_member es : ∀ st sid room,
  Forall (fun e => e ≠ Disconnect sid) es →
  sid ∈ members room st → sid ∈ members room (run st es).
Proof.
  induction es as [|e es IH]; intros st sid room Hes Hin; [done |].
  apply Forall_cons in Hes as [He Hes]. unfold run in *. simpl.
  apply IH; [done |]. by apply step_keeps_member.
Qed.

End Pushes.

(** X8.  A friend request is stored at the end of the receiver's list
    whether or not the receiver is online, the sender is told it was sent,
    and the list survives presence events: at the receiver's next login the
    [friend-requests-update] sent to the logging socket carries the request. *)
Theorem friend_request_is_handed_over_at_login
    (st : ChatServer.State) (sid senderId : string) (senderData u : User.t)
    (now : Z) (rnd : string) (ps : list ChatServer.PresenceEvent)
    (sid' : string) (now' : Z) :
  let data := {| ChatServer.fr_senderId := senderId;
                 ChatServer.fr_receiverId := User.id u;
                 ChatServer.fr_senderData := senderData |} in
  let before :=
    default [] (ChatServer.friendRequests (ChatServer.globalData st) !! User.id u) in
  let sent := ChatServer.send_friend_request st sid data now rnd in
  let later := ChatServer.run sent.1 (ChatServer.of_presence <$> ps) in
  ∃ r, FriendRequest.senderId r = senderId
       ∧ FriendRequest.receiverId r = User.id u
       ∧ FriendRequest.status r = pending
       ∧ ChatServer.friendRequests (ChatServer.globalData sent.1) !! User.id u
         = Some (before ++ [r])
       ∧ (sid, ChatServer.FriendRequestSent true (User.id u)) ∈ sent.2
       ∧ (sid', ChatServer.FriendRequestsUpdate (before ++ [r]))
         ∈ (ChatServer.user_login later sid' u now').2.
Proof.
  intros data before sent later. eexists. split_and!.
  4:{ unfold sent, ChatServer.send_friend_request.
      cbn [fst ChatServer.globalData ChatServer.set_globalData ChatServer.friendRequests].
      apply lookup_insert_eq. }
  - done.
  - done.
  - done.
  - unfold sent, ChatServer.send_friend_request. cbn [snd].
    apply elem_of_app. right. apply list_elem_of_here.
  - unfold ChatServer.user_login. cbn [snd].
    apply elem_of_app. right. apply elem_of_app. right.
    unfold later. rewrite presence_run_keeps_requests.
    unfold sent, ChatServer.send_friend_request.
    cbn [fst ChatServer.globalData ChatServer.set_globalData ChatServer.friendRequests].
    rewrite lookup_insert_eq. apply list_elem_of_here.
Qed.

(** X9.  From its login until it disconnects, a socket is pushed what
    concerns its user: every friend request addressed to the user, and every
    message sent to a conversation the server knows and the user takes part
    in, whatever else happens in between. *)
Theorem logged_in_socket_receives_requests_and_messages
    (st : ChatServer.State) (sid' : string) (u : User.t) (now : Z)
    (es : list ChatServer.Event) :
  Forall (fun e => e ≠ ChatServer.Disconnect sid') es →
  let st' := ChatServer.run (ChatServer.user_login st sid' u now).1 es in
  (∀ sid senderId senderData t rnd,
     ∃ r, FriendRequest.senderId r = senderId
          ∧ (sid', ChatServer.FriendRequestReceived r)
            ∈ (ChatServer.send_friend_request st' sid
                 {| ChatServer.fr_senderId := senderId;
                    ChatServer.fr_receiverId := User.id u;
                    ChatServer.fr_senderData := senderData |} t rnd).2)
  ∧ (∀ sid data t rnd c,
       ChatServer.conversations (ChatServer.globalData st')
         !! ChatServer.md_conversationId data = Some c →
       User.id u ∈ ChatServer.Conversation.participants c →
       (sid', ChatServer.MessageReceived (ChatServer.md_conversationId data)
                (ChatServer.new_message data t rnd))
       ∈ (ChatServer.send_message st' sid data t rnd).2).
Proof.
  intros Hes st'.
  assert (sid' ∈ ChatServer.members (ChatServer.user_room (User.id u)) st') as Hin.
  { apply run_keeps_member; [done | apply member_after_login]. }
  split.
  - intros sid senderId senderData t rnd. eexists. split; [| ].
    2:{ unfold ChatServer.send_friend_request. cbn [snd].
        apply elem_of_app. left. unfold ChatServer.io_to.
        apply list_elem_of_fmap. exists sid'. split; [reflexivity | exact Hin]. }
    done.
  - intros sid data t rnd c Hc Hu.
    unfold ChatServer.send_message. cbn [snd fst ChatServer.globalData
      ChatServer.set_globalData ChatServer.conversations].
    rewrite lookup_alter_eq, Hc. simpl.
    apply list_elem_of_join. eexists. split.
    2:{ apply list_elem_of_fmap. exists (User.id u). split; [reflexivity | exact Hu]. }
    unfold ChatServer.io_to. apply list_elem_of_fmap. exists sid'. split; [done |].
    exact Hin.
Qed.

Lemma logged_in_socket_receives_requests_and_messages_witness :
  Forall (fun e => e ≠ ChatServer.Disconnect "sB")
         [ChatServer.Connection "sA"; ChatServer.UserLogin "sA" Scenario.alice 3000]
  ∧ ∃ r, FriendRequest.senderId r = "A"
         ∧ ("sB", ChatServer.FriendRequestReceived r)
           ∈ (ChatServer.send_friend_request
                (ChatServer.run (ChatServer.user_login ChatServer.initial "sB" Scenario.bob 2000).1
                   [ChatServer.Connection "sA"; ChatServer.UserLogin "sA" Scenario.alice 3000])
                "sA" {| ChatServer.fr_senderId := "A";
                        ChatServer.fr_receiverId := User.id Scenario.bob;
                        ChatServer.fr_senderData := Scenario.alice |} 4000 "0.5").2.
Proof.
  assert (Forall (fun e => e ≠ ChatServer.Disconnect "sB")
            [ChatServer.Connection "sA"; ChatServer.UserLogin "sA" Scenario.alice 3000]) as H.
  { repeat constructor; discriminate. }
  split; [exact H |].
  exact (proj1 (logged_in_socket_receives_requests_and_messages
                  ChatServer.initial "sB" Scenario.bob 2000
                  [ChatServer.Connection "sA"; ChatServer.UserLogin "sA" Scenario.alice 3000] H)
               "sA" "A" Scenario.alice 4000%Z "0.5").
Defined.

Section ConnectedOnly.

Import ChatServer.

Lemma sockets_join sid room st : sockets (join sid room st) = sockets st.
Proof. unfold join. by destruct (decide _). Qed.

Lemma join_rooms_connected sid room st :
  sid ∈ sockets st → rooms_connected st → rooms_connected (join sid room st).
Proof.
  intros Hsid Hst. unfold join. destruct (decide _); [done |].
  unfold rooms_connected in *. simpl. apply Forall_app. split; [done |]. by constructor.
Qed.

Lemma step_rooms_connected st e :
  from_connected st e → rooms_connected st → rooms_connected (step st e).1.
Proof.
  intros He Hst.
  destruct e as [sid | sid u now | sid data now rnd | sid requestId userId now
                | sid data now rnd | sid c u n | sid c u | sid | sid u now];
    try done; cbn [step].
  - unfold connection. cbn [fst]. apply join_rooms_connected.
    + simpl. destruct (decide _); [done |]. apply elem_of_app. right. apply list_elem_of_here.
    + unfold rooms_connected in *. simpl. eapply Forall_impl; [exact Hst |].
      intros p Hp. simpl in *. destruct (decide _); [done |]. apply elem_of_app. by left.
  - unfold user_login. cbn [fst]. by apply join_rooms_connected.
  - unfold accept_friend_request. by destruct (list_find _ _) as [[i x]|].
  - unfold disconnect, rooms_connected in *. cbn [fst rooms sockets].
    apply Forall_forall. intros p Hp. apply list_elem_of_filter in Hp as [Hne Hp].
    apply list_elem_of_filter. split; [done |].
    rewrite Forall_forall in Hst. by apply Hst.
  - unfold heartbeat. by destruct (Js.get _ _).
Qed.

Lemma run_rooms_connected es : ∀ st,
  connected_run st es → rooms_connected st → rooms_connected (run st es).
Proof.
  induction es as [|e es IH]; intros st Hes Hst; [done |].
  destruct Hes as [He Hes]. unfold run in *. simpl.
  apply IH; [done |]. by apply step_rooms_connected.
Qed.

Lemma members_connected room st s :
  rooms_connected st → s ∈ members room st → s ∈ sockets st.
Proof.
  intros Hst Hs. unfold members in Hs.
  apply list_elem_of_fmap in Hs as ([s' r] & -> & Hs).
  apply list_elem_of_filter in Hs as [_ Hs].
  unfold rooms_connected in Hst. rewrite Forall_forall in Hst. by apply (Hst _ Hs).
Qed.

Lemma io_to_connected room e st :
  rooms_connected st → Forall (fun d : Delivery => d.1 ∈ sockets st) (io_to room e st).
Proof.
  intros Hst. apply Forall_forall. intros d Hd. unfold io_to in Hd.
  apply list_elem_of_fmap in Hd as (s & -> & Hs). by eapply members_connected.
Qed.

Lemma step_pushes_to_connected st e :
  from_connected st e → rooms_connected st →
  Forall (fun d : Delivery => d.1 ∈ sockets (step st e).1) (step st e).2.
Proof.
  intros He Hst.
  destruct e as [sid | sid u now | sid data now rnd | sid requestId userId now
                | sid data now rnd | sid c u n | sid c u | sid | sid u now];
    cbn [step].
  - constructor.
  - assert (rooms_connected (user_login st sid u now).1) as Hst'.
    { by apply (step_rooms_connected st (UserLogin sid u now)). }
    unfold user_login in *. cbn [fst snd] in *. rewrite sockets_join. cbn [sockets].
    rewrite !Forall_app. split_and!.
    + apply Forall_forall. intros d Hd. unfold socket_broadcast in Hd.
      apply list_elem_of_fmap in Hd as (s & -> & Hs).
      apply list_elem_of_filter in Hs as [_ Hs]. by rewrite sockets_join in Hs.
    + by repeat constructor.
    + by repeat constructor.
  - unfold send_friend_request. cbn [fst snd]. rewrite Forall_app. split.
    + by apply io_to_connected.
    + by repeat constructor.
  - unfold accept_friend_request. destruct (list_find _ _) as [[i x]|]; [| constructor].
    cbn [fst snd]. rewrite !Forall_app. split_and!; by apply io_to_connected.
  - unfold send_message. cbn [fst snd].
    destruct (alter _ _ _ !! _) as [conv|]; [| constructor].
    apply Forall_forall. intros d Hd. apply list_elem_of_join in Hd as (l & Hd & Hl).
    apply list_elem_of_fmap in Hl as (p & -> & _).
    pose proof (io_to_connected (user_room p)
                  (MessageReceived (md_conversationId data) (new_message data now rnd))
                  _ Hst) as H.
    rewrite Forall_forall in H. by apply H.
  - unfold typing_start, socket_to. cbn [fst snd].
    apply Forall_forall. intros d Hd. apply list_elem_of_fmap in Hd as (s & -> & Hs).
    apply list_elem_of_filter in Hs as [_ Hs]. by eapply members_connected.
  - unfold typing_stop, socket_to. cbn [fst snd].
    apply Forall_forall. intros d Hd. apply list_elem_of_fmap in Hd as (s & -> & Hs).
    apply list_elem_of_filter in Hs as [_ Hs]. by eapply members_connected.
  - unfold disconnect. cbn [fst snd sockets].
    destruct (find_by_socket _ _) as [k|]; [| constructor].
    destruct (decide (k = "")); [constructor |].
    apply Forall_forall. intros d Hd. unfold socket_broadcast in Hd.
    apply list_elem_of_fmap in Hd as (s & -> & Hs).
    by apply list_elem_of_filter in Hs as [_ Hs].
  - unfold heartbeat. destruct (Js.get _ _); constructor.
Qed.

End ConnectedOnly.

(** X10.  When every event comes from a socket that is connected at the time,
    the server only ever addresses a push to a connected socket: room
    members are connected sockets, and a socket that disconnects leaves all
    its rooms, so nothing is sent to a socket that has gone. *)
Theorem pushes_go_to_connected_sockets_only
    (es : list ChatServer.Event) (e : ChatServer.Event) :
  ChatServer.connected_run ChatServer.initial es →
  ChatServer.from_connected (ChatServer.run ChatServer.initial es) e →
  let st := ChatServer.run ChatServer.initial es in
  ChatServer.rooms_connected st
  ∧ Forall (fun d : ChatServer.Delivery => d.1 ∈ ChatServer.sockets (ChatServer.step st e).1)
           (ChatServer.step st e).2.
Proof.
  intros Hes He st.
  assert (ChatServer.rooms_connected st) as Hst.
  { apply run_rooms_connected; [done | constructor]. }
  split; [done | by apply step_pushes_to_connected].
Qed.

Lemma pushes_go_to_connected_sockets_only_witness :
  let es := [ChatServer.Connection "sA"; ChatServer.UserLogin "sA" Scenario.alice 1000;
             ChatServer.Connection "sB"; ChatServer.UserLogin "sB" Scenario.bob 2000;
             ChatServer.Disconnect "sB"] in
  let e := ChatServer.SendFriendRequest "sA" Scenario.request_to_bob 3000 "0.25" in
  ChatServer.connected_run ChatServer.initial es
  ∧ ChatServer.from_connected (ChatServer.run ChatServer.initial es) e
  ∧ Forall (fun d : ChatServer.Delivery =>
              d.1 ∈ ChatServer.sockets
                      (ChatServer.step (ChatServer.run ChatServer.initial es) e).1)
           (ChatServer.step (ChatServer.run ChatServer.initial es) e).2.
Proof.
  intros es e.
  assert (ChatServer.connected_run ChatServer.initial es) as H1.
  { unfold es. cbn [ChatServer.connected_run ChatServer.from_connected].
    split_and!; try exact I; apply (bool_decide_unpack _); vm_compute; exact I. }
  assert (ChatServer.from_connected (ChatServer.run ChatServer.initial es) e) as H2.
  { unfold es, e. cbn [ChatServer.from_connected].
    apply (bool_decide_unpack _). vm_compute. exact I. }
  split; [exact H1 | split; [exact H2 |]].
  exact (proj2 (pushes_go_to_connected_sockets_only es e H1 H2)).
Defined.

(** ** The chat context: status, deletion, messages *)

Section StatusOperations.

Import ChatContext.

Lemma named_with_status st conversationId other s :
  named (setConversations (update_conv conversationId (with_status s)) st) other
  = (if decide (other = conversationId) then with_status s else id) <$> named st other.
Proof. by apply named_update_conv. Qed.

Lemma named_lock st conversationId password c :
  named st conversationId = Some c →
  named (lockConversation st conversationId password) conversationId
  = Some (with_lock locked (Some password) c).
Proof.
  intros Hc. unfold lockConversation. rewrite named_update_conv by done.
  by rewrite Hc, decide_True.
Qed.

End StatusOperations.

(** X11.  The status operations do not know about the lock.  Archiving or
    muting a locked conversation keeps its password; unarchiving or unmuting
    it makes it active without the password being asked for, and the
    password stays in the record, so that [unlockConversation] with it still
    answers [true] afterwards. *)
Theorem status_operations_ignore_the_lock
    (st : ChatContext.State) (conversationId password : string)
    (c : ChatContext.Conversation.t) :
  ChatContext.named st conversationId = Some c →
  let locked_st := ChatContext.lockConversation st conversationId password in
  let reopened := ChatContext.with_status ChatContext.active
                    (ChatContext.with_lock ChatContext.locked (Some password) c) in
  ChatContext.named (ChatContext.archiveConversation locked_st conversationId) conversationId
    = Some (ChatContext.with_status ChatContext.archived
              (ChatContext.with_lock ChatContext.locked (Some password) c))
  ∧ ChatContext.named (ChatContext.muteConversation locked_st conversationId) conversationId
    = Some (ChatContext.with_status ChatContext.muted
              (ChatContext.with_lock ChatContext.locked (Some password) c))
  ∧ ChatContext.named (ChatContext.unarchiveConversation locked_st conversationId)
      conversationId = Some reopened
  ∧ ChatContext.named (ChatContext.unmuteConversation locked_st conversationId)
      conversationId = Some reopened
  ∧ ChatContext.Conversation.status reopened = ChatContext.active
  ∧ ChatContext.Conversation.password reopened = Some password
  ∧ (ChatContext.unlockConversation
       (ChatContext.unmuteConversation locked_st conversationId) conversationId password).1
    = true.
Proof.
  intros Hc locked_st reopened.
  pose proof (named_lock st conversationId password c Hc) as Hl. fold locked_st in Hl.
  unfold ChatContext.archiveConversation, ChatContext.muteConversation,
    ChatContext.unarchiveConversation, ChatContext.unmuteConversation.
  rewrite !named_with_status, Hl, !decide_True by done.
  split_and!; try done.
  rewrite unlockConversation_named, named_with_status, Hl, decide_True by done.
  simpl. by rewrite decide_True.
Qed.

Lemma status_operations_ignore_the_lock_witness :
  let st := (ChatContext.createConversation Scenario.alice_offline "B" 5000).2 in
  (∃ c, ChatContext.named st "conv_5000" = Some c)
  ∧ (ChatContext.unlockConversation
       (ChatContext.unmuteConversation
          (ChatContext.lockConversation st "conv_5000" "secret") "conv_5000")
       "conv_5000" "secret").1 = true.
Proof.
  intros st.
  assert (∃ c, ChatContext.named st "conv_5000" = Some c) as Hc.
  { eexists. vm_compute. reflexivity. }
  split; [exact Hc |].
  destruct Hc as [c Hc].
  exact (proj2 (proj2 (proj2 (proj2 (proj2 (proj2
           (status_operations_ignore_the_lock st "conv_5000" "secret" c Hc))))))).
Defined.

(** X12.  Every conversation shows in exactly one of the four lists of
    [getConversationsByStatus]: the lists taken together are the
    conversations, each once. *)
Theorem conversations_split_by_status (st : ChatContext.State) :
  ChatContext.getConversationsByStatus st ChatContext.active
    ++ ChatContext.getConversationsByStatus st ChatContext.archived
    ++ ChatContext.getConversationsByStatus st ChatContext.locked
    ++ ChatContext.getConversationsByStatus st ChatContext.muted
  ≡ₚ ChatContext.conversations st.
Proof.
  unfold ChatContext.getConversationsByStatus.
  induction (ChatContext.conversations st) as [|c l IH]; [done |].
  rewrite !filter_cons.
  destruct (ChatContext.Conversation.status c) eqn:Hs;
    repeat (rewrite decide_True by done || rewrite decide_False by done).
  - simpl. by rewrite IH.
  - symmetry. apply Permutation_cons_app. by symmetry.
  - symmetry. rewrite app_assoc. apply Permutation_cons_app.
    rewrite <- app_assoc. by symmetry.
  - symmetry. rewrite !app_assoc. apply Permutation_cons_app.
    rewrite <- !app_assoc. by symmetry.
Qed.

Section Deletion.

Import ChatContext.

Lemma one_per_pair_deleteConversation st conversationId :
  one_per_pair st → one_per_pair (deleteConversation st conversationId).
Proof.
  intros [Hshape Hnd].
  apply (one_per_pair_same
           (setConversations
              (fun prev => filter (fun conv => Conversation.id conv ≠ conversationId) prev) st)).
  - unfold deleteConversation. by destruct (decide _).
  - unfold deleteConversation. by destruct (decide _).
  - split; simpl.
    + rewrite Forall_forall in Hshape. apply Forall_forall. intros c Hc.
      apply list_elem_of_filter in Hc as [_ Hc]. by apply Hshape.
    + eapply sublist_NoDup; [exact Hnd |]. apply fmap_sublist, sublist_filter.
Qed.

Lemma conversations_deleteConversation st conversationId :
  conversations (deleteConversation st conversationId)
  = filter (fun conv => Conversation.id conv ≠ conversationId) (conversations st).
Proof. unfold deleteConversation. by destruct (decide _). Qed.

Lemma cur_deleteConversation st conversationId :
  cur (deleteConversation st conversationId) = cur st.
Proof. unfold deleteConversation. by destruct (decide _). Qed.

End Deletion.

(** X13.  In a context with one conversation per pair, take the
    conversation with user [u].  [deleteConversation] removes the named
    conversation and its history and leaves the conversations and
    histories under other ids as they were; the active conversation is cleared exactly when it was the
    deleted one.  The history is gone for good: when the deleted
    conversation was the one with user [u], no conversation with [u] is
    left, and [createConversation] for [u] starts a new one with a new id
    and an empty history. *)
Theorem deleted_conversation_starts_afresh
    (st : ChatContext.State) (u : string) (c : ChatContext.Conversation.t) (now : Z) :
  ChatContext.one_per_pair st →
  u ≠ ChatContext.cur st →
  c ∈ ChatContext.conversations_with u st →
  let conversationId := ChatContext.Conversation.id c in
  let st' := ChatContext.deleteConversation st conversationId in
  let created := ChatContext.createConversation st' u now in
  ChatContext.named st' conversationId = None
  ∧ ChatContext.messages st' !! conversationId = None
  ∧ (∀ other, other ≠ conversationId →
       ChatContext.named st' other = ChatContext.named st other
       ∧ ChatContext.messages st' !! other = ChatContext.messages st !! other)
  ∧ ChatContext.activeConversation st'
    = (if decide (ChatContext.activeConversation st = Some conversationId)
       then None else ChatContext.activeConversation st)
  ∧ ChatContext.conversations_with u st' = []
  ∧ created.1 = "conv_" +:+ pretty now
  ∧ ChatContext.messages created.2 !! created.1 = Some []
  ∧ length (ChatContext.conversations_with u created.2) = 1.
Proof.
  intros Hst Hne Hc conversationId st' created.
  assert (ChatContext.conversations_with u st' = []) as Hnone.
  { destruct (ChatContext.conversations_with u st') as [|x l] eqn:Hx; [done |].
    assert (x ∈ ChatContext.conversations_with u st') as Hin by (rewrite Hx; by left).
    unfold ChatContext.conversations_with, st' in Hin.
    rewrite cur_deleteConversation, conversations_deleteConversation in Hin.
    apply list_elem_of_filter in Hin as [HQ Hin].
    apply list_elem_of_filter in Hin as [Hid Hin].
    assert (x ∈ ChatContext.conversations_with u st) as Hxu.
    { unfold ChatContext.conversations_with. by apply list_elem_of_filter. }
    destruct (createConversation_spec st u now now Hst Hne) as (Hle & _).
    destruct (ChatContext.conversations_with u st) as [|y [|z l']]; simpl in Hle.
    - by apply elem_of_nil in Hc.
    - apply list_elem_of_singleton in Hc, Hxu. subst. by destruct Hid.
    - lia. }
  assert (ChatContext.one_per_pair st') as Hst'.
  { by apply one_per_pair_deleteConversation. }
  assert (u ≠ ChatContext.cur st') as Hne'.
  { unfold st'. by rewrite cur_deleteConversation. }
  assert (created = ("conv_" +:+ pretty now,
                     ChatContext.setMessages (fun prev => <["conv_" +:+ pretty now := []]> prev)
                       (ChatContext.setConversations
                          (fun prev => prev ++
                             [{| ChatContext.Conversation.id := "conv_" +:+ pretty now;
                                 ChatContext.Conversation.participants :=
                                   [ChatContext.cur st'; u];
                                 ChatContext.Conversation.lastMessage := None;
                                 ChatContext.Conversation.unreadCount := 0;
                                 ChatContext.Conversation.updatedAt := Js.IsoOf now;
                                 ChatContext.Conversation.status := ChatContext.active;
                                 ChatContext.Conversation.password := None |}]) st')))
    as Hcreated.
  { unfold created, ChatContext.createConversation, ChatContext.find.
    rewrite (conversations_with_wanted st' u Hne' Hst') in Hnone.
    destruct (list_find _ _) as [[i x]|] eqn:Hfind; [| done].
    apply list_find_Some in Hfind as (Hi & HP & _).
    assert (x ∈ filter (fun c0 => u ∈ ChatContext.Conversation.participants c0
                                  ∧ ChatContext.cur st'
                                    ∈ ChatContext.Conversation.participants c0)
                       (ChatContext.conversations st')) as Hin.
    { apply list_elem_of_filter. split; [done | by eapply list_elem_of_lookup_2]. }
    rewrite Hnone in Hin. by apply elem_of_nil in Hin. }
  split_and!.
  - unfold st'. by rewrite named_deleteConversation, decide_True.
  - unfold st', ChatContext.deleteConversation.
    destruct (decide _); simpl; apply lookup_delete_eq.
  - intros other Hother. split.
    + unfold st'. by rewrite named_deleteConversation, decide_False.
    + unfold st', ChatContext.deleteConversation.
      destruct (decide _); simpl; by apply lookup_delete_ne.
  - unfold st', ChatContext.deleteConversation. by destruct (decide _).
  - done.
  - by rewrite Hcreated.
  - rewrite Hcreated. simpl. apply lookup_insert_eq.
  - by destruct (createConversation_spec st' u now now Hst' Hne') as (_ & _ & H & _).
Qed.

Lemma deleted_conversation_starts_afresh_witness :
  let st := (ChatContext.createConversation Scenario.alice_offline "B" 5000).2 in
  ChatContext.one_per_pair st
  ∧ "B" ≠ ChatContext.cur st
  ∧ (∃ c, c ∈ ChatContext.conversations_with "B" st
          ∧ ChatContext.messages
              (ChatContext.createConversation
                 (ChatContext.deleteConversation st (ChatContext.Conversation.id c)) "B" 6000).2
              !! (ChatContext.createConversation
                    (ChatContext.deleteConversation st (ChatContext.Conversation.id c))
                    "B" 6000).1
            = Some []).
Proof.
  intros st.
  assert (ChatContext.one_per_pair st) as H1.
  { apply createConversation_one_per_pair. split; constructor. }
  assert ("B" ≠ ChatContext.cur st) as H2 by discriminate.
  assert (∃ c, ChatContext.conversations_with "B" st = [c]) as [c Hc].
  { eexists. vm_compute. reflexivity. }
  assert (c ∈ ChatContext.conversations_with "B" st) as H3.
  { rewrite Hc. apply list_elem_of_here. }
  split; [exact H1 | split; [exact H2 |]].
  exists c. split; [exact H3 |].
  exact (proj1 (proj2 (proj2 (proj2 (proj2 (proj2 (proj2
           (deleted_conversation_starts_afresh st "B" c 6000 H1 H2 H3)))))))).
Defined.

Section Sending.

Import ChatContext.

Lemma createConversation_returns st u now :
  one_per_pair st → u ≠ cur st →
  ∃ c, c ∈ conversations (createConversation st u now).2
       ∧ Conversation.id c = (createConversation st u now).1
       ∧ Conversation.participants c = [cur st; u].
Proof.
  intros [Hshape _] Hne. unfold createConversation, find.
  destruct (list_find _ _) as [[i c]|] eqn:Hfind; simpl.
  - apply list_find_Some in Hfind as (Hi & HP & _).
    apply list_elem_of_lookup_2 in Hi.
    exists c. split_and!; [done | done |].
    rewrite Forall_forall in Hshape. destruct (Hshape c Hi) as [v Hv].
    destruct (proj1 (wanted_iff st u c Hne (ex_intro _ v Hv)) HP) as [H | H]; [done |].
    rewrite Hv in H. injection H as H _. congruence.
  - eexists. split_and!; [apply elem_of_app; right; apply list_elem_of_here | done | done].
Qed.

Lemma named_of_elem st c :
  NoDup (Conversation.id <$> conversations st) → c ∈ conversations st →
  named st (Conversation.id c) = Some c.
Proof.
  unfold named. induction (conversations st) as [|x l IH]; intros Hnd Hc.
  - by apply elem_of_nil in Hc.
  - rewrite fmap_cons in Hnd. apply NoDup_cons in Hnd as [Hx Hnd].
    rewrite find_cons. apply elem_of_cons in Hc as [-> | Hc].
    + by rewrite decide_True.
    + rewrite decide_False; [by apply IH |].
      intros Heq. apply Hx. rewrite Heq. apply list_elem_of_fmap. by exists c.
Qed.

End Sending.

(** X14.  A message sent in the conversation [createConversation] returned
    for user [u] is addressed to [u]: provided the context has one
    conversation per pair, its conversation ids are distinct and [u] is
    neither the current user nor the empty id, the fallback [sendMessage]
    (called once the creation is rendered) appends a message from the
    current user to [u] to that conversation's history and makes it the conversation's
    last message, and touches no other history or conversation.  The
    WebSocket context does the same when the socket is not connected; when
    it is connected it stores nothing and emits one send-message event with
    receiver [u]. *)
Theorem message_in_created_conversation_goes_to_that_user
    (st : ChatContext.State) (u content : string) (now t : Z) :
  ChatContext.one_per_pair st →
  u ≠ ChatContext.cur st →
  u ≠ "" →
  NoDup (ChatContext.Conversation.id
           <$> ChatContext.conversations (ChatContext.createConversation st u now).2) →
  let created := ChatContext.createConversation st u now in
  let sent := ChatContext.Local.sendMessage created.2 created.1 content t in
  let m := ChatContext.local_message st u content t in
  ChatContext.messages sent !! created.1
    = Some (default [] (ChatContext.messages created.2 !! created.1) ++ [m])
  ∧ (∃ c, ChatContext.named created.2 created.1 = Some c
          ∧ ChatContext.Conversation.participants c = [ChatContext.cur st; u]
          ∧ ChatContext.named sent created.1 = Some (ChatContext.with_last m t c))
  ∧ (∀ other, other ≠ created.1 →
       ChatContext.messages sent !! other = ChatContext.messages created.2 !! other
       ∧ ChatContext.named sent other = ChatContext.named created.2 other)
  ∧ ChatContext.Socket.sendMessage created.2 created.1 content t
    = (if ChatContext.isConnected st
       then (created.2,
             [ChatContext.Socket.EmitSendMessage
                {| ChatServer.md_conversationId := created.1;
                   ChatServer.md_senderId := ChatContext.cur st;
                   ChatServer.md_content := content;
                   ChatServer.md_receiverId := u |}])
       else (sent, [])).
Proof.
  intros Hst Hne Hu Hnd created sent m.
  destruct (createConversation_returns st u now Hst Hne) as (c & Hc & Hid & Hparts).
  fold created in Hc, Hid.
  pose proof (named_of_elem created.2 c Hnd Hc) as Hnamed. rewrite Hid in Hnamed.
  pose proof (cur_createConversation st u now) as Hcur. fold created in Hcur.
  assert (ChatContext.isConnected created.2 = ChatContext.isConnected st) as Hconn.
  { unfold created, ChatContext.createConversation. by destruct (ChatContext.find _ _). }
  assert (ChatContext.currentUser created.2 = ChatContext.currentUser st) as Huser.
  { unfold created, ChatContext.createConversation. by destruct (ChatContext.find _ _). }
  assert (ChatContext.receiver_of created.2 created.1 = Some u) as Hrecv.
  { unfold ChatContext.receiver_of. unfold ChatContext.named in Hnamed.
    rewrite Hnamed, Hparts, Hcur.
    rewrite find_cons, decide_False by (intros H; by apply H).
    rewrite find_cons, decide_True by done. by rewrite decide_False. }
  assert (ChatContext.local_message created.2 u content t = m) as Hm.
  { unfold m, ChatContext.local_message, ChatContext.cur. by rewrite Huser. }
  assert (sent = ChatContext.store_message created.2 created.1 u content t) as Hsent.
  { unfold sent, ChatContext.Local.sendMessage. by rewrite Hrecv. }
  split_and!.
  - rewrite Hsent. unfold ChatContext.store_message. rewrite Hm. simpl.
    apply lookup_insert_eq.
  - exists c. split_and!; [done | done |].
    rewrite Hsent. unfold ChatContext.store_message. rewrite Hm.
    match goal with
    | |- ChatContext.named (ChatContext.setConversations _ ?s) _ = _ =>
        rewrite (named_update_conv s) by done;
        change (ChatContext.named s created.1) with (ChatContext.named created.2 created.1)
    end.
    by rewrite Hnamed, decide_True.
  - intros other Hother. rewrite Hsent. unfold ChatContext.store_message. split.
    + simpl. by apply lookup_insert_ne.
    + match goal with
      | |- ChatContext.named (ChatContext.setConversations _ ?s) _ = _ =>
          rewrite (named_update_conv s) by done;
          change (ChatContext.named s other) with (ChatContext.named created.2 other)
      end.
      rewrite decide_False by done. apply option_fmap_id.
  - unfold ChatContext.Socket.sendMessage. rewrite Hrecv, Hconn, Hcur, <- Hsent.
    done.
Qed.

Lemma message_in_created_conversation_goes_to_that_user_witness :
  let st := Scenario.alice_offline in
  ChatContext.messages
    (ChatContext.Local.sendMessage (ChatContext.createConversation st "B" 5000).2
       (ChatContext.createConversation st "B" 5000).1 "hello" 6000)
    !! (ChatContext.createConversation st "B" 5000).1
  = Some (default [] (ChatContext.messages (ChatContext.createConversation st "B" 5000).2
                        !! (ChatContext.createConversation st "B" 5000).1)
          ++ [ChatContext.local_message st "B" "hello" 6000]).
Proof.
  intros st.
  assert (ChatContext.one_per_pair st) as H1 by (split; constructor).
  assert ("B" ≠ ChatContext.cur st) as H2 by discriminate.
  assert ("B" ≠ "") as H3 by discriminate.
  assert (NoDup (ChatContext.Conversation.id
                   <$> ChatContext.conversations
                         (ChatContext.createConversation st "B" 5000).2)) as H4.
  { apply (bool_decide_unpack _). vm_compute. exact I. }
  exact (proj1 (message_in_created_conversation_goes_to_that_user
                  st "B" "hello" 5000 6000 H1 H2 H3 H4)).
Defined.

(** X15.  What the persisting effects write is what a later mount of the
    same user loads: after [persist], a freshly mounted context of that
    user restores the conversations (passwords and statuses included), the
    histories, the friends and the friend requests, but not the active
    conversation.  The keys are per user: a context mounted for another
    user loads what it would have loaded before.  (An instant is kept by
    its ISO rendering, the form JSON gives a date.) *)
Theorem persisted_state_is_reloaded (st : ChatContext.State) :
  let ls := ChatContext.localStorage (ChatContext.persist st) in
  let st' := ChatContext.loadPersistedData (ChatContext.mount (ChatContext.currentUser st) ls) in
  ChatContext.conversations st' = ChatContext.conversations st
  ∧ ChatContext.messages st' = ChatContext.messages st
  ∧ ChatContext.users st' = ChatContext.users st
  ∧ ChatContext.friendRequests st' = ChatContext.friendRequests st
  ∧ ChatContext.activeConversation st' = None
  ∧ (∀ v, User.id v ≠ ChatContext.cur st →
       ChatContext.loadPersistedData (ChatContext.mount v ls)
       = ChatContext.setStorage (fun _ => ls)
           (ChatContext.loadPersistedData
              (ChatContext.mount v (ChatContext.localStorage st)))).
Proof.
  intros ls st'.
  assert (st' = ChatContext.setFriendRequests (fun _ => ChatContext.friendRequests st)
                  (ChatContext.setUsers (fun _ => ChatContext.users st)
                     (ChatContext.setMessages (fun _ => ChatContext.messages st)
                        (ChatContext.setConversations (fun _ => ChatContext.conversations st)
                           (ChatContext.mount (ChatContext.currentUser st) ls))))) as ->.
  { unfold st', ls, ChatContext.loadPersistedData, ChatContext.persist, ChatContext.cur.
    cbn [ChatContext.localStorage ChatContext.setStorage ChatContext.mount
         ChatContext.currentUser ChatContext.conversations_ ChatContext.messages_
         ChatContext.friends_ ChatContext.friend_requests_].
    by rewrite !lookup_insert_eq. }
  split_and!; try done.
  intros v Hv.
  unfold ls, ChatContext.loadPersistedData, ChatContext.persist, ChatContext.cur.
  cbn [ChatContext.localStorage ChatContext.setStorage ChatContext.mount
       ChatContext.currentUser ChatContext.conversations_ ChatContext.messages_
       ChatContext.friends_ ChatContext.friend_requests_].
  rewrite !lookup_insert_ne by (intros Heq; apply Hv; symmetry; exact Heq).
  destruct (ChatContext.conversations_ _ !! _), (ChatContext.messages_ _ !! _),
    (ChatContext.friends_ _ !! _), (ChatContext.friend_requests_ _ !! _); reflexivity.
Qed.

Section LocalPresence.

Import ChatContext.

Lemma fresh_other_Some st now blob d :
  fresh_other st now blob = Some d
  ↔ blob = StatusJson d
    ∧ (now - default 0 (sd_timestamp d) ≤ 10000)%Z ∧ sd_id d ≠ cur st.
Proof.
  unfold fresh_other. destruct blob as [| |d'].
  - split; [done | by intros [? _]].
  - split; [done | by intros [? _]].
  - destruct (decide _) as [[H1 H2] | Hn].
    + split; [by intros [= ->] | by intros ([= ->] & _)].
    + split; [done |]. intros ([= ->] & H1 & H2). destruct Hn. by split.
Qed.

Lemma fresh_ids_sublist st now (l : list (string * StatusBlob)) :
  (∀ k d, (k, StatusJson d) ∈ l → sd_id d = k) →
  sd_id <$> omap (fresh_other st now) l.*2 `sublist_of` l.*1.
Proof.
  induction l as [|[k b] l IH]; intros Hl; [done |].
  rewrite !fmap_cons. cbn [omap list_omap fst snd].
  assert (sd_id <$> omap (fresh_other st now) l.*2 `sublist_of` l.*1) as Hrest.
  { apply IH. intros k' d' H. apply Hl. by right. }
  destruct (fresh_other st now b) as [d|] eqn:Hb.
  - apply fresh_other_Some in Hb as (-> & _ & _).
    rewrite fmap_cons, (Hl k d) by (by left). by apply sublist_skip.
  - by apply sublist_cons.
Qed.

Lemma local_status_online ls userId now :
  user_status_ ls = global_user_status_ ls →
  (Local.getUserOnlineStatus ls userId now).1 = online
  ↔ ∃ d, global_user_status_ ls !! userId = Some (StatusJson d)
         ∧ (now - default 0 (sd_timestamp d) ≤ 10000)%Z.
Proof.
  intros Heq. unfold Local.getUserOnlineStatus. rewrite Heq.
  destruct (global_user_status_ ls !! userId) as [[| |d]|] eqn:Hg;
    rewrite ?Hg; simpl; try (split; [done | by intros (? & ? & _)]).
  destruct (decide _) as [Hold | Hnew]; simpl.
  - split; [done |]. intros (d' & [= <-] & H). lia.
  - split; [| done]. intros _. exists d. split; [done | lia].
Qed.

End LocalPresence.

(** X16.  In the localStorage-only context the list of online users and
    the status query agree.  On a store whose status blobs are filed under
    the id they carry, the two status keys of a user holding the same
    blob, [getAllOnlineUsers] lists a user id exactly when it is not the
    current user's and [getUserOnlineStatus] answers [online] for it (a
    heartbeat at most ten seconds old); it lists every id at most once,
    each with status [online]. *)
Theorem local_online_list_agrees_with_status_query
    (st : ChatContext.State) (now : Z) :
  ChatContext.blobs_filed (ChatContext.localStorage st) →
  ChatContext.user_status_ (ChatContext.localStorage st)
    = ChatContext.global_user_status_ (ChatContext.localStorage st) →
  (∀ userId,
     (∃ u, u ∈ ChatContext.Local.getAllOnlineUsers st now ∧ User.id u = userId)
     ↔ (userId ≠ ChatContext.cur st
        ∧ (ChatContext.Local.getUserOnlineStatus
             (ChatContext.localStorage st) userId now).1 = online))
  ∧ NoDup (User.id <$> ChatContext.Local.getAllOnlineUsers st now)
  ∧ Forall (fun u => User.status u = online) (ChatContext.Local.getAllOnlineUsers st now).
Proof.
  intros Hfiled Heq. split_and!.
  - intros userId. rewrite (local_status_online _ userId now Heq).
    unfold ChatContext.Local.getAllOnlineUsers. split.
    + intros (u & Hu & Hid). apply list_elem_of_fmap in Hu as (d & -> & Hd).
      apply list_elem_of_omap in Hd as (blob & Hblob & Hfresh).
      apply list_elem_of_fmap in Hblob as ([k b] & -> & Hkb).
      apply elem_of_map_to_list in Hkb.
      apply fresh_other_Some in Hfresh as (Hb & Hts & Hme). simpl in Hb. subst b.
      pose proof (Hfiled k d Hkb) as Hk. simpl in Hid. subst userId.
      split; [done |]. exists d. by rewrite Hk.
    + intros (Hme & d & Hd & Hts).
      pose proof (Hfiled userId d Hd) as Hk.
      exists {| User.id := ChatContext.sd_id d; User.name := ChatContext.sd_name d;
                User.username := ChatContext.sd_username d; User.displayUsername := None;
                User.avatar := ChatContext.sd_avatar d; User.status := online |}.
      split; [| exact Hk].
      apply list_elem_of_fmap. exists d. split; [reflexivity |].
      apply list_elem_of_omap. exists (ChatContext.StatusJson d). split.
      * apply list_elem_of_fmap. exists (userId, ChatContext.StatusJson d).
        split; [done |]. by apply elem_of_map_to_list.
      * apply fresh_other_Some. split_and!; [done | done | by rewrite Hk].
  - unfold ChatContext.Local.getAllOnlineUsers. rewrite <- list_fmap_compose.
    eapply sublist_NoDup;
      [apply (NoDup_fst_map_to_list
                (ChatContext.global_user_status_ (ChatContext.localStorage st))) |].
    apply (fresh_ids_sublist st now). intros k d H.
    apply Hfiled. by apply elem_of_map_to_list.
  - unfold ChatContext.Local.getAllOnlineUsers. apply Forall_fmap.
    by apply Forall_true.
Qed.

Lemma local_online_list_agrees_with_status_query_witness :
  let st := ChatContext.Local.heartbeat Scenario.alice_offline 8000 in
  ChatContext.blobs_filed (ChatContext.localStorage st)
  ∧ NoDup (User.id <$> ChatContext.Local.getAllOnlineUsers st 9000).
Proof.
  intros st.
  assert (ChatContext.blobs_filed (ChatContext.localStorage st)) as H1.
  { intros k d. unfold st, ChatContext.Local.heartbeat. simpl.
    destruct (decide (k = "A")) as [-> | Hk].
    - rewrite lookup_insert_eq. by intros [= <-].
    - rewrite lookup_insert_ne by done. vm_compute. discriminate. }
  assert (ChatContext.user_status_ (ChatContext.localStorage st)
          = ChatContext.global_user_status_ (ChatContext.localStorage st)) as H2.
  { reflexivity. }
  split; [exact H1 |].
  exact (proj1 (proj2 (local_online_list_agrees_with_status_query st 9000 H1 H2))).
Defined.

Section LocalStore.

Import ChatContext.

Lemma filed_twice_write u blob now ls :
  filed_twice ls →
  (∀ d, blob = Some (StatusJson d) → sd_id d = u) →
  filed_twice (Local.write_status u blob now ls).
Proof.
  intros [Hfiled Heq] Hblob. split.
  - intros k d. unfold Local.write_status. destruct blob as [b|]; simpl.
    + destruct (decide (k = u)) as [-> | Hk].
      * rewrite lookup_insert_eq. intros [= ->]. by apply Hblob.
      * rewrite lookup_insert_ne by done. apply Hfiled.
    + destruct (decide (k = u)) as [-> | Hk].
      * by rewrite lookup_delete_eq.
      * rewrite lookup_delete_ne by done. apply Hfiled.
  - unfold Local.write_status. simpl. rewrite Heq. by destruct blob.
Qed.

Lemma filed_twice_query ls userId now :
  filed_twice ls → filed_twice (Local.getUserOnlineStatus ls userId now).2.
Proof.
  intros [Hfiled Heq]. unfold Local.getUserOnlineStatus.
  destruct (match user_status_ ls !! userId with
            | Some StatusEmpty | None => global_user_status_ ls !! userId
            | Some b => Some b
            end) as [[| |d]|]; try done.
  destruct (decide _); [| done]. split; simpl.
  - intros k d'. simpl. destruct (decide (k = userId)) as [-> | Hk].
    + by rewrite lookup_delete_eq.
    + rewrite lookup_delete_ne by done. apply Hfiled.
  - by rewrite Heq.
Qed.

Lemma filed_twice_refresh now : ∀ prev ls,
  filed_twice ls → filed_twice (refresh_with Local.getUserOnlineStatus ls prev now).2.
Proof.
  induction prev as [|user rest IH]; intros ls Hls; [done |].
  cbn [refresh_with].
  pose proof (filed_twice_query ls (User.id user) now Hls) as H1.
  destruct (Local.getUserOnlineStatus ls (User.id user) now) as [p ls1].
  specialize (IH ls1 H1).
  by destruct (refresh_with Local.getUserOnlineStatus ls1 rest now) as [rest' ls2].
Qed.

Lemma filed_twice_on_store ls op :
  filed_twice ls → filed_twice (Local.on_store ls op).
Proof.
  intros Hls. destruct op as [u isOnline now | u now | userId now | u friends now].
  - unfold Local.on_store, Local.updateUserOnlineStatus. simpl.
    apply filed_twice_write; [done |]. destruct isOnline; [| done]. by intros d [= <-].
  - unfold Local.on_store, Local.heartbeat. simpl.
    apply filed_twice_write; [done |]. by intros d [= <-].
  - by apply filed_twice_query.
  - unfold Local.on_store, Local.refresh_statuses, refresh_statuses_with. simpl.
    pose proof (filed_twice_refresh now friends ls Hls) as H.
    by destruct (refresh_with Local.getUserOnlineStatus ls friends now) as [users' ls'].
Qed.

End LocalStore.

(** X17.  The status keys stay well filed.  On a store where the two
    status keys of every user hold the same blob, filed under the id it
    carries (a store without status blobs is one), the tabs of any users
    may update their status, heartbeat, query and refresh in any order:
    afterwards the store is again such a store.  So the agreement of the
    online list and the status query holds in every tab at every time. *)
Theorem local_status_keys_stay_filed
    (ls : ChatContext.Storage) (ops : list ChatContext.Local.StoreOp) :
  ChatContext.filed_twice ls →
  ChatContext.filed_twice (foldl ChatContext.Local.on_store ls ops).
Proof.
  revert ls. induction ops as [|op ops IH]; intros ls Hls; [done |].
  simpl. apply IH. by apply filed_twice_on_store.
Qed.

Lemma local_status_keys_stay_filed_witness :
  ChatContext.filed_twice Scenario.browser
  ∧ ChatContext.filed_twice
      (foldl ChatContext.Local.on_store Scenario.browser
         [ChatContext.Local.Update Scenario.alice true 1000;
          ChatContext.Local.Beat Scenario.bob 2000;
          ChatContext.Local.Query "A" 12000;
          ChatContext.Local.Update Scenario.bob false 13000]).
Proof.
  assert (ChatContext.filed_twice Scenario.browser) as H.
  { split; [| reflexivity]. intros k d. vm_compute. discriminate. }
  split; [exact H |].
  exact (local_status_keys_stay_filed Scenario.browser _ H).
Defined.

Section Refreshing.

Import ChatContext.

Lemma local_query_after_query ls u v now :
  (Local.getUserOnlineStatus (Local.getUserOnlineStatus ls u now).2 v now).1
  = (Local.getUserOnlineStatus ls v now).1.
Proof.
  unfold Local.getUserOnlineStatus at 2.
  destruct (match user_status_ ls !! u with
            | Some StatusEmpty | None => global_user_status_ ls !! u
            | Some b => Some b
            end) as [[| |d]|] eqn:Hu; try done.
  destruct (decide _) as [Hold | Hnew]; [| done].
  cbn [snd]. destruct (decide (v = u)) as [-> | Hv].
  - rewrite local_status_without_blob by (simpl; apply lookup_delete_eq).
    unfold Local.getUserOnlineStatus. rewrite Hu. by rewrite decide_True.
  - unfold Local.getUserOnlineStatus. simpl.
    rewrite !lookup_delete_ne by done.
    destruct (match user_status_ ls !! v with
              | Some StatusEmpty | None => global_user_status_ ls !! v
              | Some b => Some b
              end) as [[| |d']|]; try done.
    by destruct (decide _).
Qed.

Lemma local_refresh_with now : ∀ prev ls,
  (refresh_with Local.getUserOnlineStatus ls prev now).1
  = (fun u => with_presence (Local.getUserOnlineStatus ls (User.id u) now).1 u) <$> prev.
Proof.
  induction prev as [|user rest IH]; intros ls; [done |].
  cbn [refresh_with]. rewrite fmap_cons.
  pose proof (fun v => local_query_after_query ls (User.id user) v now) as Hsame.
  destruct (Local.getUserOnlineStatus ls (User.id user) now) as [p ls1] eqn:Hq.
  specialize (IH ls1).
  destruct (refresh_with Local.getUserOnlineStatus ls1 rest now) as [rest' ls2].
  simpl in *. rewrite IH. f_equal.
  apply list_fmap_ext. intros i u _. by rewrite Hsame.
Qed.

Lemma socket_refresh_with now ls : ∀ prev,
  refresh_with Socket.getUserOnlineStatus ls prev now
  = ((fun u => with_presence (Socket.getUserOnlineStatus ls (User.id u) now).1 u) <$> prev,
     ls).
Proof.
  assert (∀ v, (Socket.getUserOnlineStatus ls v now).2 = ls) as Hkeep.
  { intros v. unfold Socket.getUserOnlineStatus.
    destruct (user_last_seen_ ls !! v) as [[| |t]|]; try done.
    by repeat destruct (Socket.within_minutes _ _). }
  induction prev as [|user rest IH]; [done |].
  cbn [refresh_with]. rewrite fmap_cons.
  specialize (Hkeep (User.id user)).
  destruct (Socket.getUserOnlineStatus ls (User.id user) now) as [p ls1].
  simpl in Hkeep. subst ls1. by rewrite IH.
Qed.

End Refreshing.

(** X18.  Refreshing the friends' statuses (the storage listener on
    [user_status_update] and the five-second interval) gives every friend
    the status a query of the store as it was gives for that friend, and
    changes nothing else about the friends: in the localStorage-only
    context the stale blobs one query removes never change the answer of
    a later one, and in the WebSocket context the store is left as it
    was.  Conversations, histories and friend requests are untouched. *)
Theorem refresh_gives_each_friend_its_status (st : ChatContext.State) (now : Z) :
  let ls := ChatContext.localStorage st in
  ChatContext.users (ChatContext.Local.refresh_statuses st now)
    = (fun u => ChatContext.with_presence
                  (ChatContext.Local.getUserOnlineStatus ls (User.id u) now).1 u)
        <$> ChatContext.users st
  ∧ ChatContext.Socket.refresh_statuses st now
    = ChatContext.setUsers
        (fun prev => (fun u => ChatContext.with_presence
                        (ChatContext.Socket.getUserOnlineStatus ls (User.id u) now).1 u)
                       <$> prev) st
  ∧ ChatContext.conversations (ChatContext.Local.refresh_statuses st now)
    = ChatContext.conversations st
  ∧ ChatContext.messages (ChatContext.Local.refresh_statuses st now)
    = ChatContext.messages st
  ∧ ChatContext.friendRequests (ChatContext.Local.refresh_statuses st now)
    = ChatContext.friendRequests st.
Proof.
  intros ls.
  pose proof (local_refresh_with now (ChatContext.users st) ls) as Hlocal.
  pose proof (socket_refresh_with now ls (ChatContext.users st)) as Hsocket.
  unfold ChatContext.Local.refresh_statuses, ChatContext.Socket.refresh_statuses,
    ChatContext.refresh_statuses_with.
  fold ls. rewrite Hsocket.
  destruct (ChatContext.refresh_with ChatContext.Local.getUserOnlineStatus ls
              (ChatContext.users st) now) as [users' ls'].
  simpl in Hlocal. subst users'.
  by split_and!.
Qed.

Section HookList.

Import ChatServer.

Lemma pushed_to_app sid a b :
  Hook.pushed_to sid (a ++ b) = Hook.pushed_to sid a ++ Hook.pushed_to sid b.
Proof. unfold Hook.pushed_to. by rewrite filter_app, fmap_app. Qed.

Lemma pushed_to_same sid e (ss : list string) :
  Hook.pushed_to sid ((fun s => (s, e)) <$> ss)
  = replicate (length (filter (fun s => s = sid) ss)) e.
Proof.
  unfold Hook.pushed_to. induction ss as [|s ss IH]; [done |].
  rewrite fmap_cons, !filter_cons. cbn [fst].
  destruct (decide (s = sid)); [| exact IH].
  rewrite fmap_cons. cbn [snd length replicate]. by rewrite IH.
Qed.

Lemma pushed_to_quiet sid out l :
  Forall (fun d : Delivery => Hook.quiet d.2) out →
  foldl Hook.receive l (Hook.pushed_to sid out) = l.
Proof.
  unfold Hook.pushed_to. induction out as [|[s e] out IH]; intros H; [done |].
  apply Forall_cons in H as [He Hout]. rewrite filter_cons. cbn [fst].
  destruct (decide (s = sid)); [| by apply IH].
  rewrite fmap_cons. cbn [snd foldl].
  replace (Hook.receive l e) with l; [by apply IH |].
  simpl in He. by destruct e.
Qed.

Lemma ids_user_online l x v :
  v ∈ entry_id <$> Hook.user_online l x ↔ v ∈ entry_id <$> l ∨ v = entry_id x.
Proof.
  unfold Hook.user_online. rewrite fmap_app, elem_of_app, !list_elem_of_fmap.
  split.
  - intros [(y & -> & Hy) | (y & -> & Hy)].
    + apply list_elem_of_filter in Hy as [_ Hy]. left. by exists y.
    + apply list_elem_of_singleton in Hy as ->. by right.
  - intros [(y & -> & Hy) | ->].
    + destruct (decide (entry_id y = entry_id x)) as [Heq | Hne].
      * right. exists x. split; [done | apply list_elem_of_here].
      * left. exists y. split; [done |]. by apply list_elem_of_filter.
    + right. exists x. split; [done | apply list_elem_of_here].
Qed.

Lemma NoDup_user_online l x :
  NoDup (entry_id <$> l) → NoDup (entry_id <$> Hook.user_online l x).
Proof.
  intros H. unfold Hook.user_online. rewrite fmap_app. apply NoDup_app. split_and!.
  - eapply sublist_NoDup; [exact H |]. apply fmap_sublist, sublist_filter.
  - intros v Hv Hx. apply list_elem_of_singleton in Hx as ->.
    apply list_elem_of_fmap in Hv as (y & Hy & Hin).
    apply list_elem_of_filter in Hin as [Hne _]. by apply Hne.
  - apply NoDup_singleton.
Qed.

Lemma ids_user_offline l w v :
  v ∈ entry_id <$> Hook.user_offline l w ↔ v ∈ entry_id <$> l ∧ v ≠ w.
Proof.
  unfold Hook.user_offline. rewrite !list_elem_of_fmap. split.
  - intros (y & -> & Hy). apply list_elem_of_filter in Hy as [Hne Hy].
    split; [by exists y | done].
  - intros [(y & -> & Hy) Hne]. exists y. split; [done |].
    by apply list_elem_of_filter.
Qed.

Lemma NoDup_user_offline l w :
  NoDup (entry_id <$> l) → NoDup (entry_id <$> Hook.user_offline l w).
Proof.
  intros H. eapply sublist_NoDup; [exact H |]. apply fmap_sublist, sublist_filter.
Qed.

Lemma online_many x : ∀ k l,
  NoDup (entry_id <$> l) →
  let l' := foldl Hook.receive l (replicate k (UserOnline x)) in
  NoDup (entry_id <$> l')
  ∧ ∀ v, v ∈ entry_id <$> l' ↔ v ∈ entry_id <$> l ∨ ((0 < k)%nat ∧ v = entry_id x).
Proof.
  induction k as [|k IH]; intros l Hnd; simpl.
  - split; [done |]. intros v. split; [by left | intros [H | [H _]]; [done | lia]].
  - destruct (IH (Hook.user_online l x) (NoDup_user_online l x Hnd)) as [Hnd' Hiff].
    split; [done |]. intros v. rewrite Hiff, ids_user_online.
    split.
    + intros [[H | H] | [_ H]]; [by left | right; split; [lia | done]..].
    + intros [H | [_ H]]; left; [by left | by right].
Qed.

Lemma offline_many w : ∀ k l,
  NoDup (entry_id <$> l) →
  let l' := foldl Hook.receive l (replicate k (UserOffline w)) in
  NoDup (entry_id <$> l')
  ∧ ∀ v, v ∈ entry_id <$> l' ↔ v ∈ entry_id <$> l ∧ (k = 0%nat ∨ v ≠ w).
Proof.
  induction k as [|k IH]; intros l Hnd; simpl.
  - split; [done |]. intros v. split; [intros H; split; [done | by left] | by intros [H _]].
  - destruct (IH (Hook.user_offline l w) (NoDup_user_offline l w Hnd)) as [Hnd' Hiff].
    split; [done |]. intros v. rewrite Hiff, ids_user_offline.
    split.
    + intros [[H Hne] _]. split; [done | by right].
    + intros [H [Hk | Hne]]; [lia |]. split; [by split | by right].
Qed.

Lemma elem_of_keys_set {V} k (v : V) m x :
  x ∈ (Js.set k v m).*1 ↔ x ∈ m.*1 ∨ x = k.
Proof.
  rewrite keys_set. destruct (decide (k ∈ m.*1)) as [Hin | Hnin].
  - split; [by left | intros [H | ->]; done].
  - rewrite elem_of_app, list_elem_of_singleton. done.
Qed.

Lemma elem_of_keys_delete {V} k (m : list (string * V)) x :
  NoDup m.*1 → x ∈ (Js.delete k m).*1 ↔ x ∈ m.*1 ∧ x ≠ k.
Proof.
  induction m as [|[k0 v0] m IH]; intros Hnd.
  - simpl. split; [by intros H%elem_of_nil | by intros [H%elem_of_nil _]].
  - rewrite fmap_cons in Hnd. apply NoDup_cons in Hnd as [Hk0 Hnd]. cbn [fst] in Hk0.
    cbn [Js.delete]. destruct (decide (k0 = k)) as [-> | Hne].
    + rewrite fmap_cons, elem_of_cons. cbn [fst]. split.
      * intros H. split; [by right |]. by intros ->.
      * intros [[-> | H] Hx]; done.
    + rewrite !fmap_cons, !elem_of_cons, (IH Hnd). cbn [fst]. split.
      * intros [-> | [H Hx]]; [split; [by left | done] | split; [by right | done]].
      * intros [[-> | H] Hx]; [by left | right; by split].
Qed.

Lemma sockets_filter_positive sid s (ss : list string) :
  sid ∈ ss → s ≠ sid →
  (0 < length (filter (fun s0 => s0 = sid) (filter (fun s0 => s0 ≠ s) ss)))%nat.
Proof.
  intros Hin Hne.
  assert (sid ∈ filter (fun s0 => s0 = sid) (filter (fun s0 => s0 ≠ s) ss)) as H.
  { apply list_elem_of_filter. split; [done |]. apply list_elem_of_filter. split; [| done].
    by intros ->. }
  destruct (filter _ _); [by apply elem_of_nil in H | simpl; lia].
Qed.

(** What the hook's list and the registry agree on, for the hook on socket
    [sid] of user [uid]. *)
Lemma follow_login sid u now st l0 :
  online_ok st → sid ∈ sockets st →
  let st' := (step st (UserLogin sid u now)).1 in
  let l' := foldl Hook.receive l0 (Hook.pushed_to sid (step st (UserLogin sid u now)).2) in
  sid ∈ sockets st'
  ∧ NoDup (entry_id <$> l')
  ∧ ∀ v, v ≠ User.id u → (v ∈ entry_id <$> l' ↔ v ∈ online_ids st').
Proof.
  intros [Hnd Hid] Hsid. cbn [step]. unfold user_login. cbn [fst snd].
  set (info := {| socketId := sid; userData := u; lastSeen := now |}).
  set (m' := Js.set (User.id u) info (onlineUsers (globalData st))).
  rewrite !pushed_to_app. unfold socket_broadcast. rewrite pushed_to_same.
  rewrite sockets_join. cbn [sockets set_globalData].
  replace (filter (fun s => s = sid) (filter (fun s => s ≠ sid) (sockets st)))
    with (@nil string).
  2:{ symmetry. apply filter_none. apply Forall_forall. intros x Hx.
      by apply list_elem_of_filter in Hx as [Hx _]. }
  unfold socket_emit, Hook.pushed_to. rewrite !filter_cons_True by done.
  rewrite filter_nil. cbn [length replicate app fmap list_fmap snd foldl Hook.receive].
  assert (Forall (fun p : string * OnlineInfo => User.id (userData p.2) = p.1) m') as Hid'.
  { apply Forall_forall. intros p Hp. apply elem_of_set in Hp as [-> | Hp]; [done |].
    rewrite Forall_forall in Hid. by apply Hid. }
  pose proof (entry_ids_of_others m' (User.id u) Hid') as Heq.
  unfold m' in Heq at 2. rewrite filter_keys_set in Heq.
  change (list_fmap ?A ?B ?f ?l) with (f <$> l).
  split_and!.
  - done.
  - rewrite Heq. by apply NoDup_filter.
  - intros v Hv. rewrite Heq. unfold online_ids. rewrite globalData_join.
    cbn [globalData set_globalData onlineUsers].
    unfold m'. rewrite list_elem_of_filter, elem_of_keys_set. split.
    + intros [_ H]. by left.
    + intros [H | H]; [by split | done].
Qed.

Lemma follow_step sid uid st l e :
  online_ok st → sid ∈ sockets st → NoDup (entry_id <$> l) →
  (∀ v, v ≠ uid → v ≠ "" → v ∈ entry_id <$> l ↔ v ∈ online_ids st) →
  Hook.stays sid e →
  let st' := (step st e).1 in
  let l' := foldl Hook.receive l (Hook.pushed_to sid (step st e).2) in
  sid ∈ sockets st'
  ∧ NoDup (entry_id <$> l')
  ∧ ∀ v, v ≠ uid → v ≠ "" → v ∈ entry_id <$> l' ↔ v ∈ online_ids st'.
Proof.
  intros [Hnd Hid] Hsid Hl Hagree Hstays.
  destruct e as [s | s w now | s data now rnd | s requestId userId now | s data now rnd
                 | s c u n | s c u | s | s w now]; cbn [step].
  - (* connection *)
    unfold connection. cbn [fst snd]. rewrite sockets_join. cbn [sockets].
    split_and!; [| done |].
    + destruct (decide _); [done |]. apply elem_of_app. by left.
    + intros v Hv Hv'. unfold online_ids. rewrite globalData_join. by apply Hagree.
  - (* login on another socket *)
    simpl in Hstays. unfold user_login. cbn [fst snd].
    rewrite !pushed_to_app. unfold socket_broadcast. rewrite pushed_to_same.
    rewrite sockets_join. cbn [sockets set_globalData].
    unfold socket_emit, Hook.pushed_to. rewrite !filter_cons_False by done.
    rewrite filter_nil, !app_nil_r.
    destruct (online_many (entry_of w)
                (length (filter (fun s0 => s0 = sid)
                           (filter (fun s0 => s0 ≠ s) (sockets st)))) l Hl)
      as [Hnd' Hiff].
    pose proof (sockets_filter_positive sid s (sockets st) Hsid Hstays) as Hpos.
    split_and!; [done | done |].
    intros v Hv Hv'. rewrite Hiff. unfold online_ids. rewrite globalData_join.
    cbn [globalData set_globalData onlineUsers]. rewrite elem_of_keys_set.
    rewrite (Hagree v Hv Hv'). unfold online_ids. cbn [entry_of entry_id].
    split; [intros [H | [_ H]]; [by left | by right] | intros [H | H]; [by left | by right]].
  - (* send-friend-request *)
    unfold send_friend_request. cbn [fst snd sockets set_globalData].
    rewrite pushed_to_quiet.
    2:{ apply Forall_app. split; [apply Forall_fmap; by apply Forall_true |].
        by repeat constructor. }
    split_and!; [done | done |]. intros v Hv Hv'. by apply Hagree.
  - (* accept-friend-request *)
    unfold accept_friend_request.
    destruct (list_find _ _) as [[i r]|]; cbn [fst snd sockets set_globalData].
    + rewrite pushed_to_quiet.
      2:{ rewrite !Forall_app. split_and!; apply Forall_fmap; by apply Forall_true. }
      split_and!; [done | done |]. intros v Hv Hv'. by apply Hagree.
    + split_and!; [done | done |]. intros v Hv Hv'. by apply Hagree.
  - (* send-message *)
    unfold send_message. cbn [fst snd sockets set_globalData].
    rewrite pushed_to_quiet.
    2:{ destruct (_ !! _); [| constructor]. apply Forall_forall. intros d Hd.
        apply list_elem_of_join in Hd as (ds & Hd & Hds).
        apply list_elem_of_fmap in Hds as (p & -> & _).
        by apply list_elem_of_fmap in Hd as (s0 & -> & _). }
    split_and!; [done | done |]. intros v Hv Hv'. by apply Hagree.
  - (* typing-start *)
    unfold typing_start. cbn [fst snd]. rewrite pushed_to_quiet.
    2:{ apply Forall_fmap. by apply Forall_true. }
    done.
  - (* typing-stop *)
    unfold typing_stop. cbn [fst snd]. rewrite pushed_to_quiet.
    2:{ apply Forall_fmap. by apply Forall_true. }
    done.
  - (* disconnect of another socket *)
    simpl in Hstays. unfold disconnect. cbn [fst snd sockets].
    assert (sid ∈ filter (fun s0 => s0 ≠ s) (sockets st)) as Hsid'.
    { apply list_elem_of_filter. split; [by intros -> | done]. }
    destruct (find_by_socket s (onlineUsers (globalData st))) as [w|].
    + destruct (decide (w = "")) as [-> | Hw].
      * split_and!; [done | done |]. intros v Hv Hv'. rewrite (Hagree v Hv Hv').
        unfold online_ids. cbn [globalData onlineUsers].
        rewrite (elem_of_keys_delete _ _ _ Hnd). split; [by intros H | by intros [H _]].
      * unfold socket_broadcast. rewrite pushed_to_same. cbn [sockets].
        destruct (offline_many w
                    (length (filter (fun s0 => s0 = sid)
                               (filter (fun s0 => s0 ≠ s)
                                  (filter (fun s0 => s0 ≠ s) (sockets st))))) l Hl)
          as [Hnd' Hiff].
        pose proof (sockets_filter_positive sid s _ Hsid' Hstays) as Hpos.
        split_and!; [done | done |].
        intros v Hv Hv'. rewrite Hiff, (Hagree v Hv Hv').
        unfold online_ids. cbn [globalData onlineUsers].
        rewrite (elem_of_keys_delete _ _ _ Hnd).
        split; [intros [H [Hk | Hne]]; [lia | done] | intros [H Hne]; split; [done | by right]].
    + split_and!; [done | done |]. intros v Hv Hv'. by apply Hagree.
  - (* heartbeat *)
    unfold heartbeat.
    destruct (Js.get (User.id w) (onlineUsers (globalData st))) as [info|] eqn:Hget;
      cbn [fst snd sockets set_globalData].
    + split_and!; [done | done |]. intros v Hv Hv'. rewrite (Hagree v Hv Hv').
      unfold online_ids. cbn [globalData set_globalData onlineUsers].
      rewrite elem_of_keys_set. split; [by left | intros [H | ->]; [done |]].
      apply elem_of_get in Hget. apply list_elem_of_fmap. by eexists (_, _).
    + split_and!; [done | done |]. intros v Hv Hv'. by apply Hagree.
Qed.

Lemma follow_run sid uid : ∀ es st l,
  online_ok st → sid ∈ sockets st → NoDup (entry_id <$> l) →
  (∀ v, v ≠ uid → v ≠ "" → v ∈ entry_id <$> l ↔ v ∈ online_ids st) →
  Forall (Hook.stays sid) es →
  (Hook.follow sid st l es).1 = run st es
  ∧ NoDup (entry_id <$> (Hook.follow sid st l es).2)
  ∧ ∀ v, v ≠ uid → v ≠ "" →
         v ∈ entry_id <$> (Hook.follow sid st l es).2
         ↔ v ∈ online_ids (Hook.follow sid st l es).1.
Proof.
  induction es as [|e es IH]; intros st l Hok Hsid Hl Hagree Hes; [done |].
  apply Forall_cons in Hes as [He Hes]. cbn [Hook.follow].
  destruct (follow_step sid uid st l e Hok Hsid Hl Hagree He) as (H1 & H2 & H3).
  by apply IH; [apply step_online_ok | ..].
Qed.

End HookList.

(** X19.  The hook's list of online users follows the server's registry.
    Let a connected socket log in as user [u] and stay as it is (no second
    login on it, no disconnection) while the server processes any other
    events.  Then the list the hook has built from the events pushed to
    that socket names every id at most once and, for every non-empty id
    other than [u]'s, names it exactly when the server's [onlineUsers] has
    it; so, when the list is not empty, [getAllOnlineUsers] of the
    connected context of [u] lists exactly the other users the server has
    online.  (A user whose id is the empty string is never announced as
    offline.) *)
Theorem hook_list_follows_the_server_registry
    (st0 : ChatServer.State) (sid : string) (u : User.t) (now : Z)
    (l0 : list ChatServer.OnlineEntry) (es : list ChatServer.Event) :
  ChatServer.online_ok st0 →
  sid ∈ ChatServer.sockets st0 →
  Forall (Hook.stays sid) es →
  let r := Hook.follow sid st0 l0 (ChatServer.UserLogin sid u now :: es) in
  r.1 = ChatServer.run st0 (ChatServer.UserLogin sid u now :: es)
  ∧ NoDup (ChatServer.entry_id <$> r.2)
  ∧ (∀ v, v ≠ User.id u → v ≠ "" →
       v ∈ ChatServer.entry_id <$> r.2 ↔ v ∈ ChatServer.online_ids r.1)
  ∧ (∀ (ctx : ChatContext.State) (t : Z) (v : string),
       ChatContext.isConnected ctx = true →
       ChatContext.cur ctx = User.id u →
       r.2 ≠ [] → v ≠ "" →
       (∃ x, x ∈ ChatContext.Socket.getAllOnlineUsers ctx r.2 t ∧ User.id x = v)
       ↔ (v ≠ User.id u ∧ v ∈ ChatServer.online_ids r.1)).
Proof.
  intros Hok Hsid Hes r.
  destruct (follow_login sid u now st0 l0 Hok Hsid) as (H1 & H2 & H3).
  destruct (follow_run sid (User.id u) es _ _
              (step_online_ok st0 (ChatServer.UserLogin sid u now) Hok) H1 H2
              (fun v Hv _ => H3 v Hv) Hes) as (Hrun & Hnd & Hagree).
  change (Hook.follow sid (ChatServer.step st0 (ChatServer.UserLogin sid u now)).1
            (foldl Hook.receive l0
               (Hook.pushed_to sid (ChatServer.step st0 (ChatServer.UserLogin sid u now)).2))
            es) with r in Hrun, Hnd, Hagree.
  split_and!; [exact Hrun | exact Hnd | exact Hagree |].
  intros ctx t v Hconn Hcur Hne Hv.
  unfold ChatContext.Socket.getAllOnlineUsers. rewrite Hconn, Hcur.
  rewrite bool_decide_eq_true_2 by (destruct r.2; [done | simpl; lia]).
  cbn [andb]. split.
  - intros (x & Hx & Hid). apply list_elem_of_fmap in Hx as (e & -> & He).
    apply list_elem_of_filter in He as [Hme He]. simpl in Hid. subst v.
    split; [done |]. apply Hagree; [done | done |].
    apply list_elem_of_fmap. by exists e.
  - intros [Hme Hin]. apply Hagree in Hin; [| done | done].
    apply list_elem_of_fmap in Hin as (e & -> & He).
    exists (ChatContext.Socket.entry_user e). split; [| done].
    apply list_elem_of_fmap. exists e. split; [done |].
    by apply list_elem_of_filter.
Qed.

Lemma hook_list_follows_the_server_registry_witness :
  let st0 := ChatServer.run ChatServer.initial
               [ChatServer.Connection "sA"; ChatServer.Connection "sB"] in
  let es := [ChatServer.UserLogin "sB" Scenario.bob 2000;
             ChatServer.Heartbeat "sB" Scenario.bob 3000] in
  ChatServer.online_ok st0
  ∧ "sA" ∈ ChatServer.sockets st0
  ∧ Forall (Hook.stays "sA") es
  ∧ NoDup (ChatServer.entry_id
             <$> (Hook.follow "sA" st0 []
                    (ChatServer.UserLogin "sA" Scenario.alice 1000 :: es)).2).
Proof.
  intros st0 es.
  assert (ChatServer.online_ok st0) as H1.
  { split; vm_compute; constructor. }
  assert ("sA" ∈ ChatServer.sockets st0) as H2.
  { vm_compute. apply list_elem_of_here. }
  assert (Forall (Hook.stays "sA") es) as H3.
  { repeat constructor. discriminate. }
  split_and!; [exact H1 | exact H2 | exact H3 |].
  exact (proj1 (proj2 (hook_list_follows_the_server_registry
                         st0 "sA" Scenario.alice 1000 [] es H1 H2 H3))).
Defined.

Section ConversationIds.

Import ChatServer.

Lemma chars_app s1 s2 c :
  c ∈ String.list_ascii_of_string (s1 +:+ s2)
  ↔ c ∈ String.list_ascii_of_string s1 ∨ c ∈ String.list_ascii_of_string s2.
Proof.
  induction s1 as [|a s1 IH]; simpl.
  - split; [by right | intros [H | H]; [by apply elem_of_nil in H | done]].
  - rewrite !elem_of_cons, IH. tauto.
Qed.

Lemma pretty_N_char_digit x :
  pretty_N_char x ∈ String.list_ascii_of_string "0123456789".
Proof.
  unfold pretty_N_char. repeat case_match; simpl; rewrite !elem_of_cons; auto 20.
Qed.

Lemma pretty_N_go_chars x : ∀ s c,
  c ∈ String.list_ascii_of_string (pretty_N_go x s) →
  c ∈ String.list_ascii_of_string "0123456789" ∨ c ∈ String.list_ascii_of_string s.
Proof.
  induction (N.lt_wf_0 x) as [x _ IH]. intros s c.
  assert (x = 0 ∨ 0 < x)%N as [-> | Hpos] by lia.
  - rewrite pretty_N_go_0. by right.
  - rewrite pretty_N_go_step by done. intros H.
    apply IH in H; [| by apply N.div_lt].
    destruct H as [H | H]; [by left |].
    simpl in H. apply elem_of_cons in H as [-> | H]; [| by right].
    left. apply pretty_N_char_digit.
Qed.

Lemma pretty_N_chars (x : N) c :
  c ∈ String.list_ascii_of_string (pretty x) → c ∈ String.list_ascii_of_string "0123456789".
Proof.
  unfold pretty, pretty_N. destruct (decide (x = 0%N)).
  - simpl. rewrite !elem_of_cons. intros [-> | H]; [by left | by apply elem_of_nil in H].
  - intros H. apply pretty_N_go_chars in H as [H | H]; [done |].
    by apply elem_of_nil in H.
Qed.

Lemma pretty_Z_chars (z : Z) c :
  c ∈ String.list_ascii_of_string (pretty z) → c ∈ String.list_ascii_of_string "-0123456789".
Proof.
  unfold pretty, pretty_Z. destruct z as [|p|p].
  - simpl. rewrite !elem_of_cons. intros [-> | H]; [right; by left | by apply elem_of_nil in H].
  - intros H. apply (pretty_N_chars (Npos p)) in H. simpl. by right.
  - intros H. apply chars_app in H as [H | H].
    + simpl in H. apply list_elem_of_singleton in H as ->. simpl. by left.
    + apply (pretty_N_chars (Npos p)) in H. simpl. by right.
Qed.

(** The ids the context gives its conversations are not ids the server
    gives: a number has no underscore. *)
Lemma context_id_not_made_by_accept (n : Z) : ¬ made_by_accept ("conv_" +:+ pretty n).
Proof.
  intros (now & sender & userId & Heq). simpl in Heq. injection Heq as Heq.
  change (pretty n = pretty now +:+ "_" +:+ sender +:+ "_" +:+ userId) in Heq.
  assert ("_"%char ∈ String.list_ascii_of_string (pretty n)) as H.
  { rewrite Heq. apply chars_app. right. simpl. by left. }
  apply pretty_Z_chars in H. simpl in H. rewrite !elem_of_cons in H.
  repeat (destruct H as [H | H]; [discriminate |]). by apply elem_of_nil in H.
Qed.

Lemma step_conversations_made st e :
  conversations_made st → conversations_made (step st e).1.
Proof.
  intros Hst. unfold conversations_made.
  destruct e as [s | s w now | s data now rnd | s requestId userId now | s data now rnd
                 | s c u n | s c u | s | s w now]; cbn [step].
  - unfold connection. cbn [fst]. by rewrite globalData_join.
  - unfold user_login. cbn [fst]. by rewrite globalData_join.
  - done.
  - unfold accept_friend_request.
    destruct (list_find _ _) as [[i r]|]; [| done].
    cbn [fst globalData set_globalData conversations]. intros k Hk.
    match type of Hk with
    | is_Some (<[?k0 := _]> _ !! _) => destruct (decide (k = k0)) as [-> | Hne]
    end.
    + by eexists _, _, _.
    + rewrite lookup_insert_ne in Hk by done. by apply Hst.
  - unfold send_message. cbn [fst globalData set_globalData conversations].
    intros k Hk. apply Hst. destruct Hk as [c Hc].
    destruct (decide (k = md_conversationId data)) as [-> | Hne].
    + rewrite lookup_alter_eq in Hc.
      destruct (conversations (globalData st) !! md_conversationId data); [done |].
      discriminate.
    + rewrite lookup_alter_ne in Hc by done. by eexists.
  - done.
  - done.
  - done.
  - unfold heartbeat. by destruct (Js.get _ _).
Qed.

Lemma serve_conversations_made st i :
  conversations_made st → conversations_made (serve st i).
Proof.
  intros Hst. destruct i as [e | body now |]; cbn [serve].
  - by apply step_conversations_made.
  - unfold post_users. by destruct (SyncServer.find_username _ _).
  - done.
Qed.

Lemma reached_conversations_made inputs :
  conversations_made (foldl serve initial inputs).
Proof.
  assert (∀ st, conversations_made st → conversations_made (foldl serve st inputs)) as H.
  { induction inputs as [|i inputs IH]; intros st Hst; [done |].
    simpl. by apply IH, serve_conversations_made. }
  apply H. intros k [c Hc]. simpl in Hc. by rewrite lookup_empty in Hc.
Qed.

End ConversationIds.

(** X20.  A message sent from the connected context in a conversation of
    the context's own making reaches nobody.  The context names its
    conversations conv_<number>, the server names the conversations it
    stores conv_<number>_<sender>_<user>, so the server, whatever it has
    processed before, knows no conversation under the id the context
    sends: it files the message under that id but pushes it to no socket,
    neither the receiver's nor the sender's, and the context itself stores
    nothing when the socket is connected. *)
Theorem connected_message_in_context_conversation_reaches_nobody
    (inputs : list ChatServer.Input) (ctx : ChatContext.State) (n : Z)
    (receiverId content sid rnd : string) (t now : Z) :
  ChatContext.isConnected ctx = true →
  ChatContext.receiver_of ctx ("conv_" +:+ pretty n) = Some receiverId →
  let conversationId := "conv_" +:+ pretty n in
  let st := foldl ChatServer.serve ChatServer.initial inputs in
  let data := {| ChatServer.md_conversationId := conversationId;
                 ChatServer.md_senderId := ChatContext.cur ctx;
                 ChatServer.md_content := content;
                 ChatServer.md_receiverId := receiverId |} in
  let r := ChatServer.step st
             (ChatContext.Socket.arrives sid now rnd
                (ChatContext.Socket.EmitSendMessage data)) in
  ChatContext.Socket.sendMessage ctx conversationId content t
    = (ctx, [ChatContext.Socket.EmitSendMessage data])
  ∧ r.2 = []
  ∧ ChatServer.conversations (ChatServer.globalData r.1) !! conversationId = None
  ∧ ChatServer.messages (ChatServer.globalData r.1) !! conversationId
    = Some (default [] (ChatServer.messages (ChatServer.globalData st) !! conversationId)
            ++ [ChatServer.new_message data now rnd]).
Proof.
  intros Hconn Hrecv conversationId st data r.
  assert (ChatServer.conversations (ChatServer.globalData st) !! conversationId = None)
    as Hnone.
  { destruct (ChatServer.conversations (ChatServer.globalData st) !! conversationId)
      as [c|] eqn:Hc; [| done].
    destruct (context_id_not_made_by_accept n).
    apply (reached_conversations_made inputs). fold st. by eexists. }
  assert (alter (ChatServer.touch (ChatServer.new_message data now rnd) now) conversationId
            (ChatServer.conversations (ChatServer.globalData st)) !! conversationId = None)
    as Hnone'.
  { by rewrite lookup_alter_eq, Hnone. }
  split_and!.
  - unfold ChatContext.Socket.sendMessage. fold conversationId in Hrecv.
    by rewrite Hrecv, Hconn.
  - unfold r. cbn [ChatContext.Socket.arrives ChatServer.step].
    unfold ChatServer.send_message. cbn [snd ChatServer.md_conversationId data].
    by rewrite Hnone'.
  - unfold r. cbn [ChatContext.Socket.arrives ChatServer.step].
    unfold ChatServer.send_message.
    cbn [fst ChatServer.md_conversationId data ChatServer.globalData
         ChatServer.set_globalData ChatServer.conversations].
    exact Hnone'.
  - unfold r. cbn [ChatContext.Socket.arrives ChatServer.step].
    unfold ChatServer.send_message.
    cbn [fst ChatServer.md_conversationId data ChatServer.globalData
         ChatServer.set_globalData ChatServer.messages].
    apply lookup_insert_eq.
Qed.

Lemma connected_message_in_context_conversation_reaches_nobody_witness :
  let ctx := (ChatContext.createConversation Scenario.alice_connected "B" 5000).2 in
  ChatContext.isConnected ctx = true
  ∧ ChatContext.receiver_of ctx ("conv_" +:+ pretty 5000%Z) = Some "B"
  ∧ (ChatServer.step
       (foldl ChatServer.serve ChatServer.initial
          [ChatServer.Socket (ChatServer.Connection "sA");
           ChatServer.Socket (ChatServer.UserLogin "sA" Scenario.alice 1000);
           ChatServer.Socket (ChatServer.Connection "sB");
           ChatServer.Socket (ChatServer.UserLogin "sB" Scenario.bob 2000)])
       (ChatContext.Socket.arrives "sA" 6000 "r1"
          (ChatContext.Socket.EmitSendMessage
             {| ChatServer.md_conversationId := "conv_" +:+ pretty 5000%Z;
                ChatServer.md_senderId := ChatContext.cur ctx;
                ChatServer.md_content := "hello";
                ChatServer.md_receiverId := "B" |}))).2 = [].
Proof.
  intros ctx.
  assert (ChatContext.isConnected ctx = true) as H1 by reflexivity.
  assert (ChatContext.receiver_of ctx ("conv_" +:+ pretty 5000%Z) = Some "B") as H2.
  { vm_compute. reflexivity. }
  split_and!; [exact H1 | exact H2 |].
  exact (proj1 (proj2 (connected_message_in_context_conversation_reaches_nobody
                         _ ctx 5000 "B" "hello" "sA" "r1" 7000 6000 H1 H2))).
Defined.

Section Accepting.

Import ChatContext.

Lemma find_None_filter {A} (P : A → Prop) `{!∀ x, Decision (P x)} (l : list A) :
  find P l = None → filter (fun x => ¬ P x) l = l.
Proof.
  induction l as [|x l IH]; [done |].
  rewrite find_cons. destruct (decide (P x)) as [HP | HP]; [done |].
  intros Hl. rewrite filter_cons_True by done. by rewrite IH.
Qed.

Lemma find_Some_holds {A} (P : A → Prop) `{!∀ x, Decision (P x)} (l : list A) x :
  find P l = Some x → P x ∧ x ∈ l.
Proof.
  induction l as [|y l IH]; [done |].
  rewrite find_cons. destruct (decide (P y)) as [HP | HP].
  - intros [= ->]. split; [done | by left].
  - intros Hl. destruct (IH Hl) as [H1 H2]. split; [done | by right].
Qed.

Lemma createConversation_keeps st u now :
  friendRequests (createConversation st u now).2 = friendRequests st
  ∧ users (createConversation st u now).2 = users st
  ∧ localStorage (createConversation st u now).2 = localStorage st.
Proof. unfold createConversation. by destruct (find _ (conversations st)). Qed.

End Accepting.

(** X21.  What accepting a friend request does at its edges, in both
    contexts (each instantiates [acceptFriendRequest_with] with its status
    query).  Whatever happens, the requests left are those with another
    id, in their order.  With no request under the id the state is
    unchanged; when the sender is not in the shared user database the
    call does what [rejectFriendRequest] does, and no friend and no
    conversation is added; when the sender is there exactly one friend is
    appended, with the sender's id, and the conversations of the context
    stay one per pair. *)
Theorem accept_in_context_at_its_edges
    (status_of : ChatContext.Storage → string → Z → Presence * ChatContext.Storage)
    (fallback requestId : string) (st : ChatContext.State) (now : Z) :
  let st' := ChatContext.acceptFriendRequest_with status_of fallback st requestId now in
  let request :=
    ChatContext.find (fun req => FriendRequest.id req = requestId)
                     (ChatContext.friendRequests st) in
  let sender_of (r : FriendRequest.t) :=
    ChatContext.find (fun u => ChatContext.Registered.id u = FriendRequest.senderId r)
                     (ChatContext.getAllRegisteredUsers st) in
  ChatContext.friendRequests st'
    = filter (fun req => FriendRequest.id req ≠ requestId) (ChatContext.friendRequests st)
  ∧ (request = None → st' = st)
  ∧ (∀ r, request = Some r → sender_of r = None →
          st' = ChatContext.rejectFriendRequest st requestId now
          ∧ ChatContext.users st' = ChatContext.users st
          ∧ ChatContext.conversations st' = ChatContext.conversations st)
  ∧ (∀ r, request = Some r → is_Some (sender_of r) →
          ∃ friend, ChatContext.users st' = ChatContext.users st ++ [friend]
                    ∧ User.id friend = FriendRequest.senderId r)
  ∧ (ChatContext.one_per_pair st → ChatContext.one_per_pair st').
Proof.
  intros st' request sender_of.
  split_and!.
  - unfold st', ChatContext.acceptFriendRequest_with.
    destruct (ChatContext.find _ (ChatContext.friendRequests st)) as [r|] eqn:Hr.
    + cbv zeta.
      destruct (ChatContext.find _ (ChatContext.getAllRegisteredUsers st)) as [senderUser|];
        [| done].
      destruct (status_of _ _ _) as [presence ls1]. simpl.
      by rewrite (proj1 (createConversation_keeps _ _ _)).
    + symmetry. by apply find_None_filter.
  - intros Hnone. unfold st', ChatContext.acceptFriendRequest_with.
    fold request. by rewrite Hnone.
  - intros r Hr Hsender. unfold st', ChatContext.acceptFriendRequest_with.
    fold request. rewrite Hr. cbv zeta. fold (sender_of r). by rewrite Hsender.
  - intros r Hr [senderUser Hsender]. unfold st', ChatContext.acceptFriendRequest_with.
    fold request. rewrite Hr. cbv zeta. fold (sender_of r). rewrite Hsender.
    apply find_Some_holds in Hsender as [Hid _].
    destruct (status_of _ _ _) as [presence ls1]. simpl.
    rewrite (proj1 (proj2 (createConversation_keeps _ _ _))). simpl. by eexists.
  - apply acceptFriendRequest_one_per_pair.
Qed.

Lemma accept_in_context_at_its_edges_witness :
  ChatContext.one_per_pair Scenario.alice_offline
  ∧ ChatContext.one_per_pair
      (ChatContext.acceptFriendRequest_with ChatContext.Local.getUserOnlineStatus "?"
         Scenario.alice_offline "req_1" 3000).
Proof.
  assert (ChatContext.one_per_pair Scenario.alice_offline) as H by (split; constructor).
  split; [exact H |].
  exact (proj2 (proj2 (proj2 (proj2
           (accept_in_context_at_its_edges ChatContext.Local.getUserOnlineStatus "?" "req_1"
              Scenario.alice_offline 3000)))) H).
Defined.

Section OverTheSocket.

Import ChatContext.

Lemma on_events_cons st l e es :
  Socket.on_events st l (e :: es)
  = Socket.on_events (Socket.on_event st l e).1 (Socket.on_event st l e).2 es.
Proof. unfold Socket.on_events. simpl. by destruct (Socket.on_event st l e). Qed.

Lemma on_events_inert : ∀ es st l,
  Forall (fun e => match e with
                   | ChatServer.MessageReceived _ _ | ChatServer.FriendRequestReceived _ => False
                   | _ => True
                   end) es →
  (Socket.on_events st l es).1 = st.
Proof.
  induction es as [|e es IH]; intros st l Hes; [done |].
  apply Forall_cons in Hes as [He Hes]. rewrite on_events_cons, IH by done.
  by destruct e.
Qed.

Lemma on_event_keeps_request st l e r :
  r ∈ friendRequests st → r ∈ friendRequests (Socket.on_event st l e).1.
Proof.
  intros Hr. destruct e; try done.
  simpl. apply elem_of_app. by left.
Qed.

Lemma on_events_keep_request r : ∀ es st l,
  r ∈ friendRequests st → r ∈ friendRequests (Socket.on_events st l es).1.
Proof.
  induction es as [|e es IH]; intros st l Hr; [done |].
  rewrite on_events_cons. by apply IH, on_event_keeps_request.
Qed.

Lemma on_events_requests r : ∀ es st l,
  ChatServer.FriendRequestReceived r ∈ es →
  r ∈ friendRequests (Socket.on_events st l es).1.
Proof.
  induction es as [|e es IH]; intros st l Hin; [by apply elem_of_nil in Hin |].
  rewrite on_events_cons. apply elem_of_cons in Hin as [<- | Hin].
  - apply on_events_keep_request. simpl. apply elem_of_app. right. apply list_elem_of_here.
  - by apply IH.
Qed.

Lemma elem_of_pushed_to sid e out :
  e ∈ Hook.pushed_to sid out ↔ (sid, e) ∈ out.
Proof.
  unfold Hook.pushed_to. rewrite list_elem_of_fmap. split.
  - intros ([s e'] & -> & H). apply list_elem_of_filter in H as [Hs H].
    simpl in Hs. by subst s.
  - intros H. exists (sid, e). split; [done |]. by apply list_elem_of_filter.
Qed.

End OverTheSocket.

(** X22.  A friend request over the socket.  When the connected context
    accepts to send a request (the call returns true), it stores nothing
    itself and emits one send-friend-request event naming the current user
    and the user it found.  When that event reaches the server, a context
    whose socket is in the receiver's room at that time gets the request
    into its list of friend requests; the context of any other socket
    stays as it is.  What the server pushes at a login never changes a
    context: the stored requests handed over with friend-requests-update
    are not taken up. *)
Theorem friend_request_over_the_socket
    (parseInt : string → option Z) (ctxA : ChatContext.State) (username : string) (t : Z) :
  ChatContext.isConnected ctxA = true →
  (ChatContext.Socket.sendFriendRequest parseInt ctxA username t).1.1 = true →
  ∃ found,
    ChatContext.Local.foundUser parseInt ctxA username = Some found
    ∧ ChatContext.Registered.id found ≠ ChatContext.cur ctxA
    ∧ let data := {| ChatServer.fr_senderId := ChatContext.cur ctxA;
                     ChatServer.fr_receiverId := ChatContext.Registered.id found;
                     ChatServer.fr_senderData := ChatContext.currentUser ctxA |} in
      ChatContext.Socket.sendFriendRequest parseInt ctxA username t
        = (true, ctxA, [ChatContext.Socket.EmitSendFriendRequest data])
      ∧ ∀ (st : ChatServer.State) (sA sB rnd : string) (now : Z)
          (ctxB : ChatContext.State) (lB : list ChatServer.OnlineEntry),
          let out := (ChatServer.step st
                        (ChatContext.Socket.arrives sA now rnd
                           (ChatContext.Socket.EmitSendFriendRequest data))).2 in
          let r := {| FriendRequest.id := "req_" +:+ pretty now +:+ "_" +:+ rnd;
                      FriendRequest.senderId := ChatContext.cur ctxA;
                      FriendRequest.receiverId := ChatContext.Registered.id found;
                      FriendRequest.senderName := User.name (ChatContext.currentUser ctxA);
                      FriendRequest.senderUsername :=
                        User.shown (ChatContext.currentUser ctxA);
                      FriendRequest.senderAvatar :=
                        User.avatar (ChatContext.currentUser ctxA);
                      FriendRequest.timestamp := Js.IsoOf now;
                      FriendRequest.status := pending |} in
          (sB ∈ ChatServer.members
                  (ChatServer.user_room (ChatContext.Registered.id found)) st →
           r ∈ ChatContext.friendRequests
                 (ChatContext.Socket.on_events ctxB lB (Hook.pushed_to sB out)).1)
          ∧ (sB ∉ ChatServer.members
                    (ChatServer.user_room (ChatContext.Registered.id found)) st →
             (ChatContext.Socket.on_events ctxB lB (Hook.pushed_to sB out)).1 = ctxB)
          ∧ (∀ (st2 : ChatServer.State) (uB : User.t) (now2 : Z),
               (ChatContext.Socket.on_events ctxB lB
                  (Hook.pushed_to sB (ChatServer.user_login st2 sB uB now2).2)).1 = ctxB).
Proof.
  intros Hconn Htrue.
  unfold ChatContext.Socket.sendFriendRequest in *.
  destruct (ChatContext.find _ (ChatContext.users ctxA)); [done |].
  destruct (ChatContext.Local.foundUser parseInt ctxA username) as [found|]; [| done].
  destruct (decide (ChatContext.Registered.id found ≠ ChatContext.cur ctxA)) as [Hne |];
    [| done].
  destruct (ChatContext.existingRequest ctxA (ChatContext.Registered.id found)); [done |].
  rewrite Hconn in *. exists found. split; [done |]. split; [done |].
  cbv zeta. split; [done |].
  intros st sA sB rnd now ctxB lB. split_and!.
  - intros Hin. apply on_events_requests. apply elem_of_pushed_to.
    cbn [ChatContext.Socket.arrives ChatServer.step].
    unfold ChatServer.send_friend_request. cbn [snd].
    apply elem_of_app. left. unfold ChatServer.io_to.
    apply list_elem_of_fmap. exists sB. split; [done | exact Hin].
  - intros Hnin. apply on_events_inert. apply Forall_forall. intros e He.
    apply elem_of_pushed_to in He.
    cbn [ChatContext.Socket.arrives ChatServer.step] in He.
    unfold ChatServer.send_friend_request in He. cbn [snd] in He.
    apply elem_of_app in He as [He | He].
    + unfold ChatServer.io_to in He. apply list_elem_of_fmap in He as (s & [= -> ->] & Hs).
      by destruct Hnin.
    + unfold ChatServer.socket_emit in He. by apply list_elem_of_singleton in He as [= -> ->].
  - intros st2 uB now2. apply on_events_inert. apply Forall_forall. intros e He.
    apply elem_of_pushed_to in He. unfold ChatServer.user_login in He. cbn [snd] in He.
    rewrite !elem_of_app in He. destruct He as [He | [He | He]].
    + unfold ChatServer.socket_broadcast in He.
      by apply list_elem_of_fmap in He as (s & [= -> ->] & Hs).
    + unfold ChatServer.socket_emit in He. by apply list_elem_of_singleton in He as [= ->].
    + unfold ChatServer.socket_emit in He. by apply list_elem_of_singleton in He as [= ->].
Qed.

Lemma friend_request_over_the_socket_witness :
  ChatContext.isConnected Scenario.alice_connected = true
  ∧ (ChatContext.Socket.sendFriendRequest (fun _ => None) Scenario.alice_connected
       "bob" 10000).1.1 = true
  ∧ ∃ found,
      ChatContext.Local.foundUser (fun _ => None) Scenario.alice_connected "bob"
      = Some found.
Proof.
  assert (ChatContext.isConnected Scenario.alice_connected = true) as H1 by reflexivity.
  assert ((ChatContext.Socket.sendFriendRequest (fun _ => None) Scenario.alice_connected
             "bob" 10000).1.1 = true) as H2.
  { vm_compute. reflexivity. }
  split; [exact H1 | split; [exact H2 |]].
  destruct (friend_request_over_the_socket (fun _ => None) Scenario.alice_connected
              "bob" 10000 H1 H2) as (found & Hfound & _).
  exists found. exact Hfound.
Defined.

Section BetweenTabs.

Import ChatContext.

Lemma local_query_keeps_friends ls userId now :
  friends_ (Local.getUserOnlineStatus ls userId now).2 = friends_ ls.
Proof.
  unfold Local.getUserOnlineStatus.
  destruct (match user_status_ ls !! userId with
            | Some StatusEmpty | None => global_user_status_ ls !! userId
            | Some b => Some b
            end) as [[| |d]|]; try done.
  by destruct (decide _).
Qed.

Lemma find_app_fresh {A} (P : A → Prop) `{!∀ x, Decision (P x)} (l : list A) x :
  Forall (fun y => ¬ P y) l → P x → find P (l ++ [x]) = Some x.
Proof.
  induction l as [|y l IH]; intros Hl Hx.
  - simpl. rewrite find_cons. by rewrite decide_True.
  - apply Forall_cons in Hl as [Hy Hl]. rewrite <- app_comm_cons, find_cons.
    rewrite decide_False by done. by apply IH.
Qed.

Lemma local_send_found parseInt st username now :
  (Local.sendFriendRequest parseInt st username now).1 = true →
  ∃ found,
    Local.foundUser parseInt st username = Some found
    ∧ Registered.id found ≠ cur st
    ∧ friend_requests_ (localStorage (Local.sendFriendRequest parseInt st username now).2)
      = push_request (Registered.id found) (new_request st (Registered.id found) now)
                     (friend_requests_ (localStorage st))
    ∧ shared_registered_users_db
        (localStorage (Local.sendFriendRequest parseInt st username now).2)
      = shared_registered_users_db (localStorage st)
    ∧ friends_ (localStorage (Local.sendFriendRequest parseInt st username now).2)
      = friends_ (localStorage st).
Proof.
  unfold Local.sendFriendRequest.
  destruct (find _ (users st)); [done |].
  destruct (Local.foundUser parseInt st username) as [found|]; [| done].
  destruct (decide (Registered.id found ≠ cur st)) as [Hne |]; [| done].
  destruct (existingRequest st (Registered.id found)); [done |].
  intros _. by exists found.
Qed.

Lemma load_users u ls l :
  friends_ ls !! User.id u = Some l → users (loadPersistedData (mount u ls)) = l.
Proof.
  intros H. unfold loadPersistedData, cur.
  cbn [localStorage mount currentUser]. rewrite H.
  by destruct (conversations_ ls !! User.id u), (messages_ ls !! User.id u),
    (friend_requests_ ls !! User.id u).
Qed.

Lemma local_send_keeps parseInt st username now :
  users (Local.sendFriendRequest parseInt st username now).2 = users st
  ∧ currentUser (Local.sendFriendRequest parseInt st username now).2 = currentUser st.
Proof.
  unfold Local.sendFriendRequest.
  destruct (find _ (users st)); [done |].
  destruct (Local.foundUser parseInt st username) as [found|]; [| done].
  destruct (decide (Registered.id found ≠ cur st)); [| done].
  by destruct (existingRequest st (Registered.id found)).
Qed.

(** What the tab writes under its friends key after a status refresh: its
    own friends, with the statuses of the refresh. *)
Lemma refreshed_friends_written st now :
  friends_ (localStorage (persist_friends (Local.refresh_statuses st now))) !! cur st
  = Some ((fun u => with_presence
                      (Local.getUserOnlineStatus (localStorage st) (User.id u) now).1 u)
            <$> users st).
Proof.
  pose proof (local_refresh_with now (users st) (localStorage st)) as Hrefresh.
  unfold Local.refresh_statuses, refresh_statuses_with.
  destruct (refresh_with Local.getUserOnlineStatus (localStorage st) (users st) now)
    as [users' ls'].
  simpl in Hrefresh. subst users'. unfold persist_friends. simpl.
  apply lookup_insert_eq.
Qed.

End BetweenTabs.

(** X23.  A friend request between two tabs on one localStorage, in the
    localStorage-only context.  When [sendFriendRequest] of user A's tab
    returns true, the request is the last one under the found user's key,
    so that the found user's tab, seeing that store, has it last in its
    list once its storage listener has reloaded the requests.  When that
    tab accepts it (A being in the shared user database, the request id not
    being in use in the list, and the tab's conversations being one per
    pair), it gets A as one new friend and has exactly one conversation
    with A, the request leaves its list, and the accepting user is appended
    to A's stored friends.  A tab of A mounted on the store as the accept
    left it loads that list.  The tab of A that sent the request, when it
    is still open, instead writes its own friends back under the key at
    its next status refresh: the stored list then names exactly the
    friends that tab had. *)
Theorem friend_request_between_tabs
    (parseInt : string → option Z) (ctxA ctxB : ChatContext.State) (username : string)
    (t t2 : Z) (found regA : ChatContext.Registered.t) :
  let sent := ChatContext.Local.sendFriendRequest parseInt ctxA username t in
  let r := ChatContext.new_request ctxA (ChatContext.cur ctxB) t in
  let before :=
    default [] (ChatContext.friend_requests_ (ChatContext.localStorage ctxA)
                  !! ChatContext.cur ctxB) in
  sent.1 = true →
  ChatContext.Local.foundUser parseInt ctxA username = Some found →
  ChatContext.cur ctxB = ChatContext.Registered.id found →
  ChatContext.localStorage ctxB = ChatContext.localStorage sent.2 →
  ChatContext.find (fun u => ChatContext.Registered.id u = ChatContext.cur ctxA)
                   (ChatContext.getAllRegisteredUsers ctxA) = Some regA →
  Forall (fun req => FriendRequest.id req ≠ FriendRequest.id r) before →
  ChatContext.one_per_pair ctxB →
  let ctxB1 := ChatContext.reload_requests ctxB in
  let ctxB2 := ChatContext.Local.acceptFriendRequest ctxB1 (FriendRequest.id r) t2 in
  ChatContext.friendRequests ctxB1 = before ++ [r]
  ∧ ChatContext.friendRequests ctxB2 = before
  ∧ (∃ friend, ChatContext.users ctxB2 = ChatContext.users ctxB ++ [friend]
               ∧ User.id friend = ChatContext.cur ctxA)
  ∧ length (ChatContext.conversations_with (ChatContext.cur ctxA) ctxB2) = 1
  ∧ (∃ me, User.id me = ChatContext.cur ctxB
           ∧ ChatContext.friends_ (ChatContext.localStorage ctxB2) !! ChatContext.cur ctxA
             = Some (default [] (ChatContext.friends_ (ChatContext.localStorage ctxA)
                                   !! ChatContext.cur ctxA) ++ [me])
           ∧ ChatContext.users
               (ChatContext.loadPersistedData
                  (ChatContext.mount (ChatContext.currentUser ctxA)
                     (ChatContext.localStorage ctxB2)))
             = default [] (ChatContext.friends_ (ChatContext.localStorage ctxA)
                             !! ChatContext.cur ctxA) ++ [me])
  ∧ (∀ now3,
       let open := ChatContext.setStorage (fun _ => ChatContext.localStorage ctxB2) sent.2 in
       let refreshed := ChatContext.Local.refresh_statuses open now3 in
       ∃ stored,
         ChatContext.friends_ (ChatContext.localStorage (ChatContext.persist_friends refreshed))
           !! ChatContext.cur ctxA = Some stored
         ∧ User.id <$> stored = User.id <$> ChatContext.users ctxA).
Proof.
  intros sent r before Htrue Hfound HcurB Hstore HregA Hfresh HpairB ctxB1 ctxB2.
  assert (∀ ls now3,
       let open := ChatContext.setStorage (fun _ => ls) sent.2 in
       let refreshed := ChatContext.Local.refresh_statuses open now3 in
       ∃ stored,
         ChatContext.friends_ (ChatContext.localStorage (ChatContext.persist_friends refreshed))
           !! ChatContext.cur ctxA = Some stored
         ∧ User.id <$> stored = User.id <$> ChatContext.users ctxA) as Hopen.
  { intros ls now3 open refreshed.
    destruct (local_send_keeps parseInt ctxA username t) as [Husers Huser].
    fold sent in Husers, Huser.
    assert (ChatContext.cur open = ChatContext.cur ctxA) as Hcur.
    { unfold open, ChatContext.cur. simpl. by rewrite Huser. }
    eexists. split.
    - rewrite <- Hcur. apply refreshed_friends_written.
    - rewrite <- list_fmap_compose. unfold open. simpl. rewrite Husers.
      by apply list_fmap_ext. }
  destruct (local_send_found parseInt ctxA username t Htrue)
    as (found' & Hfound' & Hne & Hreqs & Hdb & Hfriends).
  fold sent in Hreqs, Hdb, Hfriends.
  rewrite Hfound in Hfound'. injection Hfound' as <-. rewrite <- HcurB in Hne, Hreqs.
  assert (ChatContext.friendRequests ctxB1 = before ++ [r]) as Hinbox.
  { unfold ctxB1, ChatContext.reload_requests. rewrite Hstore, Hreqs.
    unfold ChatContext.push_request. by rewrite lookup_insert_eq. }
  assert (ChatContext.cur ctxB1 = ChatContext.cur ctxB) as Hcur1.
  { unfold ctxB1, ChatContext.reload_requests.
    by destruct (ChatContext.friend_requests_ (ChatContext.localStorage ctxB) !! _). }
  assert (ChatContext.users ctxB1 = ChatContext.users ctxB
          ∧ ChatContext.conversations ctxB1 = ChatContext.conversations ctxB
          ∧ ChatContext.localStorage ctxB1 = ChatContext.localStorage ctxB
          ∧ ChatContext.currentUser ctxB1 = ChatContext.currentUser ctxB)
    as (Husers1 & Hconvs1 & Hls1 & Huser1).
  { unfold ctxB1, ChatContext.reload_requests.
    by destruct (ChatContext.friend_requests_ (ChatContext.localStorage ctxB) !! _). }
  assert (ChatContext.one_per_pair ctxB1) as Hpair1.
  { by apply (one_per_pair_same ctxB). }
  assert (ChatContext.find (fun req => FriendRequest.id req = FriendRequest.id r)
            (ChatContext.friendRequests ctxB1) = Some r) as Hreq.
  { rewrite Hinbox. by apply find_app_fresh. }
  assert (ChatContext.find
            (fun u => ChatContext.Registered.id u = FriendRequest.senderId r)
            (ChatContext.getAllRegisteredUsers ctxB1) = Some regA) as Hsender.
  { unfold ChatContext.getAllRegisteredUsers. rewrite Hls1, Hstore, Hdb. exact HregA. }
  pose proof (find_Some_holds _ _ _ HregA) as [HidA _].
  unfold ctxB2, ChatContext.Local.acceptFriendRequest, ChatContext.acceptFriendRequest_with.
  rewrite Hreq. cbv zeta. rewrite Hsender.
  pose proof (local_query_keeps_friends (ChatContext.localStorage ctxB1)
                (ChatContext.Registered.id regA) t2) as Hkeep.
  destruct (ChatContext.Local.getUserOnlineStatus (ChatContext.localStorage ctxB1)
              (ChatContext.Registered.id regA) t2) as [presence ls1].
  cbn [snd] in Hkeep.
  set (chatUser := {| User.id := ChatContext.Registered.id regA;
                      User.name := ChatContext.Registered.name regA;
                      User.username :=
                        Js.or_else (ChatContext.Registered.displayUsername regA)
                                   (ChatContext.Registered.username regA);
                      User.displayUsername := None;
                      User.avatar := Js.or_else (ChatContext.Registered.avatar regA) _;
                      User.status := presence |}).
  set (st_a := ChatContext.setUsers (fun prev => prev ++ [chatUser])
                 (ChatContext.setStorage (fun _ => ls1) ctxB1)).
  assert (ChatContext.one_per_pair st_a) as Hpair_a by (by apply (one_per_pair_same ctxB1)).
  assert (ChatContext.Registered.id regA ≠ ChatContext.cur st_a) as Hne_a.
  { change (ChatContext.cur st_a) with (ChatContext.cur ctxB1).
    rewrite Hcur1, HidA. by intros Heq. }
  destruct (createConversation_spec st_a (ChatContext.Registered.id regA) t2 t2
              Hpair_a Hne_a) as (_ & _ & Hone & _).
  destruct (createConversation_keeps st_a (ChatContext.Registered.id regA) t2)
    as (Hkeep_reqs & Hkeep_users & Hkeep_ls).
  change (ChatContext.localStorage st_a) with ls1 in Hkeep_ls.
  pose proof (cur_createConversation st_a (ChatContext.Registered.id regA) t2) as Hkeep_cur.
  split_and!.
  - exact Hinbox.
  - cbn [ChatContext.rejectFriendRequest ChatContext.friendRequests
         ChatContext.setStorage ChatContext.setFriendRequests].
    rewrite Hkeep_reqs. change (ChatContext.friendRequests st_a)
      with (ChatContext.friendRequests ctxB1).
    rewrite Hinbox, filter_app, filter_cons_False, filter_nil, app_nil_r
      by (intros H; by apply H).
    clear -Hfresh. induction Hfresh as [|x l Hx Hl IH]; [done |].
    rewrite filter_cons_True by done. by rewrite IH.
  - exists chatUser. split; [| exact HidA].
    cbn [ChatContext.rejectFriendRequest ChatContext.users
         ChatContext.setStorage ChatContext.setFriendRequests].
    rewrite Hkeep_users. simpl. by rewrite Husers1.
  - rewrite <- HidA. unfold ChatContext.conversations_with in *.
    cbn [ChatContext.rejectFriendRequest ChatContext.conversations ChatContext.cur
         ChatContext.currentUser ChatContext.setStorage ChatContext.setFriendRequests].
    exact Hone.
  - eexists. split; [| split; [| apply load_users]].
    2, 3: cbn [ChatContext.rejectFriendRequest ChatContext.localStorage
               ChatContext.setStorage ChatContext.setFriendRequests ChatContext.friends_];
      change (FriendRequest.senderId r) with (ChatContext.cur ctxA);
      change (User.id (ChatContext.currentUser ctxA)) with (ChatContext.cur ctxA);
      rewrite lookup_insert_eq, Hkeep_ls, Hkeep, Hls1, Hstore, Hfriends; reflexivity.
    simpl. exact Hcur1.
  - intros now3. apply Hopen.
Qed.

Lemma friend_request_between_tabs_witness :
  let sent := ChatContext.Local.sendFriendRequest (fun _ => None)
                Scenario.alice_offline "bob" 10000 in
  let ctxB := ChatContext.mount Scenario.bob (ChatContext.localStorage sent.2) in
  sent.1 = true
  ∧ ChatContext.one_per_pair ctxB
  ∧ ChatContext.friendRequests
      (ChatContext.Local.acceptFriendRequest (ChatContext.reload_requests ctxB)
         (FriendRequest.id (ChatContext.new_request Scenario.alice_offline "B" 10000))
         20000)
    = [].
Proof.
  intros sent ctxB.
  pose (regA := {| ChatContext.Registered.id := "A"; ChatContext.Registered.name := "Alice";
                   ChatContext.Registered.username := "alice";
                   ChatContext.Registered.displayUsername := Some "#1";
                   ChatContext.Registered.sequentialId := Some 1%nat;
                   ChatContext.Registered.avatar := Some "a" |}).
  pose (regB := {| ChatContext.Registered.id := "B"; ChatContext.Registered.name := "Bob";
                   ChatContext.Registered.username := "bob";
                   ChatContext.Registered.displayUsername := Some "#2";
                   ChatContext.Registered.sequentialId := Some 2%nat;
                   ChatContext.Registered.avatar := Some "b" |}).
  assert (sent.1 = true) as H1 by (vm_compute; reflexivity).
  assert (ChatContext.Local.foundUser (fun _ => None) Scenario.alice_offline "bob"
          = Some regB) as H2 by (vm_compute; reflexivity).
  assert (ChatContext.cur ctxB = ChatContext.Registered.id regB) as H3 by reflexivity.
  assert (ChatContext.localStorage ctxB = ChatContext.localStorage sent.2) as H4
    by reflexivity.
  assert (ChatContext.find
            (fun u => ChatContext.Registered.id u = ChatContext.cur Scenario.alice_offline)
            (ChatContext.getAllRegisteredUsers Scenario.alice_offline) = Some regA) as H5
    by (vm_compute; reflexivity).
  assert (Forall (fun req => FriendRequest.id req
                             ≠ FriendRequest.id
                                 (ChatContext.new_request Scenario.alice_offline
                                    (ChatContext.cur ctxB) 10000))
            (default [] (ChatContext.friend_requests_
                           (ChatContext.localStorage Scenario.alice_offline)
                           !! ChatContext.cur ctxB))) as H6.
  { vm_compute. constructor. }
  assert (ChatContext.one_per_pair ctxB) as H7 by (split; constructor).
  split; [exact H1 | split; [exact H7 |]].
  exact (proj1 (proj2 (friend_request_between_tabs (fun _ => None) Scenario.alice_offline
                         ctxB "bob" 10000 20000 regB regA H1 H2 H3 H4 H5 H6 H7))).
Defined.

Section FileRegistry.

Import FileServer.

Lemma serve_written file r :
  readData (serve file r Written).1 = SyncServer.serve (readData file) r
  ∧ (serve file r Written).2 = in_memory (readData file) r.
Proof.
  destruct r as [body now | userId updateData |]; cbn [serve in_memory SyncServer.serve].
  - unfold post_users, SyncServer.post_users.
    by destruct (SyncServer.find_username _ _).
  - unfold put_users, SyncServer.put_users.
    by destruct (list_find _ _) as [[i u]|].
  - done.
Qed.

Lemma serve_thrown file r remains :
  let res := serve file r (Thrown remains) in
  (res.1 = remains ∧ ∃ error, res.2 = Status500 error)
  ∨ (res.1 = file ∧ res.2 = in_memory (readData file) r
     ∧ SyncServer.serve (readData file) r = readData file).
Proof.
  destruct r as [body now | userId updateData |]; cbn [serve in_memory SyncServer.serve].
  - unfold post_users, SyncServer.post_users.
    destruct (SyncServer.find_username _ _); [by right | left; split; [done | by eexists]].
  - unfold put_users, SyncServer.put_users.
    destruct (list_find _ _) as [[i u]|]; [left; split; [done | by eexists] | by right].
  - left. split; [done | by eexists].
Qed.

End FileRegistry.

(** X24.  [sync-server.cjs] is [server.cjs] with the registry in a file.
    As long as every write goes through, the file-backed server answers
    every sequence of registrations, updates and resets as the in-memory
    server does on the registry the file holds, and the file holds the
    registry the in-memory server would have; an unreadable file counts as
    the empty registry.  When a write throws, the answer is a 500 and the
    file is what the failed write left; the requests that are refused
    before any write (a taken username, an unknown id) are answered as in
    memory and leave the file alone. *)
Theorem file_server_answers_as_the_memory_server
    (file : FileServer.File) (rs : list SyncServer.Request) :
  FileServer.readData (FileServer.serve_all file rs).1
    = (FileServer.in_memory_all (FileServer.readData file) rs).1
  ∧ (FileServer.serve_all file rs).2
    = (FileServer.in_memory_all (FileServer.readData file) rs).2
  ∧ (FileServer.in_memory_all (FileServer.readData file) rs).1
    = foldl SyncServer.serve (FileServer.readData file) rs
  ∧ (∀ r remains,
       let res := FileServer.serve file r (FileServer.Thrown remains) in
       (res.1 = remains ∧ ∃ error, res.2 = FileServer.Status500 error)
       ∨ (res.1 = file
          ∧ res.2 = FileServer.in_memory (FileServer.readData file) r
          ∧ SyncServer.serve (FileServer.readData file) r = FileServer.readData file)).
Proof.
  split_and!.
  - revert file. induction rs as [|r rs IH]; intros file; [done |].
    cbn [FileServer.serve_all FileServer.in_memory_all].
    destruct (serve_written file r) as [Hfile Hreply].
    destruct (FileServer.serve file r FileServer.Written) as [file1 a].
    cbn [fst snd] in Hfile, Hreply. specialize (IH file1). rewrite Hfile in IH.
    destruct (FileServer.serve_all file1 rs) as [file2 answers].
    by destruct (FileServer.in_memory_all _ rs).
  - revert file. induction rs as [|r rs IH]; intros file; [done |].
    cbn [FileServer.serve_all FileServer.in_memory_all].
    destruct (serve_written file r) as [Hfile Hreply].
    destruct (FileServer.serve file r FileServer.Written) as [file1 a].
    cbn [fst snd] in Hfile, Hreply. specialize (IH file1). rewrite Hfile in IH.
    destruct (FileServer.serve_all file1 rs) as [file2 answers].
    destruct (FileServer.in_memory_all _ rs). simpl in *. by subst.
  - generalize (FileServer.readData file). clear file.
    induction rs as [|r rs IH]; intros data; [done |].
    cbn [FileServer.in_memory_all foldl]. specialize (IH (SyncServer.serve data r)).
    by destruct (FileServer.in_memory_all _ rs).
  - intros r remains. apply serve_thrown.
Qed.

Section Authentication.

Import Auth.

(** A store that [getAllRegisteredUsers] reads as [users] and leaves as it
    is. *)
Lemma getAllRegisteredUsers_again ls users ls1 :
  getAllRegisteredUsers ls = Some (users, ls1) →
  ∀ c, getAllRegisteredUsers
         {| shared_registered_users_db := shared_registered_users_db ls1;
            registered_user_ := registered_user_ ls1;
            shared_user_counter := c |}
       = Some (users,
               {| shared_registered_users_db := shared_registered_users_db ls1;
                  registered_user_ := registered_user_ ls1;
                  shared_user_counter := c |}).
Proof.
  unfold getAllRegisteredUsers.
  destruct (shared_registered_users_db ls) as [| |us] eqn:Hshared; [| done |].
  - destruct (decide _) as [Hpos | Hnone].
    + intros [= <- <-]. done.
    + intros [= <- <-] c. simpl. rewrite Hshared. by rewrite decide_False.
  - intros [= <- <-] c. simpl. by rewrite Hshared.
Qed.

Lemma getAllRegisteredUsers_setShared users ls :
  getAllRegisteredUsers (setShared users ls) = Some (users, setShared users ls).
Proof. done. Qed.

Lemma async_again ls reached server users ls1 :
  getAllRegisteredUsersAsync ls reached server = Some (users, ls1) →
  ∀ c, getAllRegisteredUsers
         {| shared_registered_users_db := shared_registered_users_db ls1;
            registered_user_ := registered_user_ ls1;
            shared_user_counter := c |}
       = Some (users,
               {| shared_registered_users_db := shared_registered_users_db ls1;
                  registered_user_ := registered_user_ ls1;
                  shared_user_counter := c |}).
Proof.
  unfold getAllRegisteredUsersAsync, fetchUsersFromServer. destruct reached.
  - by intros [= <- <-] c.
  - apply getAllRegisteredUsers_again.
Qed.

Lemma same_store ls :
  {| shared_registered_users_db := shared_registered_users_db ls;
     registered_user_ := registered_user_ ls;
     shared_user_counter := shared_user_counter ls |} = ls.
Proof. by destruct ls. Qed.

(** Logging in on a store that reads as a list of users. *)
Lemma handleLogin_on ls users username password :
  getAllRegisteredUsers ls = Some (users, ls) →
  username ≠ "" → password ≠ "" →
  handleLogin ls username password
  = Some (match SyncServer.find_username username users with
          | None =>
              [ToastError "Usuário não encontrado. Você precisa se cadastrar primeiro."]
          | Some user =>
              if decide (UserData.password user = password)
              then [ToastSuccess "Login realizado com sucesso!"; OnLogin user]
              else [ToastError "Senha incorreta."]
          end, ls).
Proof.
  intros Hread Hu Hp. unfold handleLogin, validateLogin.
  rewrite decide_False by (by intros [? | ?]). rewrite Hread.
  destruct (SyncServer.find_username username users) as [user|]; [| done].
  by destruct (decide _).
Qed.

End Authentication.

Section Registering.

Import Auth.

Lemma saved_locally_counted ls1 allUsers userData :
  (∀ c, getAllRegisteredUsers
          {| shared_registered_users_db := shared_registered_users_db ls1;
             registered_user_ := registered_user_ ls1;
             shared_user_counter := c |}
        = Some (allUsers,
                {| shared_registered_users_db := shared_registered_users_db ls1;
                   registered_user_ := registered_user_ ls1;
                   shared_user_counter := c |})) →
  let userId := match shared_user_counter ls1 with
                | Some lastUserId => lastUserId + 1
                | None => 1
                end in
  counted (saved_locally ls1 userData)
  = ([ToastSuccess ("Conta criada com sucesso! Seu ID é #" +:+ pretty userId);
      OnLogin (with_handle userId userData)],
     {| shared_registered_users_db := Users (allUsers ++ [with_handle userId userData]);
        registered_user_ := registered_user_ ls1;
        shared_user_counter := Some userId |}).
Proof.
  intros Hagain userId. unfold saved_locally, generateNextUserId. cbv zeta.
  unfold saveUserToSharedDatabase. rewrite Hagain. unfold counted.
  by rewrite getAllRegisteredUsers_setShared.
Qed.

Lemma saved_on_server_counted ls1 allUsers reached server1 savedUser :
  getAllRegisteredUsers ls1 = Some (allUsers, ls1) →
  counted (saved_on_server ls1 reached server1 savedUser)
  = ([ToastSuccess ("Conta criada com sucesso! Seu ID é "
                    +:+ default "undefined" (UserData.displayUsername savedUser));
      OnLogin savedUser],
     if reached then setShared (SyncServer.users server1) ls1 else ls1).
Proof.
  intros Hagain. unfold saved_on_server, fetchUsersFromServer, counted.
  destruct reached.
  - by rewrite getAllRegisteredUsers_setShared.
  - by rewrite Hagain.
Qed.

(** What a registration that logs a user in has done. *)
Lemma handleRegister_logged_in js_length ls server rd k user :
  user ∈ logged_in (handleRegister js_length ls server rd k).1.1 →
  ∃ users,
    getAllRegisteredUsers (handleRegister js_length ls server rd k).1.2
    = Some (users, (handleRegister js_length ls server rd k).1.2)
    ∧ rd_username rd ≠ "" ∧ rd_password rd ≠ ""
    ∧ rd_password rd = rd_confirmPassword rd
    ∧ (4 ≤ js_length (rd_password rd))%nat
    ∧ UserData.username user = rd_username rd
    ∧ UserData.password user = rd_password rd
    ∧ is_Some (UserData.displayUsername user)
    ∧ SyncServer.find_username (rd_username rd) users
      = (if decide (reached_save k = true ∧ reached_reload k = false
                    ∧ SyncServer.find_username (rd_username rd) (SyncServer.users server)
                      = None)
         then None else Some user).
Proof.
  unfold handleRegister.
  destruct (decide (rd_name rd = "" ∨ _)) as [Hempty | Hfilled];
    [by intros H%elem_of_nil |].
  destruct (decide (rd_password rd ≠ rd_confirmPassword rd)) as [Hdiff | Hsame];
    [by intros H%elem_of_nil |].
  apply dec_stable in Hsame.
  destruct (decide (js_length (rd_password rd) < 4)) as [Hshort | Hlong];
    [by intros H%elem_of_nil |].
  destruct (getAllRegisteredUsersAsync ls (reached_list k) server) as [[allUsers ls1]|]
    eqn:Hasync; [| by intros H%elem_of_nil].
  destruct (SyncServer.find_username (rd_username rd) allUsers) eqn:Hfree;
    [by intros H%elem_of_nil |].
  pose proof (async_again _ _ _ _ _ Hasync) as Hagain.
  pose proof (Hagain (shared_user_counter ls1)) as Hagain1. rewrite same_store in Hagain1.
  assert (rd_username rd ≠ "" ∧ rd_password rd ≠ "") as [Hu Hp].
  { split; intros Heq; apply Hfilled; rewrite Heq; tauto. }
  assert (4 ≤ js_length (rd_password rd))%nat as Hlen by lia.
  cbv zeta.
  assert (∀ server1 : SyncServer.Data,
            ¬ (reached_save k = true ∧ reached_reload k = false
               ∧ SyncServer.find_username (rd_username rd) (SyncServer.users server)
                 = None) →
            user ∈ logged_in (counted (saved_locally ls1 (new_user rd k)), server1).1.1 →
            ∃ users,
              getAllRegisteredUsers
                (counted (saved_locally ls1 (new_user rd k)), server1).1.2
              = Some (users, (counted (saved_locally ls1 (new_user rd k)), server1).1.2)
              ∧ rd_username rd ≠ "" ∧ rd_password rd ≠ ""
              ∧ rd_password rd = rd_confirmPassword rd
              ∧ (4 ≤ js_length (rd_password rd))%nat
              ∧ UserData.username user = rd_username rd
              ∧ UserData.password user = rd_password rd
              ∧ is_Some (UserData.displayUsername user)
              ∧ SyncServer.find_username (rd_username rd) users
                = (if decide (reached_save k = true ∧ reached_reload k = false
                              ∧ SyncServer.find_username (rd_username rd)
                                  (SyncServer.users server) = None)
                   then None else Some user)) as Hlocal.
  { intros server1 Hnot. rewrite (saved_locally_counted ls1 allUsers _ Hagain).
    cbn [fst snd logged_in omap list_omap]. intros Hin.
    apply list_elem_of_singleton in Hin as ->.
    eexists. split; [reflexivity |].
    split_and!; [done | done | done | done | done | done | by eexists |].
    rewrite decide_False by done.
    rewrite find_username_app, Hfree. simpl. by rewrite bool_decide_eq_true_2. }
  unfold saveUserToServer. destruct (reached_save k) eqn:Hsave;
    [| apply Hlocal; by intros [? _]].
  unfold SyncServer.post_users.
  change (UserData.username (new_user rd k)) with (rd_username rd).
  destruct (SyncServer.find_username (rd_username rd) (SyncServer.users server))
    as [taken|] eqn:Hserver; [apply Hlocal; by intros (_ & _ & ?) |].
  cbv zeta. rewrite (saved_on_server_counted ls1 allUsers) by done.
  cbn [fst snd logged_in omap list_omap]. intros Hin.
  apply list_elem_of_singleton in Hin as ->.
  destruct (reached_reload k) eqn:Hreload.
  - eexists. split; [apply getAllRegisteredUsers_setShared |].
    split_and!; [done | done | done | done | done | done | by eexists |].
    rewrite decide_False by (by intros (_ & ? & _)).
    cbn [SyncServer.users]. rewrite find_username_app.
    rewrite Hserver. simpl. by rewrite bool_decide_eq_true_2.
  - exists allUsers. split; [done |].
    split_and!; [done | done | done | done | done | done | by eexists |].
    by rewrite decide_True.
Qed.

End Registering.

(** X25.  A user the registration screen has logged in can log in again
    with the same name and password, and with no other password, on the
    same browser, provided the list of users was reloaded from the server
    after the server saved the user (or the user was saved in the browser
    only).  When the server saved the user but the reload did not reach it,
    the browser does not know the user: the next login with the right
    password is refused with "user not found".  The user logged in carries
    the name and the password of the form, which has passed the checks,
    and a handle. *)
Theorem registered_user_can_log_in_again
    (js_length : string → nat) (ls : Auth.Store) (server : SyncServer.Data)
    (rd : Auth.RegisterData) (k : Auth.Round) (user : UserData.t) :
  let res := Auth.handleRegister js_length ls server rd k in
  user ∈ Auth.logged_in res.1.1 →
  UserData.username user = Auth.rd_username rd
  ∧ UserData.password user = Auth.rd_password rd
  ∧ is_Some (UserData.displayUsername user)
  ∧ Auth.rd_password rd = Auth.rd_confirmPassword rd
  ∧ (4 ≤ js_length (Auth.rd_password rd))%nat
  ∧ ((Auth.reached_save k = true → Auth.reached_reload k = true) →
     Auth.handleLogin res.1.2 (Auth.rd_username rd) (Auth.rd_password rd)
       = Some ([Auth.ToastSuccess "Login realizado com sucesso!"; Auth.OnLogin user],
               res.1.2)
     ∧ ∀ wrong, wrong ≠ "" → wrong ≠ Auth.rd_password rd →
         Auth.handleLogin res.1.2 (Auth.rd_username rd) wrong
         = Some ([Auth.ToastError "Senha incorreta."], res.1.2))
  ∧ (Auth.reached_save k = true → Auth.reached_reload k = false →
     SyncServer.find_username (Auth.rd_username rd) (SyncServer.users server) = None →
     Auth.handleLogin res.1.2 (Auth.rd_username rd) (Auth.rd_password rd)
     = Some ([Auth.ToastError
                "Usuário não encontrado. Você precisa se cadastrar primeiro."],
             res.1.2)).
Proof.
  intros res Hin.
  destruct (handleRegister_logged_in js_length ls server rd k user Hin)
    as (users & Hread & Hu & Hp & Hsame & Hlen & Hname & Hpass & Hhandle & Hfind).
  fold res in Hread.
  split_and!; [done | done | done | done | done | |].
  - intros Hreload.
    rewrite decide_False in Hfind.
    2:{ intros (Hs & Hr & _). rewrite (Hreload Hs) in Hr. discriminate. }
    split.
    + rewrite (handleLogin_on _ users) by done. rewrite Hfind.
      by rewrite decide_True.
    + intros wrong Hw Hne. rewrite (handleLogin_on _ users) by done. rewrite Hfind.
      rewrite decide_False; [done |]. by rewrite Hpass.
  - intros Hs Hr Hfree. rewrite decide_True in Hfind by done.
    rewrite (handleLogin_on _ users) by done. by rewrite Hfind.
Qed.

Lemma registered_user_can_log_in_again_witness :
  let rd := {| Auth.rd_name := "Alice"; Auth.rd_username := "alice";
               Auth.rd_password := "secret"; Auth.rd_confirmPassword := "secret" |} in
  let k := {| Auth.reached_list := true; Auth.reached_save := true;
              Auth.reached_reload := true; Auth.now_id := 1000;
              Auth.now_created := 1001; Auth.now_server := 1002 |} in
  let ls := {| Auth.shared_registered_users_db := Auth.NoUsers;
               Auth.registered_user_ := ∅; Auth.shared_user_counter := None |} in
  let res := Auth.handleRegister String.length ls SyncServer.initial rd k in
  ∃ user, user ∈ Auth.logged_in res.1.1
          ∧ UserData.displayUsername user = Some "#1"
          ∧ Auth.handleLogin res.1.2 "alice" "secret"
            = Some ([Auth.ToastSuccess "Login realizado com sucesso!"; Auth.OnLogin user],
                    res.1.2).
Proof.
  intros rd k ls res.
  assert (∃ user, Auth.logged_in res.1.1 = [user]
                  ∧ UserData.displayUsername user = Some "#1") as (user & Huser & Hh).
  { eexists. split; vm_compute; reflexivity. }
  assert (user ∈ Auth.logged_in res.1.1) as Hin.
  { rewrite Huser. apply list_elem_of_here. }
  exists user. split; [exact Hin | split; [exact Hh |]].
  destruct (registered_user_can_log_in_again String.length ls SyncServer.initial rd k
              user Hin) as (_ & _ & _ & _ & _ & Hlogin & _).
  apply Hlogin. reflexivity.
Defined.

Section OfflineHandles.

Import Auth.

Lemma getAllRegisteredUsers_counter ls users ls1 :
  getAllRegisteredUsers ls = Some (users, ls1) →
  shared_user_counter ls1 = shared_user_counter ls.
Proof.
  unfold getAllRegisteredUsers.
  destruct (shared_registered_users_db ls); [| done | by intros [= _ <-]].
  destruct (decide _); by intros [= _ <-].
Qed.

(** One registration without the server: nobody is logged in and the
    counter stays, or one user is, with the next number. *)
Lemma handleRegister_offline js_length ls server rd k :
  offline k →
  let res := handleRegister js_length ls server rd k in
  res.2 = server
  ∧ ((logged_in res.1.1 = [] ∧ counter res.1.2 = counter ls)
     ∨ (∃ user, logged_in res.1.1 = [user]
                ∧ UserData.sequentialId user = Some (S (counter ls))
                ∧ UserData.displayUsername user
                  = Some ("#" +:+ pretty (S (counter ls)))
                ∧ counter res.1.2 = S (counter ls))).
Proof.
  intros (Hlist & Hsave & Hreload). unfold handleRegister. cbv zeta.
  destruct (decide (rd_name rd = "" ∨ _)); [split; [done | by left] |].
  destruct (decide (rd_password rd ≠ rd_confirmPassword rd)); [split; [done | by left] |].
  destruct (decide (js_length (rd_password rd) < 4)); [split; [done | by left] |].
  destruct (getAllRegisteredUsersAsync ls (reached_list k) server) as [[allUsers ls1]|]
    eqn:Hasync; [| split; [done | by left]].
  pose proof (async_again _ _ _ _ _ Hasync) as Hagain.
  rewrite Hlist in Hasync. unfold getAllRegisteredUsersAsync in Hasync. simpl in Hasync.
  apply getAllRegisteredUsers_counter in Hasync.
  assert (counter ls1 = counter ls) as Hcounter by (unfold counter; by rewrite Hasync).
  destruct (SyncServer.find_username (rd_username rd) allUsers);
    [split; [done | by left] |].
  rewrite Hsave. unfold saveUserToServer.
  rewrite (saved_locally_counted ls1 allUsers _ Hagain).
  split; [done |]. right. eexists. split; [reflexivity |].
  assert (match shared_user_counter ls1 with
          | Some lastUserId => lastUserId + 1
          | None => 1
          end = S (counter ls)) as ->.
  { rewrite <- Hcounter. unfold counter. destruct (shared_user_counter ls1); simpl; lia. }
  done.
Qed.

End OfflineHandles.

(** X26.  Without the server the registration screen numbers the users
    itself: over any series of registrations none of which reaches the
    server, the users logged in get the numbers following the browser's
    counter, one after the other, with the handles to match, and the
    counter ends that many higher; attempts that are refused use no
    number, and the server is not touched. *)
Theorem offline_handles_are_sequential
    (js_length : string → nat) (ls : Auth.Store) (server : SyncServer.Data)
    (reqs : list (Auth.RegisterData * Auth.Round)) :
  Forall (fun p : Auth.RegisterData * Auth.Round => Auth.offline p.2) reqs →
  let res := Auth.register_all js_length ls server reqs in
  UserData.sequentialId <$> res.1.1
    = Some <$> seq (S (Auth.counter ls)) (length res.1.1)
  ∧ UserData.displayUsername <$> res.1.1
    = (fun n => Some ("#" +:+ pretty n)) <$> seq (S (Auth.counter ls)) (length res.1.1)
  ∧ Auth.counter res.1.2 = Auth.counter ls + length res.1.1
  ∧ res.2 = server.
Proof.
  revert ls server. induction reqs as [|[rd k] reqs IH]; intros ls server Hreqs.
  - simpl. split_and!; [done | done | lia | done].
  - apply Forall_cons in Hreqs as [Hk Hreqs]. cbn [Auth.register_all].
    destruct (handleRegister_offline js_length ls server rd k Hk) as [Hserver Hstep].
    destruct (Auth.handleRegister js_length ls server rd k) as [[effects ls1] server1].
    cbn [fst snd] in Hserver, Hstep. subst server1.
    specialize (IH ls1 server Hreqs).
    destruct (Auth.register_all js_length ls1 server reqs) as [[users ls2] server2].
    cbn [fst snd] in IH |- *. destruct IH as (Hids & Hhandles & Hcount & ->).
    destruct Hstep as [[-> Hc] | (user & -> & Hid & Hhandle & Hc)].
    + rewrite Hc in *. simpl. by split_and!.
    + rewrite Hc in *. cbn [app length seq fmap list_fmap].
      change (list_fmap ?A ?B ?f ?l) with (f <$> l).
      rewrite Hid, Hhandle, Hids, Hhandles. split_and!; [done | done | lia | done].
Qed.

Lemma offline_handles_are_sequential_witness :
  let k := {| Auth.reached_list := false; Auth.reached_save := false;
              Auth.reached_reload := false; Auth.now_id := 1000;
              Auth.now_created := 1001; Auth.now_server := 1002 |} in
  let reqs := [({| Auth.rd_name := "Alice"; Auth.rd_username := "alice";
                   Auth.rd_password := "secret";
                   Auth.rd_confirmPassword := "secret" |}, k);
               ({| Auth.rd_name := "Alice"; Auth.rd_username := "alice";
                   Auth.rd_password := "other";
                   Auth.rd_confirmPassword := "other" |}, k);
               ({| Auth.rd_name := "Bob"; Auth.rd_username := "bob";
                   Auth.rd_password := "hunter";
                   Auth.rd_confirmPassword := "hunter" |}, k)] in
  let ls := {| Auth.shared_registered_users_db := Auth.NoUsers;
               Auth.registered_user_ := ∅; Auth.shared_user_counter := None |} in
  Forall (fun p : Auth.RegisterData * Auth.Round => Auth.offline p.2) reqs
  ∧ Auth.counter (Auth.register_all String.length ls SyncServer.initial reqs).1.2
    = Auth.counter ls
      + length (Auth.register_all String.length ls SyncServer.initial reqs).1.1.
Proof.
  intros k reqs ls.
  assert (Forall (fun p : Auth.RegisterData * Auth.Round => Auth.offline p.2) reqs) as H.
  { repeat constructor. }
  split; [exact H |].
  exact (proj1 (proj2 (proj2
           (offline_handles_are_sequential String.length ls SyncServer.initial reqs H)))).
Defined.
